(** * Mastery-gated progression engine: watch-progress ratchet, playback
      seek guard and attention sampler.

    Shallow embedding of
      - frontend/src/components/ControlledVideoPlayer.tsx
      - frontend/src/hooks/useAttentionTracker.ts
      - frontend/src/components/AttentionMonitor.tsx
    and of the server-side progress rule, whose implementation lives in the
    Python backend and is modelled from its written description.

    Conventions.  Seconds and detector confidences are JavaScript numbers with
    fractional values; they are modelled as rationals ([Q]).  Wall-clock
    readings ([Date.now()]) and millisecond durations are integers ([Z]).
    React state is a record, every [useRef] cell is a record field, and the
    browser resources a hook holds (camera streams, intervals, detectors) are
    handles into an explicit [Browser] record. *)

From Stdlib Require Import QArith Qminmax Qround Lqa Lia ZArith List Bool Ascii.
From stdpp Require Import base option list gmap strings pretty.
Import ListNotations.

Local Open Scope Q_scope.

(** ** Comparisons on JavaScript numbers *)

Definition Qleb (x y : Q) : bool := Qle_bool x y.
Definition Qltb (x y : Q) : bool := negb (Qle_bool y x).
Definition Qgtb (x y : Q) : bool := Qltb y x.
Definition Qgeb (x y : Q) : bool := Qleb y x.

(** ** Wire format of [GET/POST /videos/{video_id}/progress]

    The fields the client reads from [res.data]. *)

Record ProgressResponse := mkProgressResponse {
  watched_seconds : Q;
  max_watched_seconds : Q;
  completed : bool
}.

(** ** Progress store and sync protocol (server side) *)

Module ProgressStore.

Record WatchProgress := mkWatchProgress {
  watchedSeconds : Q;
  totalSeconds : Q;
  maxWatchedSeconds : Q;
  completed : bool;
  updatedAt : Z
}.

Inductive SyncError := AuthorizationError | ValidationError.

Inductive Result :=
| Accepted (store : gmap (nat * nat) WatchProgress) (r : ProgressResponse)
| Rejected (e : SyncError).

(** Stored ratchet of a (user, video) pair, 0 when no row exists yet. *)
Definition lastMax (store : gmap (nat * nat) WatchProgress) (k : nat * nat) : Q :=
  match store !! k with
  | Some p => maxWatchedSeconds p
  | None => 0
  end.

(** Modelled from the spec: the backend handler of
    [POST /videos/{video_id}/progress] is not part of the front-end
    sources.  The accepted ratchet is
    [min(max(lastMax, watchedSeconds), lastMax + MAX_ADVANCE)]. *)
Definition ratchet (MAX_ADVANCE lastM watched : Q) : Q :=
  Qmin (Qmax lastM watched) (lastM + MAX_ADVANCE).

(** The same rule as the repository's developer notes word it
    (PROJECT_DOCUMENTATION.md, Enforced Learning: "Server-side validation
    rejects any progress update > last_max + 15s"): an update beyond the
    bound leaves the ratchet where it was. *)
Definition ratchetRejecting (MAX_ADVANCE lastM watched : Q) : Q :=
  if Qgtb watched (lastM + MAX_ADVANCE) then lastM else Qmax lastM watched.

(** Modelled from the spec: [completed = maxWatchedSeconds >= 0.9 * totalSeconds]. *)
Definition isCompleted (maxW total : Q) : bool := Qgeb maxW (0.9 * total).

(** Modelled from the spec: operation [reportProgress(userId, videoId,
    watchedSeconds, totalSeconds)] of the Progress Store.  [enrolled] stands
    for the authentication/enrolment collaborator, [now] for the clock that
    stamps [updatedAt].  [totalSeconds] is set by the first report. *)
Definition reportProgress (MAX_ADVANCE : Q) (enrolled : nat -> nat -> bool) (now : Z)
    (store : gmap (nat * nat) WatchProgress)
    (userId videoId : nat) (watched total : Q) : Result :=
  if negb (enrolled userId videoId) then Rejected AuthorizationError
  else if negb (Qleb 0 watched && Qltb 0 total) then Rejected ValidationError
  else
    let k := (userId, videoId) in
    let newMax := ratchet MAX_ADVANCE (lastMax store k) watched in
    let total' := match store !! k with
                  | Some p => totalSeconds p
                  | None => total
                  end in
    let row := {| watchedSeconds := watched;
                  totalSeconds := total';
                  maxWatchedSeconds := newMax;
                  completed := isCompleted newMax total';
                  updatedAt := now |} in
    Accepted (<[k := row]> store)
             (mkProgressResponse watched newMax (isCompleted newMax total')).

(** One client call, as the server receives it. *)
Record Call := mkCall {
  c_user : nat; c_video : nat; c_watched : Q; c_total : Q; c_now : Z
}.

(** A rejected call leaves the store as it was. *)
Definition applyCall (A : Q) (enrolled : nat -> nat -> bool)
    (store : gmap (nat * nat) WatchProgress) (c : Call) : gmap (nat * nat) WatchProgress :=
  match reportProgress A enrolled (c_now c) store (c_user c) (c_video c)
                       (c_watched c) (c_total c) with
  | Accepted store' _ => store'
  | Rejected _ => store
  end.

Definition runCalls (A : Q) (enrolled : nat -> nat -> bool)
    (store : gmap (nat * nat) WatchProgress) (cs : list Call) : gmap (nat * nat) WatchProgress :=
  fold_left (applyCall A enrolled) cs store.

End ProgressStore.

(** ** Playback seek guard (ControlledVideoPlayer.tsx) *)

Module HTMLVideoElement.
(** The part of the DOM video element the component reads and writes. *)
Record t := mk { currentTime : Q; duration : Q; paused : bool }.

Definition set_currentTime (x : Q) (v : t) : t :=
  mk x (duration v) (paused v).
End HTMLVideoElement.

Module Player.

Record Props := mkProps {
  videoId : nat;
  isMandatory : bool;
  (** whether the optional [onProgressUpdate] callback was passed *)
  onProgressUpdate : bool
}.

(** React state of the component plus the element behind [videoRef]. *)
Record State := mkState {
  videoRef : option HTMLVideoElement.t;
  maxWatched : Q;
  currentTime : Q;
  duration : Q;
  isPlaying : bool;
  loading : bool
}.

Definition set_videoRef (v : option HTMLVideoElement.t) (s : State) : State :=
  mkState v (maxWatched s) (currentTime s) (duration s) (isPlaying s) (loading s).
Definition setMaxWatched (x : Q) (s : State) : State :=
  mkState (videoRef s) x (currentTime s) (duration s) (isPlaying s) (loading s).
Definition setCurrentTime (x : Q) (s : State) : State :=
  mkState (videoRef s) (maxWatched s) x (duration s) (isPlaying s) (loading s).
Definition setIsPlaying (b : bool) (s : State) : State :=
  mkState (videoRef s) (maxWatched s) (currentTime s) (duration s) b (loading s).

Definition initial : State := mkState None 0 0 0 false true.

(** What leaves the component: HTTP posts, the parent callback, the log. *)
Inductive Effect :=
| PostProgress (video : nat) (watched_seconds total_seconds : Q)
| OnProgressUpdate (completed : bool) (watchedSeconds : Q)
| ConsoleError.

(** How an awaited [api.post] settles. *)
Inductive PostOutcome :=
| Responded (data : ProgressResponse)
| Threw.

(** [handleSeeking]: the browser has already moved [video.currentTime] to
    the seek target when the event fires; the handler returns the element
    as it leaves it. *)
Definition handleSeeking (p : Props) (s : State) (video : HTMLVideoElement.t)
    : HTMLVideoElement.t :=
  if negb (isMandatory p) then video
  else
    let allowedMax := maxWatched s + 2 in
    if Qgtb (HTMLVideoElement.currentTime video) allowedMax
    then HTMLVideoElement.set_currentTime (maxWatched s) video
    else video.

(** [handleTimeUpdate] *)
Definition handleTimeUpdate (s : State) (video : HTMLVideoElement.t) : State :=
  let s1 := setCurrentTime (HTMLVideoElement.currentTime video) s in
  if Qgtb (HTMLVideoElement.currentTime video) (maxWatched s)
  then setMaxWatched (HTMLVideoElement.currentTime video) s1
  else s1.

Definition handlePlay (s : State) : State := setIsPlaying true s.
Definition handlePause (s : State) : State := setIsPlaying false s.

(** [saveProgress], first half: up to the awaited post.  [None] is the
    early return on an unmounted element; otherwise the captured
    [currentPos] and the request. *)
Definition saveProgress_send (p : Props) (s : State) : option (Q * Effect) :=
  match videoRef s with
  | None => None
  | Some v =>
      let currentPos := HTMLVideoElement.currentTime v in
      let totalDuration := HTMLVideoElement.duration v in
      Some (currentPos, PostProgress (videoId p) currentPos totalDuration)
  end.

(** [saveProgress], second half: the continuation after the await, run
    whenever the post settles, with the [currentPos] captured before it. *)
Definition saveProgress_settle (p : Props) (currentPos : Q) (o : PostOutcome)
    (s : State) : State * list Effect :=
  match o with
  | Responded data =>
      (setMaxWatched (max_watched_seconds data) s,
       if onProgressUpdate p
       then [OnProgressUpdate (completed data) currentPos]
       else [])
  | Threw => (s, [ConsoleError])
  end.

(** [handleEnded].  [o] is how the awaited post settles, and [current] is
    what [videoRef.current] holds at that moment: the code reads it again for
    the callback, after the await.  It is the element, or [None] when the
    player has been unmounted in the meantime, React having set the ref to
    null; the read then throws inside the [try] and ends in the [catch]. *)
Definition handleEnded (p : Props) (o : PostOutcome)
    (current : option HTMLVideoElement.t) (s : State) : State * list Effect :=
  let s1 := setIsPlaying false s in
  match videoRef s with
  | None => (s1, [])
  | Some v =>
      let d := HTMLVideoElement.duration v in
      let post := PostProgress (videoId p) d d in
      match o with
      | Responded _ =>
          (s1, post :: (if onProgressUpdate p
                        then match current with
                             | Some v' =>
                                 [OnProgressUpdate true (HTMLVideoElement.duration v')]
                             | None => [ConsoleError]
                             end
                        else []))
      | Threw => (s1, [post; ConsoleError])
      end
  end.

(** Signals the component reacts to, in the order the event loop delivers
    them.  A [Settled] carries the position its request had captured. *)
Inductive Event :=
| Seeking (target : Q)
| TimeUpdate (t : Q)
| Settled (currentPos : Q) (o : PostOutcome).

Definition moveTo (t : Q) (s : State) : option HTMLVideoElement.t :=
  HTMLVideoElement.set_currentTime t <$> videoRef s.

Definition step (p : Props) (s : State) (e : Event) : State :=
  match e with
  | Seeking t =>
      set_videoRef (handleSeeking p s <$> moveTo t s) s
  | TimeUpdate t =>
      match moveTo t s with
      | Some v => handleTimeUpdate (set_videoRef (Some v) s) v
      | None => s
      end
  | Settled pos o => fst (saveProgress_settle p pos o s)
  end.

Definition run (p : Props) (s : State) (es : list Event) : State :=
  fold_left (step p) es s.

(** *** The rest of the component: initial load, metadata, progress bars *)

Definition setDuration (x : Q) (s : State) : State :=
  mkState (videoRef s) (maxWatched s) (currentTime s) x (isPlaying s) (loading s).
Definition setLoading (b : bool) (s : State) : State :=
  mkState (videoRef s) (maxWatched s) (currentTime s) (duration s) (isPlaying s) b.

(** How the awaited [api.get] of the mount effect settles. *)
Inductive GetOutcome :=
| Got (data : ProgressResponse)
| GetThrew.

(** [fetchProgress] of the mount effect: a stored ratchet above 0 is taken
    over together with the last position, which is also written to the
    element when there is one; [loading] ends in the [finally]. *)
Definition fetchProgress (o : GetOutcome) (s : State) : State :=
  let s1 :=
    match o with
    | Got data =>
        if Qgtb (max_watched_seconds data) 0 then
          let s2 := setCurrentTime (watched_seconds data)
                      (setMaxWatched (max_watched_seconds data) s) in
          match videoRef s2 with
          | Some v =>
              set_videoRef
                (Some (HTMLVideoElement.set_currentTime (watched_seconds data) v)) s2
          | None => s2
          end
        else s
    | GetThrew => s
    end in
  setLoading false s1.

(** [handleLoadedMetadata]; [video] is [e.currentTarget]. *)
Definition handleLoadedMetadata (s : State) (video : HTMLVideoElement.t) : State :=
  let s1 := setDuration (HTMLVideoElement.duration video) s in
  if Qgtb (currentTime s) 0 then
    match videoRef s1 with
    | Some v => set_videoRef (Some (HTMLVideoElement.set_currentTime (currentTime s) v)) s1
    | None => s1
    end
  else s1.

(** The [loadedmetadata] event on the mounted element. *)
Definition onLoadedMetadata (s : State) : State :=
  match videoRef s with
  | Some v => handleLoadedMetadata s v
  | None => s
  end.

(** The [timeupdate] event the browser fires at the element's position. *)
Definition onTimeUpdate (s : State) : State :=
  match videoRef s with
  | Some v => handleTimeUpdate s v
  | None => s
  end.

(** Everything the mounted component reacts to: the events of [Event], the
    settling of the mount effect's request, and the element's
    [loadedmetadata], [play], [pause] and [ended] events. *)
Inductive Signal :=
| Of (e : Event)
| Fetched (o : GetOutcome)
| LoadedMetadata
| Play
| Pause
| Ended (o : PostOutcome) (current : option HTMLVideoElement.t).

Definition signal (p : Props) (s : State) (g : Signal) : State :=
  match g with
  | Of e => step p s e
  | Fetched o => fetchProgress o s
  | LoadedMetadata => onLoadedMetadata s
  | Play => handlePlay s
  | Pause => handlePause s
  | Ended o current => fst (handleEnded p o current s)
  end.

Definition signals (p : Props) (s : State) (gs : list Signal) : State :=
  fold_left (signal p) gs s.

(** The signals that bring a server response into the component. *)
Definition answered (g : Signal) : bool :=
  match g with
  | Of (Settled _ (Responded _)) => true
  | Fetched (Got _) => true
  | _ => false
  end.
Definition isTimeUpdate (g : Signal) : bool :=
  match g with
  | Of (TimeUpdate _) => true
  | _ => false
  end.

(** A seek to [target] followed by the [timeupdate] at the position the
    element is left at. *)
Definition seekThenUpdate (p : Props) (target : Q) (s : State) : State :=
  onTimeUpdate (step p s (Seeking target)).

(** [progressPercent] and [maxWatchedPercent] *)
Definition progressPercent (s : State) : Q :=
  if Qgtb (duration s) 0 then (currentTime s / duration s) * 100 else 0.
Definition maxWatchedPercent (s : State) : Q :=
  if Qgtb (duration s) 0 then (maxWatched s / duration s) * 100 else 0.

(** [String.prototype.padStart] with a one-character filler. *)
Definition padStart (n : nat) (filler : ascii) (str : string) : string :=
  String.string_of_list_ascii (replicate (n - String.length str) filler) +:+ str.

(** The remainder operator [%] on numbers: the result has the sign of the
    dividend. *)
Definition Qtrunc (x : Q) : Z := if Qleb 0 x then Qfloor x else Qceiling x.
Definition jsRem (x y : Q) : Q := x - inject_Z (Qtrunc (x / y)) * y.

(** [formatTime] *)
Definition formatTime (seconds : Q) : string :=
  let mins := Qfloor (seconds / 60) in
  let secs := Qfloor (jsRem seconds 60) in
  pretty mins +:+ ":" +:+ padStart 2 "0" (pretty secs).

(** Derived notions used to state properties: whether an event is the
    settling of a sync, and the seek that goes as far as the guard allows,
    followed by its [timeupdate]. *)
Definition isSettled (e : Event) : bool :=
  match e with
  | Settled _ _ => true
  | _ => false
  end.

End Player.

(** ** Attention sampler and debouncer (useAttentionTracker.ts) *)

Module Tracker.

Local Open Scope Z_scope.

Definition DISTRACTION_THRESHOLD_MS : Z := 10000.
Definition DETECTION_INTERVAL_MS : Z := 500.
Definition TREND_WINDOW_MS : Z := 3600000.
Definition BREAK_SUGGESTION_THRESHOLD : nat := 3.

Record AttentionState := mkAttentionState {
  isTracking : bool;
  isFaceDetected : bool;
  distractionEvents : nat;
  currentDistractionDuration : Z;
  shouldSuggestBreak : bool;
  totalFocusedTime : Z;
  totalDistractedTime : Z;
  detectionScore : Q
}.

(** The hook instance: its React state and its [useRef] cells.  Resources
    are handles (see [Browser]).  [lastDetectionRef] is written once at
    mount and never read, so it carries no field. *)
Record Hook := mkHook {
  state : AttentionState;
  videoRef : option nat;
  canvasRef : option nat;
  detectorRef : option nat;
  streamRef : option nat;
  intervalRef : option nat;
  distractionStartRef : option Z;
  eventTimestampsRef : list Z;
  eventTriggeredRef : bool
}.

(** What the page holds on the browser side: the camera streams whose
    tracks are running, the intervals that keep firing, the detectors not
    yet closed, the number of [alert] dialogs shown, and the supply of
    fresh handles. *)
Record Browser := mkBrowser {
  nextHandle : nat;
  liveStreams : gset nat;
  liveIntervals : gset nat;
  openDetectors : gset nat;
  alerts : nat
}.

Definition initialState : AttentionState :=
  mkAttentionState false true 0 0 false 0 0 0%Q.

Definition initialHook : Hook :=
  mkHook initialState None None None None None None [] false.

Definition initialBrowser : Browser := mkBrowser 0 ∅ ∅ ∅ 0.

(** *** Setters ([{...prev, field: value}] and [ref.current = value]) *)

Definition set_isTracking (b : bool) (s : AttentionState) : AttentionState :=
  mkAttentionState b (isFaceDetected s) (distractionEvents s)
    (currentDistractionDuration s) (shouldSuggestBreak s) (totalFocusedTime s)
    (totalDistractedTime s) (detectionScore s).
Definition set_detection (face : bool) (score : Q) (s : AttentionState) : AttentionState :=
  mkAttentionState (isTracking s) face (distractionEvents s)
    (currentDistractionDuration s) (shouldSuggestBreak s) (totalFocusedTime s)
    (totalDistractedTime s) score.
Definition set_distractionEvents (n : nat) (s : AttentionState) : AttentionState :=
  mkAttentionState (isTracking s) (isFaceDetected s) n
    (currentDistractionDuration s) (shouldSuggestBreak s) (totalFocusedTime s)
    (totalDistractedTime s) (detectionScore s).
Definition set_currentDistractionDuration (d : Z) (s : AttentionState) : AttentionState :=
  mkAttentionState (isTracking s) (isFaceDetected s) (distractionEvents s)
    d (shouldSuggestBreak s) (totalFocusedTime s)
    (totalDistractedTime s) (detectionScore s).
Definition set_shouldSuggestBreak (b : bool) (s : AttentionState) : AttentionState :=
  mkAttentionState (isTracking s) (isFaceDetected s) (distractionEvents s)
    (currentDistractionDuration s) b (totalFocusedTime s)
    (totalDistractedTime s) (detectionScore s).
Definition set_totalFocusedTime (t : Z) (s : AttentionState) : AttentionState :=
  mkAttentionState (isTracking s) (isFaceDetected s) (distractionEvents s)
    (currentDistractionDuration s) (shouldSuggestBreak s) t
    (totalDistractedTime s) (detectionScore s).
Definition set_totalDistractedTime (t : Z) (s : AttentionState) : AttentionState :=
  mkAttentionState (isTracking s) (isFaceDetected s) (distractionEvents s)
    (currentDistractionDuration s) (shouldSuggestBreak s) (totalFocusedTime s)
    t (detectionScore s).

Definition setState (f : AttentionState -> AttentionState) (h : Hook) : Hook :=
  mkHook (f (state h)) (videoRef h) (canvasRef h) (detectorRef h) (streamRef h)
    (intervalRef h) (distractionStartRef h) (eventTimestampsRef h)
    (eventTriggeredRef h).
Definition set_videoRef (v : option nat) (h : Hook) : Hook :=
  mkHook (state h) v (canvasRef h) (detectorRef h) (streamRef h)
    (intervalRef h) (distractionStartRef h) (eventTimestampsRef h)
    (eventTriggeredRef h).
Definition set_canvasRef (v : option nat) (h : Hook) : Hook :=
  mkHook (state h) (videoRef h) v (detectorRef h) (streamRef h)
    (intervalRef h) (distractionStartRef h) (eventTimestampsRef h)
    (eventTriggeredRef h).
Definition set_detectorRef (v : option nat) (h : Hook) : Hook :=
  mkHook (state h) (videoRef h) (canvasRef h) v (streamRef h)
    (intervalRef h) (distractionStartRef h) (eventTimestampsRef h)
    (eventTriggeredRef h).
Definition set_streamRef (v : option nat) (h : Hook) : Hook :=
  mkHook (state h) (videoRef h) (canvasRef h) (detectorRef h) v
    (intervalRef h) (distractionStartRef h) (eventTimestampsRef h)
    (eventTriggeredRef h).
Definition set_intervalRef (v : option nat) (h : Hook) : Hook :=
  mkHook (state h) (videoRef h) (canvasRef h) (detectorRef h) (streamRef h)
    v (distractionStartRef h) (eventTimestampsRef h)
    (eventTriggeredRef h).
Definition set_distractionStartRef (v : option Z) (h : Hook) : Hook :=
  mkHook (state h) (videoRef h) (canvasRef h) (detectorRef h) (streamRef h)
    (intervalRef h) v (eventTimestampsRef h)
    (eventTriggeredRef h).
Definition set_eventTimestampsRef (v : list Z) (h : Hook) : Hook :=
  mkHook (state h) (videoRef h) (canvasRef h) (detectorRef h) (streamRef h)
    (intervalRef h) (distractionStartRef h) v
    (eventTriggeredRef h).
Definition set_eventTriggeredRef (v : bool) (h : Hook) : Hook :=
  mkHook (state h) (videoRef h) (canvasRef h) (detectorRef h) (streamRef h)
    (intervalRef h) (distractionStartRef h) (eventTimestampsRef h)
    v.

(** *** The sampling tick *)

(** What one firing of the interval observes: the clock, whether the canvas
    yields a 2d context, and the detector's answer, which is the list of the
    scores [detections[i].categories[0].score], or [None] when [detect]
    throws.  A missing [results.detections] is the empty list. *)
Record Sample := mkSample {
  now : Z;
  ctx : bool;
  detections : option (list Q)
}.

(** The face branch of the state updater. *)
Definition onFace (now : Z) (h : Hook) : Hook :=
  let h1 :=
    match distractionStartRef h with
    | Some start =>
        let distractionDuration := now - start in
        set_eventTriggeredRef false
          (set_distractionStartRef None
             (setState (fun s => set_totalDistractedTime
                                   (totalDistractedTime s + distractionDuration) s) h))
    | None => h
    end in
  setState (fun s => set_totalFocusedTime (totalFocusedTime s + DETECTION_INTERVAL_MS)
                       (set_currentDistractionDuration 0 s)) h1.

(** [timestamps.filter(t => now - t < TREND_WINDOW_MS)] *)
Definition withinTrendWindow (now : Z) (timestamps : list Z) : list Z :=
  filter (fun t => now - t < TREND_WINDOW_MS) timestamps.

(** The no-face branch of the state updater. *)
Definition onNoFace (now : Z) (h : Hook) : Hook :=
  let start :=
    match distractionStartRef h with
    | None => now
    | Some start => start
    end in
  let h1 := set_distractionStartRef (Some start) h in
  let duration := now - start in
  let h2 := setState (set_currentDistractionDuration duration) h1 in
  if (DISTRACTION_THRESHOLD_MS <=? duration) && negb (eventTriggeredRef h2) then
    let h3 := setState (fun s => set_distractionEvents (S (distractionEvents s)) s) h2 in
    let h4 := set_eventTriggeredRef true h3 in
    let pushed := eventTimestampsRef h4 ++ [now] in
    let h5 := set_eventTimestampsRef (withinTrendWindow now pushed) h4 in
    if (BREAK_SUGGESTION_THRESHOLD <=? length (eventTimestampsRef h5))%nat
    then setState (set_shouldSuggestBreak true) h5
    else h5
  else h2.

(** The function passed to [setState] inside the interval callback; it
    also writes the cells.  React is taken to run it once per call. *)
Definition updater (faceDetected : bool) (rawScore : Q) (now : Z) (h : Hook) : Hook :=
  let h0 := setState (set_detection faceDetected rawScore) h in
  if faceDetected then onFace now h0 else onNoFace now h0.

Definition rawFace (ds : list Q) : bool :=
  match ds with [] => false | _ :: _ => true end.
Definition rawScore (ds : list Q) : Q :=
  match ds with [] => 0%Q | d :: _ => d end.
Definition faceDetected (ds : list Q) : bool :=
  rawFace ds && Qgtb (rawScore ds) 0.85.

(** The callback given to [setInterval].  It has no [await], so each firing
    runs to its end before the next. *)
Definition intervalCallback (smp : Sample) (h : Hook) : Hook :=
  match videoRef h, canvasRef h, detectorRef h with
  | Some _, Some _, Some _ =>
      if negb (ctx smp) then h
      else match detections smp with
           | None => h
           | Some ds => updater (faceDetected ds) (rawScore ds) (now smp) h
           end
  | _, _, _ => h
  end.

(** A tick that reaches the updater without a qualifying detection, and one
    that reaches it with a qualifying detection.  Any other tick (no 2d
    context, or [detect] throwing) returns before the updater. *)
Definition noFaceTick (smp : Sample) : bool :=
  ctx smp && match detections smp with
             | Some ds => negb (faceDetected ds)
             | None => false
             end.
Definition faceTick (smp : Sample) : bool :=
  ctx smp && match detections smp with
             | Some ds => faceDetected ds
             | None => false
             end.

(** Derived readings used to state the properties: the instant from which
    a no-face tick at [now] measures its duration, whether such a tick takes
    the event branch, and the score a sample hands to the updater. *)
Definition spanStart (now : Z) (h : Hook) : Z :=
  match distractionStartRef h with
  | None => now
  | Some start => start
  end.
Definition fires (now : Z) (h : Hook) : bool :=
  (DISTRACTION_THRESHOLD_MS <=? now - spanStart now h) && negb (eventTriggeredRef h).
Definition sampleScore (smp : Sample) : Q :=
  match detections smp with
  | Some ds => rawScore ds
  | None => 0%Q
  end.

Definition ticks (smps : list Sample) (h : Hook) : Hook :=
  fold_left (fun h smp => intervalCallback smp h) smps h.

(** The video, canvas and detector cells are all set. *)
Definition mountedRefs (h : Hook) : bool :=
  match videoRef h, canvasRef h, detectorRef h with
  | Some _, Some _, Some _ => true
  | _, _, _ => false
  end.

(** The guard is set only while the timer runs. *)
Definition guardTiedToTimer (h : Hook) : Prop :=
  eventTriggeredRef h = true -> distractionStartRef h <> None.

(** Whether a run of ticks is empty or ends in a qualifying detection. *)
Definition endsFocused (l : list Sample) : bool :=
  match rev l with
  | [] => true
  | smp :: _ => faceTick smp
  end.

(** *** Acquiring and releasing the camera *)

(** How the two awaited collaborators of [startTracking] settle:
    [getUserMedia] (permission granted or not) and [initializeDetector]
    (which returns [false] instead of throwing). *)
Record StartEnv := mkStartEnv {
  mediaGranted : bool;
  detectorInitialized : bool
}.

Definition fresh (b : Browser) : nat * Browser :=
  (nextHandle b,
   mkBrowser (S (nextHandle b)) (liveStreams b) (liveIntervals b)
     (openDetectors b) (alerts b)).

Definition add_stream (x : nat) (b : Browser) : Browser :=
  mkBrowser (nextHandle b) ({[x]} ∪ liveStreams b) (liveIntervals b)
    (openDetectors b) (alerts b).
Definition add_interval (x : nat) (b : Browser) : Browser :=
  mkBrowser (nextHandle b) (liveStreams b) ({[x]} ∪ liveIntervals b)
    (openDetectors b) (alerts b).
Definition add_detector (x : nat) (b : Browser) : Browser :=
  mkBrowser (nextHandle b) (liveStreams b) (liveIntervals b)
    ({[x]} ∪ openDetectors b) (alerts b).
Definition stop_tracks (x : nat) (b : Browser) : Browser :=
  mkBrowser (nextHandle b) (liveStreams b ∖ {[x]}) (liveIntervals b)
    (openDetectors b) (alerts b).
Definition clearInterval (x : nat) (b : Browser) : Browser :=
  mkBrowser (nextHandle b) (liveStreams b) (liveIntervals b ∖ {[x]})
    (openDetectors b) (alerts b).
Definition close_detector (x : nat) (b : Browser) : Browser :=
  mkBrowser (nextHandle b) (liveStreams b) (liveIntervals b)
    (openDetectors b ∖ {[x]}) (alerts b).
Definition alert (b : Browser) : Browser :=
  mkBrowser (nextHandle b) (liveStreams b) (liveIntervals b)
    (openDetectors b) (S (alerts b)).

(** Calls that release a resource, in the order they are made. *)
Inductive Release :=
| ClearInterval (interval : nat)
| CloseDetector (detector : nat)
| StopTracks (stream : nat).

(** [initializeDetector]: on success the new detector is stored in
    [detectorRef]; a failure is caught inside and reported as [false]. *)
Definition initializeDetector (ok : bool) (bh : Browser * Hook)
    : bool * (Browser * Hook) :=
  let '(b, h) := bh in
  if ok then
    let '(detector, b1) := fresh b in
    (true, (add_detector detector b1, set_detectorRef (Some detector) h))
  else (false, (b, h)).

(** [startTracking].  Every exception inside the [try] ends in the
    [catch], which logs and shows an alert; the wait for the camera
    element's metadata is taken to end.  Nothing is tested before
    [getUserMedia] is called. *)
Definition startTracking (e : StartEnv) (bh : Browser * Hook) : Browser * Hook :=
  let '(b, h) := bh in
  if negb (mediaGranted e) then (alert b, h)
  else
    let '(stream, b1) := fresh b in
    let b2 := add_stream stream b1 in
    let h1 := set_streamRef (Some stream) h in
    let '(video, b3) := fresh b2 in
    let h2 := set_videoRef (Some video) h1 in
    let '(canvas, b4) := fresh b3 in
    let h3 := set_canvasRef (Some canvas) h2 in
    let '(initialized, (b5, h4)) :=
      initializeDetector (detectorInitialized e) (b4, h3) in
    if negb initialized then (alert b5, h4)
    else
      let h5 := setState (set_isTracking true) h4 in
      let '(interval, b6) := fresh b5 in
      (add_interval interval b6, set_intervalRef (Some interval) h5).

(** [startTracking] awaits three times (lines 81, 100 and 108), and other
    handlers, or another call, can run while a call waits.  The stretches of
    code between the awaits follow; [startTracking] above is a call during
    whose awaits nothing else runs, the three stretches one after the other.

    Lines 84-100, run when [getUserMedia] resolves with a stream: the stream,
    a new video element and a new canvas are stored. *)
Definition startTracking_acquired (bh : Browser * Hook) : Browser * Hook :=
  let '(b, h) := bh in
  let '(stream, b1) := fresh b in
  let b2 := add_stream stream b1 in
  let h1 := set_streamRef (Some stream) h in
  let '(video, b3) := fresh b2 in
  let h2 := set_videoRef (Some video) h1 in
  let '(canvas, b4) := fresh b3 in
  (b4, set_canvasRef (Some canvas) h2).

(** Lines 101-108, run when the metadata of the call's own video element
    has loaded: [video.play()], then [initializeDetector] is called and waits
    in turn.  No cell and no state is written. *)
Definition startTracking_metadata (bh : Browser * Hook) : Browser * Hook := bh.

(** Lines 69-70 and 109-195, run when the creation of the detector settles:
    [initializeDetector] stores the detector and returns, then [isTracking]
    is set and the interval started; on a failure the [catch] shows the
    alert. *)
Definition startTracking_detector (ok : bool) (bh : Browser * Hook)
    : Browser * Hook :=
  let '(initialized, (b5, h4)) := initializeDetector ok bh in
  if negb initialized then (alert b5, h4)
  else
    let h5 := setState (set_isTracking true) h4 in
    let '(interval, b6) := fresh b5 in
    (add_interval interval b6, set_intervalRef (Some interval) h5).

(** [stopTracking], with the release calls it makes. *)
Definition stopTracking (bh : Browser * Hook) : Browser * Hook * list Release :=
  let '(b, h) := bh in
  let '(b1, h1, r1) :=
    match intervalRef h with
    | Some i => (clearInterval i b, set_intervalRef None h, [ClearInterval i])
    | None => (b, h, [])
    end in
  let '(b2, h2, r2) :=
    match detectorRef h1 with
    | Some d => (close_detector d b1, set_detectorRef None h1, [CloseDetector d])
    | None => (b1, h1, [])
    end in
  let '(b3, h3, r3) :=
    match streamRef h2 with
    | Some s => (stop_tracks s b2, set_streamRef None h2, [StopTracks s])
    | None => (b2, h2, [])
    end in
  let h4 :=
    match videoRef h3 with
    | Some _ => set_videoRef None h3
    | None => h3
    end in
  let h5 := set_canvasRef None h4 in
  let h6 := set_distractionStartRef None h5 in
  (b3, setState (set_isTracking false) h6, r1 ++ r2 ++ r3).

(** The release calls due for what the hook holds: one per held interval,
    detector and stream. *)
Definition releasesOf (h : Hook) : list Release :=
  match intervalRef h with Some i => [ClearInterval i] | None => [] end
  ++ match detectorRef h with Some d => [CloseDetector d] | None => [] end
  ++ match streamRef h with Some s => [StopTracks s] | None => [] end.

(** Every handle in use was handed out before. *)
Definition wfBrowser (b : Browser) : Prop :=
  forall x, x ∈ liveStreams b ∪ liveIntervals b ∪ openDetectors b ->
            (x < nextHandle b)%nat.

(** [dismissBreakSuggestion] *)
Definition dismissBreakSuggestion (h : Hook) : Hook :=
  set_eventTimestampsRef [] (setState (set_shouldSuggestBreak false) h).

(** [resetStats] *)
Definition resetStats (h : Hook) : Hook :=
  set_eventTimestampsRef []
    (setState (fun prev =>
                 set_shouldSuggestBreak false
                   (set_totalDistractedTime 0
                      (set_totalFocusedTime 0
                         (set_distractionEvents 0 prev)))) h).

(** *** Runs of the hook *)

(** What the event loop runs on the hook, one at a time.  [StartTracking e]
    is a call of [startTracking] during whose awaits nothing else runs (also
    the call whose [getUserMedia] is refused: its [catch] is all that runs).
    [MediaResolved], [MetadataLoaded] and [DetectorSettled ok] are the
    continuations of a call that waits at its first, second and third await;
    they run among the other operations, in whatever order the promises
    settle.  The call itself writes nothing before its first await. *)
Inductive Op :=
| Tick (smp : Sample)
| StartTracking (e : StartEnv)
| StopTracking
| DismissBreakSuggestion
| ResetStats
| MediaResolved
| MetadataLoaded
| DetectorSettled (ok : bool).

(** A tick is a firing of some interval that is still live. *)
Definition step (bh : Browser * Hook) (o : Op) : Browser * Hook :=
  match o with
  | Tick smp =>
      if bool_decide (liveIntervals (fst bh) = ∅) then bh
      else (fst bh, intervalCallback smp (snd bh))
  | StartTracking e => startTracking e bh
  | StopTracking => fst (stopTracking bh)
  | DismissBreakSuggestion => (fst bh, dismissBreakSuggestion (snd bh))
  | ResetStats => (fst bh, resetStats (snd bh))
  | MediaResolved => startTracking_acquired bh
  | MetadataLoaded => startTracking_metadata bh
  | DetectorSettled ok => startTracking_detector ok bh
  end.

Definition run (bh : Browser * Hook) (ops : list Op) : Browser * Hook :=
  fold_left step ops bh.

(** Distraction events a stretch of ticks emits, read off the counter. *)
Definition emitted (h : Hook) (smps : list Sample) : Z :=
  Z.of_nat (distractionEvents (state (ticks smps h)))
  - Z.of_nat (distractionEvents (state h)).

(** Derived notion used to state properties: the ticks of a run that carry
    a qualifying detection. *)
Definition faceTicks (smps : list Sample) : nat :=
  length (List.filter faceTick smps).

(** Whether a list of operations is one the event loop can produce: every
    continuation belongs to a call that waits at that await.  The counters
    are the calls waiting for the metadata and for the detector.  [run] is
    defined on every list, so what holds of all lists holds of these. *)
Fixpoint scheduledFrom (atMetadata atDetector : nat) (ops : list Op) : bool :=
  match ops with
  | [] => true
  | MediaResolved :: ops' => scheduledFrom (S atMetadata) atDetector ops'
  | MetadataLoaded :: ops' =>
      match atMetadata with
      | S n => scheduledFrom n (S atDetector) ops'
      | O => false
      end
  | DetectorSettled _ :: ops' =>
      match atDetector with
      | S n => scheduledFrom atMetadata n ops'
      | O => false
      end
  | _ :: ops' => scheduledFrom atMetadata atDetector ops'
  end.
Definition scheduled (ops : list Op) : bool := scheduledFrom 0 0 ops.

(** The operations that are no continuation of a waiting call. *)
Definition uninterrupted (o : Op) : bool :=
  match o with
  | MediaResolved | MetadataLoaded | DetectorSettled _ => false
  | _ => true
  end.

(** What holds of the hook and the browser together on every state the
    page reaches: [isTracking] tells exactly whether an interval is held,
    tracking implies that a detector is held, and every handle a cell holds
    is live. *)
Definition consistent (bh : Browser * Hook) : Prop :=
  (isTracking (state (snd bh)) = true <-> intervalRef (snd bh) <> None)
  /\ (isTracking (state (snd bh)) = true -> detectorRef (snd bh) <> None)
  /\ (forall x, streamRef (snd bh) = Some x -> x ∈ liveStreams (fst bh))
  /\ (forall x, detectorRef (snd bh) = Some x -> x ∈ openDetectors (fst bh))
  /\ (forall x, intervalRef (snd bh) = Some x -> x ∈ liveIntervals (fst bh)).

(** Tracking implies that the three cells the callback tests are set. *)
Definition tracksMounted (h : Hook) : Prop :=
  isTracking (state h) = true -> mountedRefs h = true.

End Tracker.

(** ** Focus-mode overlay (AttentionMonitor.tsx) *)

Module Monitor.

Local Open Scope Z_scope.

Definition BREAK_DURATION_MS : Z := 300000.

(** The component's own state; the tracker hook it uses sits next to it in
    [App]. *)
Record State := mkState {
  showConsentModal : bool;
  isOnBreak : bool;
  breakTimeLeft : Z;
  showBreakEndAlert : bool;
  pauseNotification : option string;
  lastProcessedEventRef : nat
}.

Definition initial : State := mkState false false 0 false None 0%nat.

Definition setPauseNotification (n : option string) (m : State) : State :=
  mkState (showConsentModal m) (isOnBreak m) (breakTimeLeft m)
    (showBreakEndAlert m) n (lastProcessedEventRef m).
Definition set_lastProcessedEventRef (n : nat) (m : State) : State :=
  mkState (showConsentModal m) (isOnBreak m) (breakTimeLeft m)
    (showBreakEndAlert m) (pauseNotification m) n.
Definition setIsOnBreak (b : bool) (m : State) : State :=
  mkState (showConsentModal m) b (breakTimeLeft m)
    (showBreakEndAlert m) (pauseNotification m) (lastProcessedEventRef m).
Definition setBreakTimeLeft (t : Z) (m : State) : State :=
  mkState (showConsentModal m) (isOnBreak m) t
    (showBreakEndAlert m) (pauseNotification m) (lastProcessedEventRef m).

(** Calls made on the player and on the timer queue. *)
Inductive Action :=
| PauseVideo
| ResumeVideo
| ClearNotificationAfter (ms : Z).

Definition notice (distractionEvents : nat) : string :=
  "Distraction detected (" +:+ pretty distractionEvents +:+ "/3). Video paused.".

(** The effect on [distractionEvents, shouldSuggestBreak, onPauseVideo]. *)
Definition distractionEffect (distractionEvents : nat) (shouldSuggestBreak : bool)
    (m : State) : State * list Action :=
  let '(m1, a1) :=
    if (lastProcessedEventRef m <? distractionEvents)%nat then
      let '(m', a') :=
        if (0 <? distractionEvents)%nat && (distractionEvents <? 3)%nat then
          (setPauseNotification (Some (notice distractionEvents)) m,
           [PauseVideo; ClearNotificationAfter 4000])
        else (m, []) in
      (set_lastProcessedEventRef distractionEvents m', a')
    else (m, []) in
  let a2 := if shouldSuggestBreak then [PauseVideo] else [] in
  (m1, a1 ++ a2).

(** The overlay together with its tracker hook and the browser. *)
Record App := mkApp {
  browser : Tracker.Browser;
  hook : Tracker.Hook;
  monitor : State
}.

Definition mounted : App :=
  mkApp Tracker.initialBrowser Tracker.initialHook initial.

(** A commit of the component: the distraction effect runs on the hook's
    current [distractionEvents] and [shouldSuggestBreak]. *)
Definition render (a : App) : App * list Action :=
  let '(m, acts) :=
    distractionEffect (Tracker.distractionEvents (Tracker.state (hook a)))
                      (Tracker.shouldSuggestBreak (Tracker.state (hook a)))
                      (monitor a) in
  (mkApp (browser a) (hook a) m, acts).

(** [handleTakeBreak] *)
Definition handleTakeBreak (a : App) : App * list Action :=
  (mkApp (browser a) (Tracker.resetStats (hook a))
     (setBreakTimeLeft BREAK_DURATION_MS (setIsOnBreak true (monitor a))),
   [PauseVideo]).

(** [handleEndBreak] *)
Definition handleEndBreak (a : App) : App * list Action :=
  (mkApp (browser a) (hook a) (setBreakTimeLeft 0 (setIsOnBreak false (monitor a))),
   [ResumeVideo]).

(** What happens to the mounted overlay.  The two break-modal buttons exist
    only while [shouldSuggestBreak && !isOnBreak]; the resume button only
    while [isOnBreak]. *)
Inductive Op :=
| Sampler (o : Tracker.Op)
| Render
| ContinueAnyway
| TakeBreak
| ResumeEarly.

Definition breakModalShown (a : App) : bool :=
  Tracker.shouldSuggestBreak (Tracker.state (hook a)) && negb (isOnBreak (monitor a)).

Definition step (a : App) (o : Op) : App * list Action :=
  match o with
  | Sampler t =>
      let '(b, h) := Tracker.step (browser a, hook a) t in
      (mkApp b h (monitor a), [])
  | Render => render a
  | ContinueAnyway =>
      if breakModalShown a
      then (mkApp (browser a) (Tracker.dismissBreakSuggestion (hook a)) (monitor a), [])
      else (a, [])
  | TakeBreak =>
      if breakModalShown a then handleTakeBreak a else (a, [])
  | ResumeEarly =>
      if isOnBreak (monitor a) then handleEndBreak a else (a, [])
  end.

(** A run, with the actions of each step. *)
Fixpoint run (a : App) (ops : list Op) : App * list (list Action) :=
  match ops with
  | [] => (a, [])
  | o :: ops' =>
      let '(a1, acts) := step a o in
      let '(a2, rest) := run a1 ops' in
      (a2, acts :: rest)
  end.

(** Runs of the effect alone, on the values each commit sees. *)
Fixpoint effects (m : State) (commits : list (nat * bool)) : State * list (list Action) :=
  match commits with
  | [] => (m, [])
  | (de, sb) :: rest =>
      let '(m1, acts) := distractionEffect de sb m in
      let '(m2, more) := effects m1 rest in
      (m2, acts :: more)
  end.

Definition isPause (a : Action) : bool :=
  match a with PauseVideo => true | _ => false end.
Definition isNotice (a : Action) : bool :=
  match a with ClearNotificationAfter _ => true | _ => false end.

(** Calls of [onPauseVideo], and notices raised, within one step. *)
Definition pauses (acts : list Action) : nat := length (List.filter isPause acts).
Definition notices (acts : list Action) : nat := length (List.filter isNotice acts).

(** Over a sequence of commits and the actions each one made: how many
    commits that saw the event count [c] raised a notice. *)
Fixpoint noticesAt (c : nat) (commits : list (nat * bool))
    (outs : list (list Action)) : nat :=
  match commits, outs with
  | (de, _) :: commits', acts :: outs' =>
      ((if (de =? c)%nat && (0 <? notices acts)%nat then 1 else 0)
       + noticesAt c commits' outs')%nat
  | _, _ => 0%nat
  end.

(** *** The break: countdown, ways out, enabling focus mode *)

Definition setShowBreakEndAlert (b : bool) (m : State) : State :=
  mkState (showConsentModal m) (isOnBreak m) (breakTimeLeft m)
    b (pauseNotification m) (lastProcessedEventRef m).
Definition setShowConsentModal (b : bool) (m : State) : State :=
  mkState b (isOnBreak m) (breakTimeLeft m)
    (showBreakEndAlert m) (pauseNotification m) (lastProcessedEventRef m).

(** What the break timer does besides updating state. *)
Inductive TimerEffect :=
| ClearBreakInterval
| PlayAlertSound.

(** One firing of the one-second break timer, which exists only while
    [isOnBreak]: the updater given to [setBreakTimeLeft]. *)
Definition breakTimerTick (m : State) : State * list TimerEffect :=
  if isOnBreak m then
    if breakTimeLeft m <=? 1000 then
      (setBreakTimeLeft 0 (setShowBreakEndAlert true (setIsOnBreak false m)),
       [ClearBreakInterval; PlayAlertSound])
    else (setBreakTimeLeft (breakTimeLeft m - 1000) m, [])
  else (m, []).

Definition breakTimerTicks (n : nat) (m : State) : State :=
  Nat.iter n (fun m => fst (breakTimerTick m)) m.

(** [handleDismissBreakEnd] *)
Definition handleDismissBreakEnd (a : App) : App * list Action :=
  (mkApp (browser a) (hook a) (setShowBreakEndAlert false (monitor a)),
   [ResumeVideo]).

(** [handleEnableFocusMode] *)
Definition handleEnableFocusMode (e : Tracker.StartEnv) (a : App) : App :=
  let m := setShowConsentModal false (monitor a) in
  let '(b, h) := Tracker.startTracking e (browser a, hook a) in
  mkApp b h m.

(** [formatTime], on milliseconds *)
Definition formatTime (ms : Z) : string :=
  let minutes := ms / 60000 in
  let seconds := Z.rem ms 60000 / 1000 in
  pretty minutes +:+ ":" +:+ Player.padStart 2 "0" (pretty seconds).

End Monitor.

(** ** Course page (app/student/courses/[id]/page.tsx, CoursePlayerPage) *)

Module CoursePage.

(** One entry of [GET /videos/course/{id}/progress]. *)
Record VideoProgress := mkVideoProgress {
  video_id : nat;
  video_title : string;
  order_index : Z;
  watched_seconds : Q;
  total_seconds : Q;
  max_watched_seconds : Q;
  completed : bool;
  can_access : bool;
  quiz_required : option nat
}.

Record Video := mkVideo {
  id : nat;
  title : string;
  v_order_index : Z;
  url : string
}.

Record State := mkState {
  videos : list Video;
  progress : list VideoProgress;
  activeVideo : option Video;
  quizNeeded : bool;
  quizCheckpoint : option nat;
  showQuiz : bool
}.

Definition setActiveVideo (v : option Video) (s : State) : State :=
  mkState (videos s) (progress s) v (quizNeeded s) (quizCheckpoint s) (showQuiz s).
Definition setQuizCheckpoint (c : option nat) (s : State) : State :=
  mkState (videos s) (progress s) (activeVideo s) (quizNeeded s) c (showQuiz s).
Definition setShowQuiz (b : bool) (s : State) : State :=
  mkState (videos s) (progress s) (activeVideo s) (quizNeeded s) (quizCheckpoint s) b.

(** [progress.find(p => p.video_id === videoId)] *)
Definition findProgress (videoId : nat) (ps : list VideoProgress) : option VideoProgress :=
  List.find (fun p => (video_id p =? videoId)%nat) ps.

(** A number used as a condition: [undefined] and [0] are false. *)
Definition truthy (n : option nat) : bool :=
  match n with
  | Some (S _) => true
  | _ => false
  end.

(** [handleVideoSelect] *)
Definition handleVideoSelect (video : Video) (s : State) : State :=
  match findProgress (id video) (progress s) with
  | Some videoProgress =>
      if can_access videoProgress then setActiveVideo (Some video) s
      else if truthy (quiz_required videoProgress)
           then setShowQuiz true (setQuizCheckpoint (quiz_required videoProgress) s)
           else s
  | None => s
  end.

(** [Math.round]: the nearest integer, halves upward. *)
Definition round (x : Q) : Z := Qfloor (x + (1 # 2))%Q.

(** [getProgressPercent] *)
Definition getProgressPercent (videoId : nat) (s : State) : Z :=
  match findProgress videoId (progress s) with
  | None => 0%Z
  | Some p =>
      if Qeq_bool (total_seconds p) 0 then 0%Z
      else round ((max_watched_seconds p / total_seconds p) * 100)
  end.

(** The sidebar's [canAccess] of the video shown at position [idx]:
    [videoProgress?.can_access ?? (idx === 0)]. *)
Definition shownAccessible (idx : nat) (video : Video) (s : State) : bool :=
  match findProgress (id video) (progress s) with
  | Some videoProgress => can_access videoProgress
  | None => (idx =? 0)%nat
  end.

(** The choice of the active video in [fetchData]; it is made only for a
    course with videos whose progress could be fetched ([None] stands for a
    failed fetch or a response without [videos]). *)
Definition firstAccessible (ps : list VideoProgress) : option VideoProgress :=
  match List.find (fun p => can_access p && negb (completed p)) ps with
  | Some p => Some p
  | None => List.find (fun p => can_access p) ps
  end.

Definition initialActiveVideo (courseVideos : list Video)
    (progressData : option (list VideoProgress)) : option Video :=
  match courseVideos, progressData with
  | first :: _, Some ps =>
      match firstAccessible ps with
      | Some p =>
          match List.find (fun v => (id v =? video_id p)%nat) courseVideos with
          | Some video => Some video
          | None => Some first
          end
      | None => Some first
      end
  | _, _ => None
  end.

End CoursePage.

(** ** Scenarios

    Concrete stores, states and runs the properties below are evaluated on. *)

Module Scenario.

(** A store whose row for user 1, video 1 has its ratchet at 100 s of a
    600 s video. *)
Definition store100 : gmap (nat * nat) ProgressStore.WatchProgress :=
  {[ (1%nat, 1%nat) := ProgressStore.mkWatchProgress 100 600 100 false 0 ]}.

Definition everyone : nat -> nat -> bool := fun _ _ => true.

(** The client claims second 500 on that row. *)
Definition claim500 : ProgressStore.Call := ProgressStore.mkCall 1 1 500 600 1.

(** A mandatory video of 300 s whose ratchet stands at 40 s. *)
Definition mandatory : Player.Props := Player.mkProps 7 true true.
Definition at40 : Player.State :=
  Player.mkState (Some (HTMLVideoElement.mk 40 300 false)) 40 40 300 true false.

(** The hook of a freshly mounted overlay after one successful
    [startTracking]. *)
Definition cameraOk : Tracker.StartEnv := Tracker.mkStartEnv true true.
Definition started : Tracker.Browser * Tracker.Hook :=
  Tracker.startTracking cameraOk (Tracker.initialBrowser, Tracker.initialHook).

(** Readings: nobody in the frame, a face in profile (score 0.6), a face
    looking at the screen (score 0.95). *)
Definition away (t : Z) : Tracker.Sample := Tracker.mkSample t true (Some []).
Definition profile (t : Z) : Tracker.Sample := Tracker.mkSample t true (Some [0.6]).
Definition present (t : Z) : Tracker.Sample := Tracker.mkSample t true (Some [0.95]).

(** Three distraction spans of 10 s each within 34 s. *)
Definition threeInWindow : list Tracker.Sample :=
  [away 0; away 10000; present 11000;
   away 12000; away 22000; present 23000;
   away 24000; away 34000]%Z.

(** Three distraction spans of 10 s each, the third one more than an hour
    after the first. *)
Definition threeSpread : list Tracker.Sample :=
  [away 0; away 10000; present 11000;
   away 12000; away 22000; present 23000;
   away 3600100; away 3610100]%Z.

(** Focus mode is switched off during a distraction that has already fired
    its event, and switched on again later; the user is then seen looking
    at the screen. *)
Definition offAndOnAgain : list Tracker.Op :=
  [Tracker.StartTracking cameraOk;
   Tracker.Tick (away 0); Tracker.Tick (away 10000);
   Tracker.StopTracking;
   Tracker.StartTracking cameraOk;
   Tracker.Tick (present 20000)]%Z.

(** ... and then looks away for 10.5 s. *)
Definition laterSpan : list Tracker.Sample := [away 20500; away 31000]%Z.

(** The ticks of [threeInWindow] before the one that appends the third
    event. *)
Definition beforeThird : list Tracker.Sample :=
  [away 0; away 10000; present 11000;
   away 12000; away 22000; present 23000;
   away 24000]%Z.

(** After the third event the user continues anyway, comes back, and looks
    away once more for 10 s. *)
Definition fourthSpan : list Tracker.Sample :=
  [present 35000; away 36000; away 46000]%Z.

(** A mounted player at the start of a 300 s video. *)
Definition at0 : Player.State :=
  Player.mkState (Some (HTMLVideoElement.mk 0 300 false)) 0 0 300 true false.

(** Playback reaches 10 s and then 15 s, a sync request leaving at each; the
    answer to the second arrives first, playback goes on to 20 s, and then
    the answer to the first arrives. *)
Definition answer (pos : Q) : Player.PostOutcome :=
  Player.Responded (mkProgressResponse pos pos false).
Definition lateAnswer : list Player.Event :=
  [Player.TimeUpdate 10; Player.TimeUpdate 15;
   Player.Settled 15 (answer 15);
   Player.TimeUpdate 20;
   Player.Settled 10 (answer 10)].

(** The server's answer to the post of an ended 300 s video when the stored
    ratchet stood at 0 and advanced by 15 s. *)
Definition clampedAnswer : ProgressResponse := mkProgressResponse 300 15 false.

(** One distraction as the overlay lives it: 10 s away (the event fires on
    the second tick), back in front of the screen, and the commit in which
    the effect runs. *)
Definition distraction (t : Z) : list Monitor.Op :=
  [Monitor.Sampler (Tracker.Tick (away t));
   Monitor.Sampler (Tracker.Tick (away (t + 10000)));
   Monitor.Sampler (Tracker.Tick (present (t + 11000)));
   Monitor.Render].

(** Focus mode is enabled, three distractions follow within a minute, the
    user takes the break that is then suggested, resumes, and is distracted
    again. *)
Definition untilBreak : list Monitor.Op :=
  [Monitor.Sampler (Tracker.StartTracking cameraOk); Monitor.Render]
  ++ distraction 0 ++ distraction 12000 ++ distraction 24000
  ++ [Monitor.TakeBreak; Monitor.Render; Monitor.ResumeEarly; Monitor.Render].
Definition afterBreak : list Monitor.Op := untilBreak ++ distraction 400000.

(** No-face readings every 500 ms from [t] on, [n] of them after the first. *)
Definition awayEvery500 (t : Z) (n : nat) : list Tracker.Sample :=
  map (fun i => away (t + 500 * Z.of_nat i)%Z) (seq 0 (S n)).

(** A course of three videos: the first completed, the second open and
    half watched, the third locked behind the quiz of checkpoint 3; and the
    same course with a fourth video the progress list does not know. *)
Definition course3 : list CoursePage.Video :=
  [CoursePage.mkVideo 11 "Introduction" 1 "/stream/11";
   CoursePage.mkVideo 12 "Edges" 2 "/stream/12";
   CoursePage.mkVideo 13 "Convolutions" 3 "/stream/13"].
Definition progress3 : list CoursePage.VideoProgress :=
  [CoursePage.mkVideoProgress 11 "Introduction" 1 100 100 100 true true None;
   CoursePage.mkVideoProgress 12 "Edges" 2 30 120 60 false true None;
   CoursePage.mkVideoProgress 13 "Convolutions" 3 0 90 0 false false (Some 3%nat)].
Definition page3 : CoursePage.State :=
  CoursePage.mkState course3 progress3 None false None false.
Definition unlisted : CoursePage.Video :=
  CoursePage.mkVideo 14 "Pooling" 4 "/stream/14".
(** The same course when the entry of the locked video names no quiz. *)
Definition lockedNoQuiz : CoursePage.State :=
  CoursePage.mkState course3
    [CoursePage.mkVideoProgress 11 "Introduction" 1 100 100 100 true true None;
     CoursePage.mkVideoProgress 12 "Edges" 2 30 120 60 false true None;
     CoursePage.mkVideoProgress 13 "Convolutions" 3 0 90 0 false false None]
    None false None false.

End Scenario.

(** * Properties *)

(** ** Boolean comparisons reflect the order on [Q] *)

Lemma Qleb_spec x y : reflect (x <= y) (Qleb x y).
Proof.
  unfold Qleb. destruct (Qle_bool x y) eqn:E; constructor.
  - now apply Qle_bool_iff.
  - intros H. apply Qle_bool_iff in H. congruence.
Qed.

Lemma Qltb_spec x y : reflect (x < y) (Qltb x y).
Proof.
  unfold Qltb. destruct (Qleb_spec y x) as [H|H]; unfold Qleb in *.
  - destruct (Qle_bool y x) eqn:E; simpl; constructor.
    + now apply Qle_not_lt.
    + apply Qle_bool_iff in H. congruence.
  - destruct (Qle_bool y x) eqn:E; simpl; constructor.
    + apply Qle_bool_iff in E. contradiction.
    + now apply Qnot_le_lt.
Qed.

Lemma Qgtb_spec x y : reflect (y < x) (Qgtb x y).
Proof. apply Qltb_spec. Qed.

Lemma Qgeb_spec x y : reflect (y <= x) (Qgeb x y).
Proof. apply Qleb_spec. Qed.

(** ** The server-side ratchet *)

Section Ratchet.
Import ProgressStore.

Variable MAX_ADVANCE : Q.
Hypothesis MAX_ADVANCE_nonneg : 0 <= MAX_ADVANCE.
Variable enrolled : nat -> nat -> bool.

Lemma ratchet_lower lastM watched : lastM <= ratchet MAX_ADVANCE lastM watched.
Proof.
  unfold ratchet.
  destruct (Q.max_spec lastM watched) as [[? Hmax]|[? Hmax]];
    destruct (Q.min_spec (Qmax lastM watched) (lastM + MAX_ADVANCE)) as [[? Hmin]|[? Hmin]];
    rewrite Hmin; try rewrite Hmax; lra.
Qed.

Lemma ratchet_upper lastM watched :
  ratchet MAX_ADVANCE lastM watched <= lastM + MAX_ADVANCE.
Proof. unfold ratchet. apply Q.le_min_r. Qed.

Lemma ratchet_never_exceeds_claim lastM watched :
  ratchet MAX_ADVANCE lastM watched <= Qmax lastM watched.
Proof. unfold ratchet. apply Q.le_min_l. Qed.

(** Under the wording of the developer notes the ratchet is monotone and
    bounded in the same way; the two wordings differ in where an update
    beyond the bound ends: 115 when clamped, 100 when rejected. *)
Lemma ratchetRejecting_bounds lastM watched :
  lastM <= ratchetRejecting MAX_ADVANCE lastM watched
  /\ ratchetRejecting MAX_ADVANCE lastM watched <= lastM + MAX_ADVANCE.
Proof.
  unfold ratchetRejecting.
  destruct (Qgtb_spec watched (lastM + MAX_ADVANCE)) as [Hgt|Hle].
  - split; lra.
  - destruct (Q.max_spec lastM watched) as [[? Hmax]|[? Hmax]];
      rewrite Hmax; split; lra.
Qed.

Lemma reportProgress_lastMax now store u v w t store' r :
  reportProgress MAX_ADVANCE enrolled now store u v w t = Accepted store' r ->
  lastMax store' (u, v) = ratchet MAX_ADVANCE (lastMax store (u, v)) w
  /\ max_watched_seconds r = ratchet MAX_ADVANCE (lastMax store (u, v)) w
  /\ forall k, k <> (u, v) -> lastMax store' k = lastMax store k.
Proof.
  unfold reportProgress.
  destruct (negb (enrolled u v)); [discriminate|].
  destruct (negb (Qleb 0 w && Qltb 0 t)); [discriminate|].
  intros H. injection H as <- <-. repeat split.
  - unfold lastMax at 1. now rewrite lookup_insert_eq.
  - intros k Hk. unfold lastMax. now rewrite lookup_insert_ne.
Qed.

Lemma applyCall_step store c k :
  lastMax store k <= lastMax (applyCall MAX_ADVANCE enrolled store c) k
  /\ lastMax (applyCall MAX_ADVANCE enrolled store c) k <= lastMax store k + MAX_ADVANCE.
Proof.
  unfold applyCall.
  destruct (reportProgress _ _ _ _ _ _ _ _) as [store' r|e] eqn:E.
  - apply reportProgress_lastMax in E as (Hk & _ & Hother).
    destruct (decide (k = (c_user c, c_video c))) as [->|Hne].
    + rewrite Hk. split; [apply ratchet_lower | apply ratchet_upper].
    + rewrite (Hother k Hne). split; lra.
  - split; lra.
Qed.

Lemma runCalls_snoc store cs c :
  runCalls MAX_ADVANCE enrolled store (cs ++ [c])
  = applyCall MAX_ADVANCE enrolled (runCalls MAX_ADVANCE enrolled store cs) c.
Proof. unfold runCalls. now rewrite fold_left_app. Qed.

Lemma runCalls_monotone cs : forall store k,
  lastMax store k <= lastMax (runCalls MAX_ADVANCE enrolled store cs) k.
Proof.
  unfold runCalls.
  induction cs as [|c cs IH]; intros store k; simpl.
  - apply Qle_refl.
  - eapply Qle_trans; [apply (applyCall_step store c k) | apply IH].
Qed.

End Ratchet.

(** C1.  For every sequence of [reportProgress] calls and every (user, video),
    each further call leaves the stored [maxWatchedSeconds] of that pair at
    least where it was and at most [MAX_ADVANCE] above it; an accepted call
    stores and returns [min(max(lastMax, watchedSeconds), lastMax + MAX_ADVANCE)];
    with [lastMax = 100] and [MAX_ADVANCE = 15], a report of 500 s is accepted
    with 115 s, not 500 s. *)
Theorem reportProgress_ratchet_monotone_bounded :
  (forall (A : Q) enrolled store (earlier : list ProgressStore.Call) c k,
     0 <= A ->
     let before := ProgressStore.runCalls A enrolled store earlier in
     let after := ProgressStore.runCalls A enrolled store (earlier ++ [c]) in
     ProgressStore.lastMax before k <= ProgressStore.lastMax after k
     /\ ProgressStore.lastMax after k <= ProgressStore.lastMax before k + A)
  /\ (forall A enrolled now store u v w t store' r,
        ProgressStore.reportProgress A enrolled now store u v w t
        = ProgressStore.Accepted store' r ->
        ProgressStore.lastMax store' (u, v)
        = Qmin (Qmax (ProgressStore.lastMax store (u, v)) w)
               (ProgressStore.lastMax store (u, v) + A)
        /\ max_watched_seconds r = ProgressStore.lastMax store' (u, v))
  /\ (forall enrolled now store u v t,
        enrolled u v = true -> 0 < t ->
        ProgressStore.lastMax store (u, v) == 100 ->
        exists store' r,
          ProgressStore.reportProgress 15 enrolled now store u v 500 t
          = ProgressStore.Accepted store' r
          /\ ProgressStore.lastMax store' (u, v) == 115
          /\ max_watched_seconds r == 115
          /\ ~ max_watched_seconds r == 500).
Proof.
  split; [|split].
  - intros A enrolled store earlier c k HA before after. subst before after.
    rewrite runCalls_snoc. now apply applyCall_step.
  - intros A enrolled now store u v w t store' r H.
    apply reportProgress_lastMax in H as (H1 & H2 & _).
    rewrite H1, H2. now unfold ProgressStore.ratchet.
  - intros enrolled now store u v t Hen Ht Hlast.
    destruct (ProgressStore.reportProgress 15 enrolled now store u v 500 t)
      as [store' r|e] eqn:E.
    + exists store', r. split; [reflexivity|].
      apply reportProgress_lastMax in E as (H1 & H2 & _).
      rewrite H2, H1. unfold ProgressStore.ratchet.
      set (l := ProgressStore.lastMax store (u, v)) in *.
      destruct (Q.max_spec l 500) as [[? Hmax]|[? Hmax]];
        destruct (Q.min_spec (Qmax l 500) (l + 15)) as [[? Hmin]|[? Hmin]];
        rewrite Hmin; rewrite ?Hmax in *; repeat split; try lra.
    + exfalso. revert E. unfold ProgressStore.reportProgress.
      rewrite Hen. simpl.
      destruct (Qltb_spec 0 t) as [_|Hn]; [|contradiction].
      discriminate.
Qed.

Lemma ratchet_wordings_at_500 :
  ProgressStore.ratchet 15 100 500 == 115
  /\ ProgressStore.ratchetRejecting 15 100 500 == 100.
Proof. split; reflexivity. Qed.

Lemma reportProgress_ratchet_witness :
  ProgressStore.lastMax
    (ProgressStore.runCalls 15 Scenario.everyone Scenario.store100 ([] ++ [Scenario.claim500]))
    (1%nat, 1%nat)
  <= ProgressStore.lastMax
       (ProgressStore.runCalls 15 Scenario.everyone Scenario.store100 [])
       (1%nat, 1%nat) + 15
  /\ exists store' r,
       ProgressStore.reportProgress 15 Scenario.everyone 1 Scenario.store100 1 1 500 600
       = ProgressStore.Accepted store' r
       /\ ProgressStore.lastMax store' (1%nat, 1%nat) == 115
       /\ max_watched_seconds r == 115
       /\ ~ max_watched_seconds r == 500.
Proof.
  destruct reportProgress_ratchet_monotone_bounded as (Hstep & _ & Hex).
  split.
  - apply (Hstep 15 Scenario.everyone Scenario.store100 [] Scenario.claim500 (1%nat, 1%nat)).
    vm_compute. discriminate.
  - apply (Hex Scenario.everyone 1%Z Scenario.store100 1%nat 1%nat 600).
    + reflexivity.
    + reflexivity.
    + vm_compute. split; reflexivity.
Defined.

(** ** The seek guard *)

Section SeekGuard.
Import Player.




End SeekGuard.




(** ** The attention sampler *)

Section Sampler.
Import Tracker.
Local Open Scope Z_scope.

Ltac noFace_cases h :=
  unfold onNoFace, fires, spanStart;
  destruct (distractionStartRef h);
  cbn -[Nat.leb Z.leb Z.sub withinTrendWindow length];
  destruct (_ <=? _)%Z;
  (let E := fresh "E" in
   destruct (eventTriggeredRef h) eqn:E;
   cbn -[Nat.leb Z.leb Z.sub withinTrendWindow length];
   try (destruct (_ <=? _)%nat);
   cbn -[Nat.leb Z.leb Z.sub withinTrendWindow length];
   rewrite ?E, ?orb_false_r, ?orb_true_r; auto).

Lemma onNoFace_refs now h :
  videoRef (onNoFace now h) = videoRef h
  /\ canvasRef (onNoFace now h) = canvasRef h
  /\ detectorRef (onNoFace now h) = detectorRef h
  /\ streamRef (onNoFace now h) = streamRef h
  /\ intervalRef (onNoFace now h) = intervalRef h.
Proof. noFace_cases h. Qed.

Lemma onNoFace_start now h :
  distractionStartRef (onNoFace now h) = Some (spanStart now h).
Proof. noFace_cases h. Qed.

Lemma onNoFace_triggered now h :
  eventTriggeredRef (onNoFace now h) = eventTriggeredRef h || fires now h.
Proof. noFace_cases h. Qed.

Lemma onNoFace_events now h :
  distractionEvents (state (onNoFace now h))
  = if fires now h then S (distractionEvents (state h))
    else distractionEvents (state h).
Proof. noFace_cases h. Qed.

Lemma onNoFace_timestamps now h :
  eventTimestampsRef (onNoFace now h)
  = if fires now h
    then withinTrendWindow now (eventTimestampsRef h ++ [now])
    else eventTimestampsRef h.
Proof. noFace_cases h. Qed.

Lemma onNoFace_shouldSuggestBreak now h :
  shouldSuggestBreak (state (onNoFace now h))
  = shouldSuggestBreak (state h)
    || (fires now h
        && Nat.leb BREAK_SUGGESTION_THRESHOLD
             (length (withinTrendWindow now (eventTimestampsRef h ++ [now])))).
Proof. noFace_cases h. Qed.

Lemma onFace_refs now h :
  videoRef (onFace now h) = videoRef h
  /\ canvasRef (onFace now h) = canvasRef h
  /\ detectorRef (onFace now h) = detectorRef h.
Proof. unfold onFace. destruct (distractionStartRef h); simpl; auto. Qed.

Lemma onFace_start now h : distractionStartRef (onFace now h) = None.
Proof. unfold onFace. destruct (distractionStartRef h) eqn:E; simpl; auto. Qed.

Lemma onFace_triggered now h :
  eventTriggeredRef (onFace now h)
  = match distractionStartRef h with
    | Some _ => false
    | None => eventTriggeredRef h
    end.
Proof. unfold onFace. destruct (distractionStartRef h); reflexivity. Qed.

Lemma onFace_events now h :
  distractionEvents (state (onFace now h)) = distractionEvents (state h).
Proof. unfold onFace. destruct (distractionStartRef h); reflexivity. Qed.

Lemma onFace_shouldSuggestBreak now h :
  shouldSuggestBreak (state (onFace now h)) = shouldSuggestBreak (state h)
  /\ eventTimestampsRef (onFace now h) = eventTimestampsRef h.
Proof. unfold onFace. destruct (distractionStartRef h); split; reflexivity. Qed.

(** The three kinds of tick. *)
Lemma tick_cases smp :
  (noFaceTick smp = true /\ faceTick smp = false)
  \/ (faceTick smp = true /\ noFaceTick smp = false)
  \/ (noFaceTick smp = false /\ faceTick smp = false
      /\ forall h, intervalCallback smp h = h).
Proof.
  unfold noFaceTick, faceTick, intervalCallback.
  destruct (ctx smp); simpl.
  - destruct (detections smp) as [ds|].
    + destruct (faceDetected ds); simpl; auto.
    + right; right. repeat split.
      intros h. destruct (videoRef h), (canvasRef h), (detectorRef h); reflexivity.
  - right; right. repeat split.
    intros h. destruct (videoRef h), (canvasRef h), (detectorRef h); reflexivity.
Qed.

Lemma intervalCallback_noFace smp h :
  mountedRefs h = true -> noFaceTick smp = true ->
  intervalCallback smp h
  = onNoFace (now smp) (setState (set_detection false (sampleScore smp)) h).
Proof.
  unfold mountedRefs, noFaceTick, intervalCallback, sampleScore, updater.
  destruct (videoRef h), (canvasRef h), (detectorRef h); try discriminate.
  intros _. destruct (ctx smp); [|discriminate]. simpl.
  destruct (detections smp) as [ds|]; [|discriminate].
  destruct (faceDetected ds); [discriminate|reflexivity].
Qed.

Lemma intervalCallback_face smp h :
  mountedRefs h = true -> faceTick smp = true ->
  intervalCallback smp h
  = onFace (now smp) (setState (set_detection true (sampleScore smp)) h).
Proof.
  unfold mountedRefs, faceTick, intervalCallback, sampleScore, updater.
  destruct (videoRef h), (canvasRef h), (detectorRef h); try discriminate.
  intros _. destruct (ctx smp); [|discriminate]. simpl.
  destruct (detections smp) as [ds|]; [|discriminate].
  destruct (faceDetected ds); [reflexivity|discriminate].
Qed.

Lemma intervalCallback_unmounted smp h :
  mountedRefs h = false -> intervalCallback smp h = h.
Proof.
  unfold mountedRefs, intervalCallback.
  destruct (videoRef h), (canvasRef h), (detectorRef h); try discriminate; reflexivity.
Qed.

Lemma intervalCallback_mounted smp h :
  mountedRefs (intervalCallback smp h) = mountedRefs h.
Proof.
  destruct (mountedRefs h) eqn:Hm.
  - destruct (tick_cases smp) as [[Hn _]|[[Hf _]|(_ & _ & Hskip)]].
    + rewrite intervalCallback_noFace by assumption.
      unfold mountedRefs in *.
      destruct (onNoFace_refs (now smp)
                  (setState (set_detection false (sampleScore smp)) h))
        as (-> & -> & -> & _). exact Hm.
    + rewrite intervalCallback_face by assumption.
      unfold mountedRefs in *.
      destruct (onFace_refs (now smp)
                  (setState (set_detection true (sampleScore smp)) h))
        as (-> & -> & ->). exact Hm.
    + now rewrite Hskip.
  - now rewrite intervalCallback_unmounted.
Qed.

Lemma setState_refs f h :
  distractionStartRef (setState f h) = distractionStartRef h
  /\ eventTriggeredRef (setState f h) = eventTriggeredRef h
  /\ eventTimestampsRef (setState f h) = eventTimestampsRef h
  /\ mountedRefs (setState f h) = mountedRefs h.
Proof. repeat split. Qed.

Lemma emitted_cons h smp l :
  emitted h (smp :: l)
  = emitted (intervalCallback smp h) l
    + (Z.of_nat (distractionEvents (state (intervalCallback smp h)))
       - Z.of_nat (distractionEvents (state h))).
Proof. unfold emitted, ticks. simpl. lia. Qed.

(** One no-face tick, read through [fires]. *)
Lemma noFace_step smp h :
  mountedRefs h = true -> noFaceTick smp = true ->
  let h' := intervalCallback smp h in
  mountedRefs h' = true
  /\ distractionStartRef h' = Some (spanStart (now smp) h)
  /\ eventTriggeredRef h' = eventTriggeredRef h || fires (now smp) h
  /\ distractionEvents (state h')
     = if fires (now smp) h then S (distractionEvents (state h))
       else distractionEvents (state h).
Proof.
  intros Hm Hn h'. subst h'.
  split; [now rewrite intervalCallback_mounted|].
  rewrite intervalCallback_noFace by assumption.
  rewrite onNoFace_start, onNoFace_triggered, onNoFace_events.
  repeat split.
Qed.

(** A stretch of no-face ticks while the distraction timer already runs
    from [t0]: the counter moves by one exactly if the guard was clear and
    some tick lies at least the threshold after [t0]. *)
Lemma span_in_progress l : forall h t0,
  mountedRefs h = true ->
  distractionStartRef h = Some t0 ->
  forallb noFaceTick l = true ->
  mountedRefs (ticks l h) = true
  /\ distractionStartRef (ticks l h) = Some t0
  /\ eventTriggeredRef (ticks l h)
     = eventTriggeredRef h
       || existsb (fun s => DISTRACTION_THRESHOLD_MS <=? now s - t0) l
  /\ emitted h l
     = if negb (eventTriggeredRef h)
          && existsb (fun s => DISTRACTION_THRESHOLD_MS <=? now s - t0) l
       then 1 else 0.
Proof.
  induction l as [|smp l IH]; intros h t0 Hm Hs Hall.
  - unfold emitted. simpl. rewrite orb_false_r, andb_false_r.
    repeat split; auto. lia.
  - simpl in Hall. apply andb_prop in Hall as [Hn Hall].
    destruct (noFace_step smp h Hm Hn) as (Hm1 & Hs1 & Ht1 & He1).
    unfold fires, spanStart in *. rewrite Hs in *.
    destruct (IH (intervalCallback smp h) t0 Hm1 Hs1 Hall) as (Hm2 & Hs2 & Ht2 & He2).
    rewrite emitted_cons, He2, He1, Ht1.
    change (ticks (smp :: l) h) with (ticks l (intervalCallback smp h)).
    rewrite Hm2, Hs2, Ht2, Ht1. simpl existsb.
    destruct (eventTriggeredRef h);
      destruct (DISTRACTION_THRESHOLD_MS <=? now smp - t0);
      destruct (existsb _ l); simpl; repeat split; lia.
Qed.

(** A span that begins with the timer stopped: its first tick starts the
    timer at its own instant and cannot fire. *)
Lemma span_from_rest first rest h :
  mountedRefs h = true ->
  distractionStartRef h = None ->
  forallb noFaceTick (first :: rest) = true ->
  eventTriggeredRef (ticks (first :: rest) h)
  = eventTriggeredRef h
    || existsb (fun s => DISTRACTION_THRESHOLD_MS <=? now s - now first) rest
  /\ emitted h (first :: rest)
     = if negb (eventTriggeredRef h)
          && existsb (fun s => DISTRACTION_THRESHOLD_MS <=? now s - now first) rest
       then 1 else 0.
Proof.
  intros Hm Hs Hall. simpl in Hall. apply andb_prop in Hall as [Hn Hall].
  destruct (noFace_step first h Hm Hn) as (Hm1 & Hs1 & Ht1 & He1).
  unfold fires, spanStart in *. rewrite Hs in *.
  rewrite Z.sub_diag in *.
  change (DISTRACTION_THRESHOLD_MS <=? 0) with false in *. simpl in *.
  rewrite orb_false_r in Ht1.
  destruct (span_in_progress rest _ _ Hm1 Hs1 Hall) as (_ & _ & Ht2 & He2).
  rewrite emitted_cons, He1, He2.
  change (ticks (first :: rest) h) with (ticks rest (intervalCallback first h)).
  rewrite Ht2, Ht1. split; [reflexivity | lia].
Qed.

Lemma intervalCallback_guardTiedToTimer smp h :
  guardTiedToTimer h -> guardTiedToTimer (intervalCallback smp h).
Proof.
  intros Hinv. destruct (mountedRefs h) eqn:Hm.
  - destruct (tick_cases smp) as [[Hn _]|[[Hf _]|(_ & _ & Hskip)]].
    + destruct (noFace_step smp h Hm Hn) as (_ & Hs & _ & _).
      intros _. rewrite Hs. discriminate.
    + rewrite intervalCallback_face by assumption.
      intros Ht. rewrite onFace_triggered in Ht. simpl in Ht.
      destruct (distractionStartRef h) eqn:Hs; [discriminate|].
      exfalso. now apply Hinv.
    + now rewrite Hskip.
  - now rewrite intervalCallback_unmounted.
Qed.

Lemma ticks_guardTiedToTimer l : forall h,
  guardTiedToTimer h -> guardTiedToTimer (ticks l h).
Proof.
  induction l as [|smp l IH]; intros h Hinv; [exact Hinv|].
  apply (IH (intervalCallback smp h)).
  now apply intervalCallback_guardTiedToTimer.
Qed.

Lemma ticks_mounted l : forall h, mountedRefs (ticks l h) = mountedRefs h.
Proof.
  induction l as [|smp l IH]; intros h; [reflexivity|].
  change (ticks (smp :: l) h) with (ticks l (intervalCallback smp h)).
  now rewrite IH, intervalCallback_mounted.
Qed.

Lemma ticks_app l1 l2 h : ticks (l1 ++ l2) h = ticks l2 (ticks l1 h).
Proof. unfold ticks. now rewrite fold_left_app. Qed.

(** After a qualifying detection the timer is stopped and, as long as the
    guard was tied to the timer, the guard is clear. *)
Lemma face_step_clears smp h :
  mountedRefs h = true -> faceTick smp = true -> guardTiedToTimer h ->
  distractionStartRef (intervalCallback smp h) = None
  /\ eventTriggeredRef (intervalCallback smp h) = false.
Proof.
  intros Hm Hf Hinv. rewrite intervalCallback_face by assumption.
  rewrite onFace_start, onFace_triggered. simpl. split; [reflexivity|].
  destruct (distractionStartRef h) eqn:Hs; [reflexivity|].
  destruct (eventTriggeredRef h) eqn:Ht; [|reflexivity].
  exfalso. now apply Hinv.
Qed.

(** Debounce within one activation of the sampler.  [h0] is the hook as a
    first successful [startTracking] leaves it: cells mounted, timer
    stopped, guard clear.  After any ticks that end in a qualifying
    detection (or none at all), a span of no-face ticks emits one event if
    one of its ticks lies at least the threshold after its first, and none
    otherwise. *)
Lemma first_activation_debounce h0 earlier first rest :
  mountedRefs h0 = true ->
  distractionStartRef h0 = None ->
  eventTriggeredRef h0 = false ->
  endsFocused earlier = true ->
  forallb noFaceTick (first :: rest) = true ->
  emitted (ticks earlier h0) (first :: rest)
  = if existsb (fun s => DISTRACTION_THRESHOLD_MS <=? now s - now first) rest
    then 1 else 0.
Proof.
  intros Hm Hs Ht Hend Hall.
  assert (Hinv : guardTiedToTimer h0) by (intros H; congruence).
  assert (Hfresh : distractionStartRef (ticks earlier h0) = None
                   /\ eventTriggeredRef (ticks earlier h0) = false).
  { unfold endsFocused in Hend.
    destruct (rev earlier) as [|smp l] eqn:Hrev.
    - apply (f_equal (@rev Sample)) in Hrev. rewrite rev_involutive in Hrev.
      subst earlier. auto.
    - apply (f_equal (@rev Sample)) in Hrev. rewrite rev_involutive in Hrev.
      simpl in Hrev. subst earlier. rewrite ticks_app.
      apply face_step_clears; [|assumption|].
      + now rewrite ticks_mounted.
      + now apply ticks_guardTiedToTimer. }
  destruct Hfresh as [Hs' Ht'].
  destruct (span_from_rest first rest (ticks earlier h0)) as [_ He];
    [now rewrite ticks_mounted | assumption | assumption |].
  now rewrite He, Ht'.
Qed.

(** While the guard is set, ticks without a qualifying detection emit
    nothing and leave the guard set, whatever else the hook holds. *)
Lemma guard_blocks_refire l : forall h,
  eventTriggeredRef h = true ->
  forallb (fun smp => negb (faceTick smp)) l = true ->
  emitted h l = 0 /\ eventTriggeredRef (ticks l h) = true.
Proof.
  induction l as [|smp l IH]; intros h Ht Hall.
  - unfold emitted. simpl. split; [lia | assumption].
  - simpl in Hall. apply andb_prop in Hall as [Hnf Hall].
    assert (Hstep : eventTriggeredRef (intervalCallback smp h) = true
                    /\ distractionEvents (state (intervalCallback smp h))
                       = distractionEvents (state h)).
    { destruct (mountedRefs h) eqn:Hm.
      - destruct (tick_cases smp) as [[Hn _]|[[Hf _]|(_ & _ & Hskip)]].
        + destruct (noFace_step smp h Hm Hn) as (_ & _ & Ht1 & He1).
          unfold fires in *. rewrite Ht in *. rewrite andb_false_r in He1.
          rewrite Ht1, He1. auto.
        + rewrite Hf in Hnf. discriminate.
        + rewrite Hskip. auto.
      - rewrite intervalCallback_unmounted by assumption. auto. }
    destruct Hstep as [Ht1 He1].
    destruct (IH _ Ht1 Hall) as [He2 Ht2].
    rewrite emitted_cons, He2, He1.
    change (ticks (smp :: l) h) with (ticks l (intervalCallback smp h)).
    split; [lia | assumption].
Qed.

(** In particular a span whose last tick lies at least the threshold after
    its first emits exactly one event. *)
Lemma first_activation_span_of_threshold h0 earlier first rest final :
  mountedRefs h0 = true ->
  distractionStartRef h0 = None ->
  eventTriggeredRef h0 = false ->
  endsFocused earlier = true ->
  forallb noFaceTick (first :: rest ++ [final]) = true ->
  DISTRACTION_THRESHOLD_MS <= now final - now first ->
  emitted (ticks earlier h0) (first :: rest ++ [final]) = 1.
Proof.
  intros Hm Hs Ht Hend Hall Hlong.
  rewrite first_activation_debounce by assumption.
  rewrite existsb_app. simpl.
  apply Z.leb_le in Hlong. rewrite Hlong.
  now rewrite orb_true_r.
Qed.

(** Readings every 500 ms after a first successful [startTracking]: a span
    of exactly the threshold emits one event, a span of twice the threshold
    still one, a span of 9.5 s none; a face in profile (score 0.6) counts as
    no face; and a detection followed by a second span brings the second
    event. *)
Lemma debounce_examples :
  emitted (snd Scenario.started) (Scenario.awayEvery500 0 20) = 1
  /\ emitted (snd Scenario.started) (Scenario.awayEvery500 0 40) = 1
  /\ emitted (snd Scenario.started) (Scenario.awayEvery500 0 19) = 0
  /\ noFaceTick (Scenario.profile 0) = true
  /\ emitted (snd Scenario.started)
       (Scenario.awayEvery500 0 40 ++ [Scenario.present 20500]
        ++ Scenario.awayEvery500 21000 20) = 2.
Proof. vm_compute. repeat split. Qed.

(** With an interval live, a run of [Tick] operations is the fold of the
    callback over the samples. *)
Lemma run_ticks l : forall b h,
  liveIntervals b <> ∅ ->
  run (b, h) (map Tick l) = (b, ticks l h).
Proof.
  induction l as [|smp l IH]; intros b h Hlive; [reflexivity|].
  simpl. rewrite bool_decide_eq_false_2 by assumption. simpl.
  now apply IH.
Qed.

(** A tick that emits an event sets the guard. *)
Lemma emission_sets_guard smp h :
  distractionEvents (state (intervalCallback smp h))
  <> distractionEvents (state h) ->
  eventTriggeredRef (intervalCallback smp h) = true.
Proof.
  intros Hne. destruct (mountedRefs h) eqn:Hm.
  - destruct (tick_cases smp) as [[Hn _]|[[Hf _]|(_ & _ & Hskip)]].
    + destruct (noFace_step smp h Hm Hn) as (_ & _ & Ht1 & He1).
      rewrite Ht1. destruct (fires (now smp) h).
      * apply orb_true_r.
      * congruence.
    + rewrite intervalCallback_face in Hne by assumption.
      rewrite onFace_events in Hne. now contradiction Hne.
    + rewrite Hskip in Hne. now contradiction Hne.
  - rewrite intervalCallback_unmounted in Hne by assumption. now contradiction Hne.
Qed.

End Sampler.

Section Trend.
Import Tracker.
Local Open Scope Z_scope.

Lemma noFace_step_trend smp h :
  mountedRefs h = true -> noFaceTick smp = true ->
  let h' := intervalCallback smp h in
  eventTimestampsRef h'
  = (if fires (now smp) h
     then withinTrendWindow (now smp) (eventTimestampsRef h ++ [now smp])
     else eventTimestampsRef h)
  /\ shouldSuggestBreak (state h')
     = shouldSuggestBreak (state h)
       || (fires (now smp) h
           && Nat.leb BREAK_SUGGESTION_THRESHOLD
                (length (withinTrendWindow (now smp)
                           (eventTimestampsRef h ++ [now smp])))).
Proof.
  intros Hm Hn h'. subst h'.
  rewrite intervalCallback_noFace by assumption.
  rewrite onNoFace_timestamps, onNoFace_shouldSuggestBreak.
  split; reflexivity.
Qed.

Lemma withinTrendWindow_spec now timestamps t :
  t ∈ withinTrendWindow now timestamps <-> t ∈ timestamps /\ now - t < TREND_WINDOW_MS.
Proof. unfold withinTrendWindow. rewrite list_elem_of_filter. tauto. Qed.

(** What a tick does to the counter, the window and the suggestion. *)
Lemma tick_trend smp h :
  let h' := intervalCallback smp h in
  (distractionEvents (state h') = distractionEvents (state h)
   /\ eventTimestampsRef h' = eventTimestampsRef h
   /\ shouldSuggestBreak (state h') = shouldSuggestBreak (state h))
  \/ (distractionEvents (state h') = S (distractionEvents (state h))
      /\ eventTimestampsRef h'
         = withinTrendWindow (now smp) (eventTimestampsRef h ++ [now smp])
      /\ shouldSuggestBreak (state h')
         = shouldSuggestBreak (state h)
           || Nat.leb BREAK_SUGGESTION_THRESHOLD (length (eventTimestampsRef h'))).
Proof.
  intros h'. subst h'. destruct (mountedRefs h) eqn:Hm.
  - destruct (tick_cases smp) as [[Hn _]|[[Hf _]|(_ & _ & Hskip)]].
    + destruct (noFace_step smp h Hm Hn) as (_ & _ & _ & He).
      destruct (noFace_step_trend smp h Hm Hn) as (Hts & Hsb).
      rewrite He, Hts, Hsb. destruct (fires (now smp) h); simpl.
      * right. auto.
      * left. rewrite orb_false_r. auto.
    + left. rewrite intervalCallback_face by assumption.
      rewrite onFace_events.
      destruct (onFace_shouldSuggestBreak (now smp)
                  (setState (set_detection true (sampleScore smp)) h)) as [-> ->].
      auto.
    + left. rewrite Hskip. auto.
  - left. rewrite intervalCallback_unmounted by assumption. auto.
Qed.

Lemma ticks_events_monotone l : forall h,
  (distractionEvents (state h) <= distractionEvents (state (ticks l h)))%nat.
Proof.
  induction l as [|smp l IH]; intros h; [reflexivity|].
  change (ticks (smp :: l) h) with (ticks l (intervalCallback smp h)).
  specialize (IH (intervalCallback smp h)).
  destruct (tick_trend smp h) as [(He & _)|(He & _)]; lia.
Qed.

(** The suggestion stays off as long as the timestamps held at the start
    and the events emitted since then together stay below the threshold. *)
Lemma suggestion_needs_threshold_events l : forall h,
  shouldSuggestBreak (state h) = false ->
  (length (eventTimestampsRef h)
   + (distractionEvents (state (ticks l h)) - distractionEvents (state h))
   < BREAK_SUGGESTION_THRESHOLD)%nat ->
  shouldSuggestBreak (state (ticks l h)) = false.
Proof.
  induction l as [|smp l IH]; intros h Hoff Hfew; [exact Hoff|].
  change (ticks (smp :: l) h) with (ticks l (intervalCallback smp h)) in *.
  pose proof (ticks_events_monotone l (intervalCallback smp h)) as Hmono.
  destruct (tick_trend smp h) as [(He & Hts & Hsb)|(He & Hts & Hsb)].
  - apply IH; [congruence|]. rewrite Hts, He. exact Hfew.
  - assert (Hlen : (length (eventTimestampsRef (intervalCallback smp h))
                    <= S (length (eventTimestampsRef h)))%nat).
    { rewrite Hts. unfold withinTrendWindow.
      etransitivity; [apply length_filter|].
      rewrite length_app. simpl. lia. }
    apply IH.
    + rewrite Hsb, Hoff, orb_false_l. apply Nat.leb_gt. lia.
    + lia.
Qed.

End Trend.

(** C4.  A tick turns [shouldSuggestBreak] from false to true exactly if it
    appends a distraction event and the timestamps younger than the trend
    window, the new one included, number at least
    [BREAK_SUGGESTION_THRESHOLD]; the list kept after an append is the pruned
    one; no other operation of the hook turns the flag on.  Three events
    within the window set the flag, three events of which the first is older
    than the window at the third do not. *)
Theorem shouldSuggestBreak_on_threshold_within_window :
  (forall smp h,
     Tracker.shouldSuggestBreak (Tracker.state h) = false ->
     let h' := Tracker.intervalCallback smp h in
     Tracker.shouldSuggestBreak (Tracker.state h') = true
     <-> (Tracker.distractionEvents (Tracker.state h')
          = S (Tracker.distractionEvents (Tracker.state h))
          /\ (Tracker.BREAK_SUGGESTION_THRESHOLD
              <= length (Tracker.withinTrendWindow (Tracker.now smp)
                           (Tracker.eventTimestampsRef h ++ [Tracker.now smp])))%nat))
  /\ (forall smp h,
        let h' := Tracker.intervalCallback smp h in
        Tracker.distractionEvents (Tracker.state h')
        = S (Tracker.distractionEvents (Tracker.state h)) ->
        Tracker.eventTimestampsRef h'
        = Tracker.withinTrendWindow (Tracker.now smp)
            (Tracker.eventTimestampsRef h ++ [Tracker.now smp])
        /\ forall t, t ∈ Tracker.eventTimestampsRef h'
                     <-> (t ∈ Tracker.eventTimestampsRef h ++ [Tracker.now smp]
                          /\ (Tracker.now smp - t < Tracker.TREND_WINDOW_MS)%Z))
  /\ (forall bh o,
        Tracker.shouldSuggestBreak (Tracker.state (snd bh)) = false ->
        Tracker.shouldSuggestBreak (Tracker.state (snd (Tracker.step bh o))) = true ->
        exists smp, o = Tracker.Tick smp)
  /\ Tracker.BREAK_SUGGESTION_THRESHOLD = 3%nat
  /\ (let h := Tracker.ticks Scenario.threeInWindow (snd Scenario.started) in
      Tracker.distractionEvents (Tracker.state h) = 3%nat
      /\ Tracker.eventTimestampsRef h = [10000; 22000; 34000]%Z
      /\ Tracker.shouldSuggestBreak (Tracker.state h) = true)
  /\ (let h := Tracker.ticks Scenario.threeSpread (snd Scenario.started) in
      Tracker.distractionEvents (Tracker.state h) = 3%nat
      /\ Tracker.eventTimestampsRef h = [22000; 3610100]%Z
      /\ Tracker.shouldSuggestBreak (Tracker.state h) = false).
Proof.
  split; [|split; [|split; [|split; [|split]]]].
  - intros smp h Hoff h'. subst h'.
    destruct (tick_trend smp h) as [(He & Hts & Hsb)|(He & Hts & Hsb)];
      rewrite Hsb, Hoff, ?orb_false_l.
    + split; [discriminate|]. intros [He' _]. rewrite He in He'. lia.
    + rewrite Hts. split.
      * intros Hleb. split; [assumption|]. now apply Nat.leb_le.
      * intros [_ Hle]. now apply Nat.leb_le.
  - intros smp h h' Hinc. subst h'.
    destruct (tick_trend smp h) as [(He & _)|(_ & Hts & _)].
    + rewrite He in Hinc. lia.
    + split; [assumption|]. intros t. rewrite Hts. apply withinTrendWindow_spec.
  - intros [b h] o Hoff Hon. destruct o as [smp|e| | | | | |ok]; simpl in *.
    + now exists smp.
    + exfalso. revert Hon. unfold Tracker.startTracking.
      destruct (Tracker.mediaGranted e); simpl; [|congruence].
      destruct (Tracker.detectorInitialized e); simpl; congruence.
    + exfalso. revert Hon. unfold Tracker.stopTracking.
      destruct (Tracker.intervalRef h); simpl;
        destruct (Tracker.detectorRef h); simpl;
        destruct (Tracker.streamRef h); simpl;
        destruct (Tracker.videoRef h); simpl; congruence.
    + discriminate.
    + discriminate.
    + congruence.
    + congruence.
    + destruct ok; simpl in Hon; congruence.
  - reflexivity.
  - vm_compute. repeat split.
  - vm_compute. repeat split.
Qed.

Lemma shouldSuggestBreak_on_threshold_witness :
  Tracker.shouldSuggestBreak
    (Tracker.state
       (Tracker.intervalCallback (Scenario.away 34000)
          (Tracker.ticks Scenario.beforeThird (snd Scenario.started)))) = true
  /\ Tracker.eventTimestampsRef
       (Tracker.intervalCallback (Scenario.away 34000)
          (Tracker.ticks Scenario.beforeThird (snd Scenario.started)))
     = Tracker.withinTrendWindow 34000
         (Tracker.eventTimestampsRef
            (Tracker.ticks Scenario.beforeThird (snd Scenario.started)) ++ [34000%Z])
  /\ exists smp, Tracker.Tick (Scenario.away 34000) = Tracker.Tick smp.
Proof.
  destruct shouldSuggestBreak_on_threshold_within_window as (Hiff & Hprune & Honly & _).
  split; [|split].
  - apply (Hiff (Scenario.away 34000)
             (Tracker.ticks Scenario.beforeThird (snd Scenario.started))).
    + vm_compute. reflexivity.
    + vm_compute. split; [reflexivity | lia].
  - apply (Hprune (Scenario.away 34000)
             (Tracker.ticks Scenario.beforeThird (snd Scenario.started))).
    vm_compute. reflexivity.
  - apply (Honly (fst Scenario.started,
                  Tracker.ticks Scenario.beforeThird (snd Scenario.started))
                 (Tracker.Tick (Scenario.away 34000))).
    + vm_compute. reflexivity.
    + vm_compute. reflexivity.
Defined.

(** C3.  Evaluation of the sampler on a run in which focus mode is switched
    off during a distraction whose event has fired, and on again: the tracker
    is active, the last tick was a qualifying detection, and the following
    span of no-face ticks lasts 10.5 s, yet the counter stays at 1, the span
    emits no event, because [stopTracking] cleared the timer and left the
    guard set.  The same span after the same detection in a first activation
    emits one event. *)
Theorem restarted_sampler_span_emits_nothing :
  let start := (Tracker.initialBrowser, Tracker.initialHook) in
  let before := Tracker.run start Scenario.offAndOnAgain in
  let after :=
    Tracker.run start (Scenario.offAndOnAgain ++ map Tracker.Tick Scenario.laterSpan) in
  Tracker.isTracking (Tracker.state (snd before)) = true
  /\ Tracker.faceTick (Scenario.present 20000) = true
  /\ forallb Tracker.noFaceTick Scenario.laterSpan = true
  /\ (Tracker.DISTRACTION_THRESHOLD_MS <= 31000 - 20500)%Z
  /\ Tracker.distractionEvents (Tracker.state (snd before)) = 1%nat
  /\ Tracker.distractionEvents (Tracker.state (snd after)) = 1%nat
  /\ Tracker.emitted (snd before) Scenario.laterSpan = 0%Z
  /\ Tracker.distractionStartRef (snd before) = None
  /\ Tracker.eventTriggeredRef (snd before) = true
  /\ Tracker.emitted
       (Tracker.ticks [Scenario.present 20000] (snd Scenario.started))
       Scenario.laterSpan = 1%Z.
Proof. vm_compute. repeat split; discriminate. Qed.

(** ** Releasing and acquiring the camera *)

Section Lifecycle.
Import Tracker.

Lemma stopTracking_releases b h :
  snd (stopTracking (b, h)) = releasesOf h.
Proof.
  destruct h as [st [v|] c [d|] [s|] [i|] ds ts tr]; reflexivity.
Qed.

Lemma stopTracking_refs b h :
  let h' := snd (fst (stopTracking (b, h))) in
  streamRef h' = None /\ detectorRef h' = None /\ intervalRef h' = None
  /\ videoRef h' = None /\ canvasRef h' = None
  /\ distractionStartRef h' = None
  /\ isTracking (state h') = false.
Proof.
  destruct h as [st [v|] c [d|] [s|] [i|] ds ts tr]; simpl; repeat split.
Qed.

Lemma stopTracking_browser b h :
  let b' := fst (fst (stopTracking (b, h))) in
  liveStreams b' = liveStreams b ∖ from_option singleton ∅ (streamRef h)
  /\ liveIntervals b' = liveIntervals b ∖ from_option singleton ∅ (intervalRef h)
  /\ openDetectors b' = openDetectors b ∖ from_option singleton ∅ (detectorRef h)
  /\ nextHandle b' = nextHandle b /\ alerts b' = alerts b.
Proof.
  destruct h as [st [v|] c [d|] [s|] [i|] ds ts tr];
    simpl; rewrite ?difference_empty_L; repeat split.
Qed.

Lemma stopTracking_twice b h :
  stopTracking (fst (stopTracking (b, h))) = (fst (stopTracking (b, h)), []).
Proof.
  destruct h as [st [v|] c [d|] [s|] [i|] ds ts tr]; reflexivity.
Qed.

End Lifecycle.

(** C8.  [stopTracking] is idempotent.  A first call releases each of the
    interval, the detector and the camera stream the hook holds, once; a
    second call right after it is defined, makes no release call and changes
    neither the hook nor the browser; after a call the stream, detector,
    interval, video and canvas cells are null and [isTracking] is false. *)
Theorem stopTracking_idempotent :
  forall (b : Tracker.Browser) (h : Tracker.Hook),
    let first := Tracker.stopTracking (b, h) in
    let second := Tracker.stopTracking (fst first) in
    snd first = Tracker.releasesOf h
    /\ Tracker.liveStreams (fst (fst first))
       = Tracker.liveStreams b ∖ from_option singleton ∅ (Tracker.streamRef h)
    /\ Tracker.liveIntervals (fst (fst first))
       = Tracker.liveIntervals b ∖ from_option singleton ∅ (Tracker.intervalRef h)
    /\ Tracker.openDetectors (fst (fst first))
       = Tracker.openDetectors b ∖ from_option singleton ∅ (Tracker.detectorRef h)
    /\ snd second = []
    /\ fst second = fst first
    /\ Tracker.streamRef (snd (fst first)) = None
    /\ Tracker.detectorRef (snd (fst first)) = None
    /\ Tracker.intervalRef (snd (fst first)) = None
    /\ Tracker.videoRef (snd (fst first)) = None
    /\ Tracker.isTracking (Tracker.state (snd (fst first))) = false.
Proof.
  intros b h first second. subst first second.
  rewrite stopTracking_twice, stopTracking_releases.
  destruct (stopTracking_refs b h) as (Hs & Hd & Hi & Hv & _ & _ & Ht).
  destruct (stopTracking_browser b h) as (Hls & Hli & Hod & _).
  simpl in *. repeat split; assumption.
Qed.

Section Acquire.
Import Tracker.
Local Open Scope nat_scope.

(** A call of [startTracking] that gets the camera and the detector, spelled
    out: five fresh handles, the first for the stream, the fourth for the
    detector, the fifth for the interval. *)
Lemma startTracking_success e b h :
  mediaGranted e = true -> detectorInitialized e = true ->
  let n := nextHandle b in
  startTracking e (b, h)
  = (mkBrowser (5 + n) ({[n]} ∪ liveStreams b) ({[4 + n]} ∪ liveIntervals b)
       ({[3 + n]} ∪ openDetectors b) (alerts b),
     mkHook (set_isTracking true (state h))
       (Some (1 + n)) (Some (2 + n)) (Some (3 + n)) (Some n) (Some (4 + n))
       (distractionStartRef h) (eventTimestampsRef h) (eventTriggeredRef h)).
Proof.
  intros Hg Hd n. unfold startTracking, initializeDetector. rewrite Hg, Hd.
  reflexivity.
Qed.

Lemma startTracking_wf e b h :
  wfBrowser b -> wfBrowser (fst (startTracking e (b, h))).
Proof.
  intros Hwf. unfold startTracking, initializeDetector.
  destruct (mediaGranted e); simpl; [|exact Hwf].
  destruct (detectorInitialized e); simpl; unfold wfBrowser in *; simpl;
    intros x Hx; assert (Hb := Hwf x);
    repeat rewrite elem_of_union in *; rewrite ?elem_of_singleton in *;
    intuition lia.
Qed.

Lemma stopTracking_wf b h :
  wfBrowser b -> wfBrowser (fst (fst (stopTracking (b, h)))).
Proof.
  intros Hwf x Hx.
  destruct (stopTracking_browser b h) as (Hs & Hi & Hd & Hn & _).
  rewrite Hs, Hi, Hd in Hx. rewrite Hn. apply Hwf.
  rewrite !elem_of_union, !elem_of_difference in Hx.
  rewrite !elem_of_union. tauto.
Qed.

(** A call that is not interleaved is its three stretches in a row. *)
Lemma startTracking_stretches e bh :
  startTracking e bh
  = if mediaGranted e
    then startTracking_detector (detectorInitialized e)
           (startTracking_metadata (startTracking_acquired bh))
    else (alert (fst bh), snd bh).
Proof.
  destruct bh as [b h].
  unfold startTracking, startTracking_detector, startTracking_metadata,
    startTracking_acquired.
  destruct (mediaGranted e); reflexivity.
Qed.

Lemma startTracking_acquired_wf b h :
  wfBrowser b -> wfBrowser (fst (startTracking_acquired (b, h))).
Proof.
  intros Hwf. unfold wfBrowser in *; simpl.
  intros x Hx; assert (Hb := Hwf x);
    repeat rewrite elem_of_union in *; rewrite ?elem_of_singleton in *;
    intuition lia.
Qed.

Lemma startTracking_detector_wf ok b h :
  wfBrowser b -> wfBrowser (fst (startTracking_detector ok (b, h))).
Proof.
  intros Hwf. unfold startTracking_detector, initializeDetector.
  destruct ok; simpl; [|exact Hwf].
  unfold wfBrowser in *; simpl.
  intros x Hx; assert (Hb := Hwf x);
    repeat rewrite elem_of_union in *; rewrite ?elem_of_singleton in *;
    intuition lia.
Qed.

Lemma step_wf bh o : wfBrowser (fst bh) -> wfBrowser (fst (step bh o)).
Proof.
  destruct bh as [b h]. intros Hwf. destruct o; simpl.
  - now destruct (bool_decide _).
  - now apply startTracking_wf.
  - now apply stopTracking_wf.
  - exact Hwf.
  - exact Hwf.
  - now apply (startTracking_acquired_wf b h).
  - exact Hwf.
  - now apply (startTracking_detector_wf ok b h).
Qed.

Lemma run_wf ops : forall bh, wfBrowser (fst bh) -> wfBrowser (fst (run bh ops)).
Proof.
  induction ops as [|o ops IH]; intros bh Hwf; [exact Hwf|].
  apply (IH (step bh o)). now apply step_wf.
Qed.

Lemma initialBrowser_wf : wfBrowser initialBrowser.
Proof.
  intros x Hx. unfold initialBrowser in Hx. simpl in Hx.
  rewrite !elem_of_union in Hx.
  destruct Hx as [[Hx|Hx]|Hx]; now apply not_elem_of_empty in Hx.
Qed.

End Acquire.

(** C7 as amended.  [startTracking] has no already-tracking guard.  On any
    state the page can reach, tracking or not, a call that is granted the
    camera and gets its detector acquires a capture stream that was not live
    before, next to all that were, stores it in [streamRef], and likewise
    puts a new detector and a new interval into [detectorRef] and
    [intervalRef]; nothing live before the call is released, and
    [isTracking] is true afterwards. *)
Theorem startTracking_always_acquires :
  forall ops e,
    let bh := Tracker.run (Tracker.initialBrowser, Tracker.initialHook) ops in
    let bh' := Tracker.startTracking e bh in
    Tracker.mediaGranted e = true ->
    Tracker.detectorInitialized e = true ->
    exists stream detector interval,
      Tracker.streamRef (snd bh') = Some stream
      /\ (stream ∉ Tracker.liveStreams (fst bh))
      /\ Tracker.liveStreams (fst bh') = {[stream]} ∪ Tracker.liveStreams (fst bh)
      /\ Tracker.detectorRef (snd bh') = Some detector
      /\ (detector ∉ Tracker.openDetectors (fst bh))
      /\ Tracker.openDetectors (fst bh') = {[detector]} ∪ Tracker.openDetectors (fst bh)
      /\ Tracker.intervalRef (snd bh') = Some interval
      /\ (interval ∉ Tracker.liveIntervals (fst bh))
      /\ Tracker.liveIntervals (fst bh') = {[interval]} ∪ Tracker.liveIntervals (fst bh)
      /\ Tracker.isTracking (Tracker.state (snd bh')) = true.
Proof.
  intros ops e bh bh' Hg Hd.
  assert (Hwf : Tracker.wfBrowser (fst bh)).
  { apply run_wf. exact initialBrowser_wf. }
  subst bh'. destruct bh as [b h].
  rewrite startTracking_success by assumption. simpl in *.
  exists (Tracker.nextHandle b), (S (S (S (Tracker.nextHandle b)))),
         (S (S (S (S (Tracker.nextHandle b))))).
  assert (Hfresh : forall x, (Tracker.nextHandle b <= x)%nat ->
            (x ∉ Tracker.liveStreams b) /\ (x ∉ Tracker.openDetectors b)
            /\ (x ∉ Tracker.liveIntervals b)).
  { intros x Hx. repeat split; intros Hin;
      assert (x < Tracker.nextHandle b)%nat
        by (apply Hwf; rewrite !elem_of_union; tauto); lia. }
  destruct (Hfresh (Tracker.nextHandle b)) as (Hs & _ & _); [lia|].
  destruct (Hfresh (S (S (S (Tracker.nextHandle b))))) as (_ & Hdt & _); [lia|].
  destruct (Hfresh (S (S (S (S (Tracker.nextHandle b)))))) as (_ & _ & Hi); [lia|].
  repeat (split; [first [reflexivity | assumption]|]). reflexivity.
Qed.

Lemma startTracking_always_acquires_witness :
  exists stream detector interval,
    Tracker.streamRef (snd (Tracker.startTracking Scenario.cameraOk Scenario.started))
    = Some stream
    /\ (stream ∉ Tracker.liveStreams (fst Scenario.started))
    /\ Tracker.liveStreams (fst (Tracker.startTracking Scenario.cameraOk Scenario.started))
       = {[stream]} ∪ Tracker.liveStreams (fst Scenario.started)
    /\ Tracker.detectorRef (snd (Tracker.startTracking Scenario.cameraOk Scenario.started))
       = Some detector
    /\ (detector ∉ Tracker.openDetectors (fst Scenario.started))
    /\ Tracker.openDetectors (fst (Tracker.startTracking Scenario.cameraOk Scenario.started))
       = {[detector]} ∪ Tracker.openDetectors (fst Scenario.started)
    /\ Tracker.intervalRef (snd (Tracker.startTracking Scenario.cameraOk Scenario.started))
       = Some interval
    /\ (interval ∉ Tracker.liveIntervals (fst Scenario.started))
    /\ Tracker.liveIntervals (fst (Tracker.startTracking Scenario.cameraOk Scenario.started))
       = {[interval]} ∪ Tracker.liveIntervals (fst Scenario.started)
    /\ Tracker.isTracking
         (Tracker.state (snd (Tracker.startTracking Scenario.cameraOk Scenario.started)))
       = true.
Proof.
  exact (startTracking_always_acquires
           [Tracker.StartTracking Scenario.cameraOk] Scenario.cameraOk
           eq_refl eq_refl).
Defined.

(** C7 as stated fails: on the hook a first successful call left tracking, a
    second call is not a no-op.  It replaces the stream, detector and interval
    cells, two camera streams and two intervals are then live, and a
    [stopTracking] after it leaves the first stream and the first interval
    running. *)
Lemma startTracking_while_tracking_not_noop :
  Tracker.isTracking (Tracker.state (snd Scenario.started)) = true
  /\ Tracker.startTracking Scenario.cameraOk Scenario.started <> Scenario.started
  /\ Tracker.streamRef (snd Scenario.started) = Some 0%nat
  /\ Tracker.streamRef (snd (Tracker.startTracking Scenario.cameraOk Scenario.started))
     = Some 5%nat
  /\ Tracker.detectorRef (snd Scenario.started) = Some 3%nat
  /\ Tracker.detectorRef (snd (Tracker.startTracking Scenario.cameraOk Scenario.started))
     = Some 8%nat
  /\ Tracker.intervalRef (snd Scenario.started) = Some 4%nat
  /\ Tracker.intervalRef (snd (Tracker.startTracking Scenario.cameraOk Scenario.started))
     = Some 9%nat
  /\ Tracker.liveStreams
       (fst (Tracker.startTracking Scenario.cameraOk Scenario.started))
     = {[0%nat; 5%nat]}
  /\ Tracker.liveStreams
       (fst (fst (Tracker.stopTracking
                    (Tracker.startTracking Scenario.cameraOk Scenario.started))))
     = {[0%nat]}
  /\ Tracker.liveIntervals
       (fst (fst (Tracker.stopTracking
                    (Tracker.startTracking Scenario.cameraOk Scenario.started))))
     = {[4%nat]}.
Proof.
  split; [reflexivity|]. split.
  - intros Heq. apply (f_equal (fun bh => Tracker.streamRef (snd bh))) in Heq.
    vm_compute in Heq. discriminate.
  - vm_compute. repeat split.
Qed.

(** ** Dismissing the break suggestion *)

(** C9 as amended.  Dismissing the break suggestion clears
    [shouldSuggestBreak] and empties the list of event timestamps; the
    accumulated [distractionEvents] count and every other field and cell of
    the hook are kept.  The events recorded before no longer count: as long
    as fewer than [BREAK_SUGGESTION_THRESHOLD] events have been emitted since
    the dismissal, the suggestion stays off. *)
Theorem dismissBreakSuggestion_clears_flag_and_timestamps :
  forall h : Tracker.Hook,
    let h' := Tracker.dismissBreakSuggestion h in
    Tracker.shouldSuggestBreak (Tracker.state h') = false
    /\ Tracker.eventTimestampsRef h' = []
    /\ Tracker.distractionEvents (Tracker.state h')
       = Tracker.distractionEvents (Tracker.state h)
    /\ (Tracker.isTracking (Tracker.state h'),
        Tracker.isFaceDetected (Tracker.state h'),
        Tracker.currentDistractionDuration (Tracker.state h'),
        Tracker.totalFocusedTime (Tracker.state h'),
        Tracker.totalDistractedTime (Tracker.state h'),
        Tracker.detectionScore (Tracker.state h'))
       = (Tracker.isTracking (Tracker.state h),
          Tracker.isFaceDetected (Tracker.state h),
          Tracker.currentDistractionDuration (Tracker.state h),
          Tracker.totalFocusedTime (Tracker.state h),
          Tracker.totalDistractedTime (Tracker.state h),
          Tracker.detectionScore (Tracker.state h))
    /\ (Tracker.videoRef h', Tracker.canvasRef h', Tracker.detectorRef h',
        Tracker.streamRef h', Tracker.intervalRef h',
        Tracker.distractionStartRef h', Tracker.eventTriggeredRef h')
       = (Tracker.videoRef h, Tracker.canvasRef h, Tracker.detectorRef h,
          Tracker.streamRef h, Tracker.intervalRef h,
          Tracker.distractionStartRef h, Tracker.eventTriggeredRef h)
    /\ forall later : list Tracker.Sample,
         (Tracker.distractionEvents (Tracker.state (Tracker.ticks later h'))
          - Tracker.distractionEvents (Tracker.state h')
          < Tracker.BREAK_SUGGESTION_THRESHOLD)%nat ->
         Tracker.shouldSuggestBreak (Tracker.state (Tracker.ticks later h')) = false.
Proof.
  intros h h'. subst h'.
  repeat (split; [reflexivity|]).
  intros later Hfew.
  apply suggestion_needs_threshold_events; [reflexivity|].
  exact Hfew.
Qed.

Lemma dismissBreakSuggestion_witness :
  Tracker.shouldSuggestBreak
    (Tracker.state
       (Tracker.ticks Scenario.fourthSpan
          (Tracker.dismissBreakSuggestion
             (Tracker.ticks Scenario.threeInWindow (snd Scenario.started)))))
  = false.
Proof.
  destruct (dismissBreakSuggestion_clears_flag_and_timestamps
              (Tracker.ticks Scenario.threeInWindow (snd Scenario.started)))
    as (_ & _ & _ & _ & _ & Hlater).
  apply (Hlater Scenario.fourthSpan).
  vm_compute. lia.
Defined.

(** C9 as stated fails: after three events within a minute, dismissing the
    suggestion does not keep the three timestamps, and a fourth event twelve
    seconds after the third, also within the window, leaves the suggestion
    off with a single timestamp in the list. *)
Lemma dismissBreakSuggestion_drops_timestamps :
  let h := Tracker.ticks Scenario.threeInWindow (snd Scenario.started) in
  let h' := Tracker.dismissBreakSuggestion h in
  let h'' := Tracker.ticks Scenario.fourthSpan h' in
  Tracker.eventTimestampsRef h = [10000; 22000; 34000]%Z
  /\ Tracker.eventTimestampsRef h' <> Tracker.eventTimestampsRef h
  /\ Tracker.distractionEvents (Tracker.state h'') = 4%nat
  /\ Tracker.eventTimestampsRef h'' = [46000]%Z
  /\ Tracker.shouldSuggestBreak (Tracker.state h'') = false
  /\ (46000 - 10000 < Tracker.TREND_WINDOW_MS)%Z.
Proof. vm_compute. repeat split; discriminate. Qed.

(** ** Reconciling sync responses, and the end of playback *)

Section Sync.
Import Player.

Lemma run_snoc p s es e : run p s (es ++ [e]) = step p (run p s es) e.
Proof. unfold run. now rewrite fold_left_app. Qed.

End Sync.

(** C6 as amended.  The reconciliation step applies every answered sync
    unconditionally: whatever the local state and whatever position the
    request had captured, after the continuation of [saveProgress] runs on a
    response, [maxWatched] is the response's [max_watched_seconds], and the
    parent is told the response's [completed] with the captured position; a
    failed post changes nothing.  So after any interleaving that ends in a
    response, [maxWatched] is what that response carries. *)
Theorem saveProgress_settle_overwrites :
  (forall p currentPos data s,
     Player.maxWatched (fst (Player.saveProgress_settle p currentPos
                               (Player.Responded data) s))
     = max_watched_seconds data
     /\ fst (Player.saveProgress_settle p currentPos (Player.Responded data) s)
        = Player.setMaxWatched (max_watched_seconds data) s
     /\ snd (Player.saveProgress_settle p currentPos (Player.Responded data) s)
        = if Player.onProgressUpdate p
          then [Player.OnProgressUpdate (completed data) currentPos]
          else [])
  /\ (forall p currentPos s,
        Player.saveProgress_settle p currentPos Player.Threw s
        = (s, [Player.ConsoleError]))
  /\ (forall p s es currentPos data,
        Player.maxWatched
          (Player.run p s (es ++ [Player.Settled currentPos (Player.Responded data)]))
        = max_watched_seconds data).
Proof.
  split; [|split].
  - intros p currentPos data s. repeat split.
  - reflexivity.
  - intros p s es currentPos data. rewrite run_snoc. reflexivity.
Qed.

(** C6 as stated fails: the answer to the request sent at 10 s arrives after
    the answer to the request sent at 15 s has been applied and playback has
    optimistically moved [maxWatched] to 20 s; it sets [maxWatched] back to
    10 s. *)
Lemma late_response_overwrites_newer_maxWatched :
  let p := Scenario.mandatory in
  let before := Player.run p Scenario.at0 (removelast Scenario.lateAnswer) in
  let after := Player.run p Scenario.at0 Scenario.lateAnswer in
  Player.saveProgress_send p (Player.run p Scenario.at0 [Player.TimeUpdate 10])
  = Some (10, Player.PostProgress 7 10 300)
  /\ Player.saveProgress_send p
       (Player.run p Scenario.at0 [Player.TimeUpdate 10; Player.TimeUpdate 15])
     = Some (15, Player.PostProgress 7 15 300)
  /\ Player.maxWatched before = 20
  /\ Player.maxWatched after = 10
  /\ Player.maxWatched after < Player.maxWatched before.
Proof. vm_compute. repeat split. Qed.

(** C10.  With the element mounted, [handleEnded] stops [isPlaying] and posts
    [watched_seconds = total_seconds = duration].  When the post is answered,
    the parent passed [onProgressUpdate] and the player is still mounted, the
    callback is invoked with [completed: true], whatever the response holds
    (also one whose [completed] is false, as for a ratchet clamped at 15 s of
    300 s).  When the post is answered but the player has been unmounted in
    the meantime, the callback is not invoked at all: the second read of
    [videoRef.current.duration] throws and the [catch] logs a failure.  When
    the post throws, the callback is not invoked. *)
Theorem handleEnded_unmounted_at_answer_skips_callback :
  (forall p s v o current,
     Player.videoRef s = Some v ->
     let d := HTMLVideoElement.duration v in
     fst (Player.handleEnded p o current s) = Player.setIsPlaying false s
     /\ hd_error (snd (Player.handleEnded p o current s))
        = Some (Player.PostProgress (Player.videoId p) d d))
  /\ (forall p s v v' data,
        Player.videoRef s = Some v ->
        Player.onProgressUpdate p = true ->
        let d := HTMLVideoElement.duration v in
        snd (Player.handleEnded p (Player.Responded data) (Some v') s)
        = [Player.PostProgress (Player.videoId p) d d;
           Player.OnProgressUpdate true (HTMLVideoElement.duration v')])
  /\ (forall p s v data,
        Player.videoRef s = Some v ->
        Player.onProgressUpdate p = true ->
        let d := HTMLVideoElement.duration v in
        snd (Player.handleEnded p (Player.Responded data) None s)
        = [Player.PostProgress (Player.videoId p) d d; Player.ConsoleError])
  /\ (forall p s v current,
        Player.videoRef s = Some v ->
        let d := HTMLVideoElement.duration v in
        snd (Player.handleEnded p Player.Threw current s)
        = [Player.PostProgress (Player.videoId p) d d; Player.ConsoleError])
  /\ (snd (Player.handleEnded Scenario.mandatory
             (Player.Responded (mkProgressResponse 300 300 true)) None Scenario.at40)
      = [Player.PostProgress 7 300 300; Player.ConsoleError]
      /\ forall completed watchedSeconds,
           ~ In (Player.OnProgressUpdate completed watchedSeconds)
                (snd (Player.handleEnded Scenario.mandatory
                        (Player.Responded (mkProgressResponse 300 300 true)) None
                        Scenario.at40)))
  /\ (completed Scenario.clampedAnswer = false
      /\ snd (Player.handleEnded Scenario.mandatory
                (Player.Responded Scenario.clampedAnswer)
                (Player.videoRef Scenario.at40) Scenario.at40)
         = [Player.PostProgress 7 300 300; Player.OnProgressUpdate true 300]).
Proof.
  split; [|split; [|split; [|split; [|split]]]].
  - intros p s v o current Hv d. subst d. unfold Player.handleEnded. rewrite Hv.
    destruct o; split; reflexivity.
  - intros p s v v' data Hv Hcb d. subst d.
    unfold Player.handleEnded. now rewrite Hv, Hcb.
  - intros p s v data Hv Hcb d. subst d.
    unfold Player.handleEnded. now rewrite Hv, Hcb.
  - intros p s v current Hv d. subst d.
    unfold Player.handleEnded. now rewrite Hv.
  - split; [reflexivity|]. intros c w [H|[H|[]]]; discriminate H.
  - split; reflexivity.
Qed.

Lemma handleEnded_unmounted_at_answer_witness :
  snd (Player.handleEnded Scenario.mandatory
         (Player.Responded Scenario.clampedAnswer)
         (Some (HTMLVideoElement.mk 300 300 true)) Scenario.at40)
  = [Player.PostProgress 7 300 300; Player.OnProgressUpdate true 300]
  /\ snd (Player.handleEnded Scenario.mandatory
            (Player.Responded Scenario.clampedAnswer) None Scenario.at40)
     = [Player.PostProgress 7 300 300; Player.ConsoleError]
  /\ snd (Player.handleEnded Scenario.mandatory Player.Threw None Scenario.at40)
     = [Player.PostProgress 7 300 300; Player.ConsoleError].
Proof.
  destruct handleEnded_unmounted_at_answer_skips_callback
    as (_ & Hcall & Hgone & Hthrow & _).
  split; [|split].
  - apply (Hcall Scenario.mandatory Scenario.at40
             (HTMLVideoElement.mk 40 300 false) (HTMLVideoElement.mk 300 300 true)
             Scenario.clampedAnswer); reflexivity.
  - apply (Hgone Scenario.mandatory Scenario.at40
             (HTMLVideoElement.mk 40 300 false) Scenario.clampedAnswer); reflexivity.
  - apply (Hthrow Scenario.mandatory Scenario.at40
             (HTMLVideoElement.mk 40 300 false) None). reflexivity.
Defined.

(** The progress rule as described for the server does produce the clamped
    answer used above: an empty store, a first report of 300 s of 300 s. *)
Lemma clampedAnswer_from_reportProgress :
  exists store',
    ProgressStore.reportProgress 15 Scenario.everyone 1 ∅ 1 7 300 300
    = ProgressStore.Accepted store' Scenario.clampedAnswer.
Proof. eexists. vm_compute. reflexivity. Qed.

(** ** Pausing on distraction events *)

Section Pausing.
Import Monitor.
Local Open Scope nat_scope.

(** The effect on an event count not yet processed that is 1 or 2. *)
Lemma distractionEffect_first_two de sb m :
  lastProcessedEventRef m < de -> 1 <= de <= 2 ->
  distractionEffect de sb m
  = (set_lastProcessedEventRef de (setPauseNotification (Some (notice de)) m),
     [PauseVideo; ClearNotificationAfter 4000]
     ++ (if sb then [PauseVideo] else [])).
Proof.
  intros Hlt [H1 H2]. unfold distractionEffect.
  apply Nat.ltb_lt in Hlt. rewrite Hlt.
  assert (Hpos : (0 <? de) = true) by (apply Nat.ltb_lt; lia).
  assert (Hlt3 : (de <? 3) = true) by (apply Nat.ltb_lt; lia).
  rewrite Hpos, Hlt3. reflexivity.
Qed.

(** The effect on any other commit: at most the forced pause. *)
Lemma distractionEffect_other de sb m :
  de <= lastProcessedEventRef m \/ de = 0 \/ 3 <= de ->
  snd (distractionEffect de sb m) = (if sb then [PauseVideo] else [])
  /\ pauseNotification (fst (distractionEffect de sb m)) = pauseNotification m.
Proof.
  intros H. unfold distractionEffect.
  destruct (lastProcessedEventRef m <? de) eqn:Hlt.
  - apply Nat.ltb_lt in Hlt.
    assert (Hc : (0 <? de) && (de <? 3) = false).
    { destruct H as [H|[H|H]]; [lia | subst; reflexivity |].
      apply andb_false_iff. right. apply Nat.ltb_ge. lia. }
    rewrite Hc. split; reflexivity.
  - split; reflexivity.
Qed.

Lemma distractionEffect_lastProcessed de sb m :
  lastProcessedEventRef (fst (distractionEffect de sb m))
  = Nat.max (lastProcessedEventRef m) de.
Proof.
  unfold distractionEffect.
  destruct (lastProcessedEventRef m <? de) eqn:Hlt.
  - apply Nat.ltb_lt in Hlt.
    destruct ((0 <? de) && (de <? 3)); simpl; lia.
  - apply Nat.ltb_ge in Hlt. simpl. lia.
Qed.

Lemma distractionEffect_notices de sb m :
  notices (snd (distractionEffect de sb m))
  = if (lastProcessedEventRef m <? de) && (0 <? de) && (de <? 3) then 1 else 0.
Proof.
  unfold distractionEffect.
  destruct (lastProcessedEventRef m <? de); simpl;
    destruct (0 <? de); simpl; destruct (de <? 3); simpl; destruct sb; reflexivity.
Qed.

Lemma distractionEffect_forced de m :
  In PauseVideo (snd (distractionEffect de true m)).
Proof.
  unfold distractionEffect.
  destruct (lastProcessedEventRef m <? de); simpl;
    [destruct ((0 <? de) && (de <? 3)); simpl|]; auto.
Qed.

(** An event count the overlay has already processed raises no notice in
    any later commit. *)
Lemma noticesAt_processed c commits : forall m,
  c <= lastProcessedEventRef m ->
  noticesAt c commits (snd (effects m commits)) = 0.
Proof.
  induction commits as [|[de sb] commits IH]; intros m Hle; [reflexivity|].
  simpl. destruct (distractionEffect de sb m) as [m1 acts] eqn:E.
  destruct (effects m1 commits) as [m2 outs] eqn:E2. simpl.
  assert (Hn : notices acts = notices (snd (distractionEffect de sb m)))
    by now rewrite E.
  assert (Hl : lastProcessedEventRef m1
               = lastProcessedEventRef (fst (distractionEffect de sb m)))
    by now rewrite E.
  rewrite distractionEffect_notices in Hn.
  rewrite distractionEffect_lastProcessed in Hl.
  specialize (IH m1). rewrite E2 in IH. simpl in IH. rewrite IH by lia.
  destruct (de =? c) eqn:Hdc; simpl; [|reflexivity].
  apply Nat.eqb_eq in Hdc. subst de.
  assert (Hnlt : (lastProcessedEventRef m <? c) = false) by (apply Nat.ltb_ge; lia).
  rewrite Hnlt in Hn. simpl in Hn. now rewrite Hn.
Qed.

(** No event count raises the pause-with-notice in more than one commit. *)
Lemma noticesAt_at_most_once c commits : forall m,
  noticesAt c commits (snd (effects m commits)) <= 1.
Proof.
  induction commits as [|[de sb] commits IH]; intros m; [simpl; lia|].
  simpl. destruct (distractionEffect de sb m) as [m1 acts] eqn:E.
  destruct (effects m1 commits) as [m2 outs] eqn:E2. simpl.
  assert (Hn : notices acts = notices (snd (distractionEffect de sb m)))
    by now rewrite E.
  assert (Hl : lastProcessedEventRef m1
               = lastProcessedEventRef (fst (distractionEffect de sb m)))
    by now rewrite E.
  rewrite distractionEffect_notices in Hn.
  rewrite distractionEffect_lastProcessed in Hl.
  destruct ((de =? c) && (0 <? notices acts)) eqn:Hc.
  - apply andb_prop in Hc as [Hdc _]. apply Nat.eqb_eq in Hdc. subst de.
    pose proof (noticesAt_processed c commits m1) as Hz.
    rewrite E2 in Hz. simpl in Hz. rewrite Hz by lia. lia.
  - specialize (IH m1). rewrite E2 in IH. simpl in IH. lia.
Qed.

(** From a fresh mount, while the count climbs 0, 1, 2, 3 and the third
    event brings the suggestion: one pause with notice at 1, one at 2, none
    on commits that repeat a count, a forced pause on every commit that
    sees the suggestion. *)
Lemma first_row_pauses :
  snd (effects initial
         [(0, false); (1, false); (1, false); (2, false); (2, false);
          (3, true); (3, true)])
  = [[];
     [PauseVideo; ClearNotificationAfter 4000]; [];
     [PauseVideo; ClearNotificationAfter 4000]; [];
     [PauseVideo]; [PauseVideo]].
Proof. reflexivity. Qed.

End Pausing.

(** C5.  Evaluation of the overlay on a run in which the user takes the
    suggested break.  Before the break, the first and the second distraction
    event each bring one pause with its notice and the third the forced
    pause.  The break resets [distractionEvents] to 0 and leaves
    [lastProcessedEventRef] at 3, so the distraction event after the break,
    which makes the count 1 again, brings no pause and no notice. *)
Theorem first_event_after_break_not_paused :
  let before := Monitor.run Monitor.mounted Scenario.untilBreak in
  let after := Monitor.run Monitor.mounted Scenario.afterBreak in
  List.filter (fun acts => negb (Nat.eqb (length acts) 0)) (snd before)
  = [[Monitor.PauseVideo; Monitor.ClearNotificationAfter 4000];
     [Monitor.PauseVideo; Monitor.ClearNotificationAfter 4000];
     [Monitor.PauseVideo];
     [Monitor.PauseVideo];
     [Monitor.ResumeVideo]]
  /\ Tracker.distractionEvents (Tracker.state (Monitor.hook (fst before))) = 0%nat
  /\ Monitor.lastProcessedEventRef (Monitor.monitor (fst before)) = 3%nat
  /\ Monitor.isOnBreak (Monitor.monitor (fst before)) = false
  /\ Tracker.distractionEvents (Tracker.state (Monitor.hook (fst after))) = 1%nat
  /\ Tracker.shouldSuggestBreak (Tracker.state (Monitor.hook (fst after))) = false
  /\ last (snd after) = Some []
  /\ snd after = snd before ++ [[]; []; []; []]
  /\ Monitor.pauseNotification (Monitor.monitor (fst after))
     = Monitor.pauseNotification (Monitor.monitor (fst before)).
Proof. vm_compute. repeat split. Qed.

(** * Further properties of the player *)

Section PlayerExtras.
Import Player.

Lemma handleTimeUpdate_maxWatched s v :
  currentTime (handleTimeUpdate s v) = HTMLVideoElement.currentTime v
  /\ videoRef (handleTimeUpdate s v) = videoRef s
  /\ maxWatched s <= maxWatched (handleTimeUpdate s v)
  /\ HTMLVideoElement.currentTime v <= maxWatched (handleTimeUpdate s v)
  /\ (maxWatched (handleTimeUpdate s v) = maxWatched s
      \/ maxWatched (handleTimeUpdate s v) = HTMLVideoElement.currentTime v).
Proof.
  unfold handleTimeUpdate.
  destruct (Qgtb_spec (HTMLVideoElement.currentTime v) (maxWatched s)) as [Hgt|Hle];
    simpl; repeat split; auto; lra.
Qed.

Lemma step_unsettled_maxWatched p s e :
  isSettled e = false -> maxWatched s <= maxWatched (step p s e).
Proof.
  destruct e as [t|t|pos o]; simpl; intros H; try discriminate.
  - lra.
  - unfold moveTo. destruct (videoRef s) as [v|]; simpl; [|lra].
    apply (handleTimeUpdate_maxWatched
             (set_videoRef (Some (HTMLVideoElement.set_currentTime t v)) s)
             (HTMLVideoElement.set_currentTime t v)).
Qed.

Lemma step_seeking_position p s t v :
  isMandatory p = true ->
  videoRef (step p s (Seeking t)) = Some v ->
  HTMLVideoElement.currentTime v <= maxWatched s + 2
  /\ maxWatched (step p s (Seeking t)) = maxWatched s.
Proof.
  intros Hm. simpl. unfold moveTo.
  destruct (videoRef s) as [v0|]; simpl; [|discriminate].
  intros H. injection H as <-. split; [|reflexivity].
  unfold handleSeeking. rewrite Hm. simpl.
  destruct (Qgtb_spec t (maxWatched s + 2)) as [Hgt|Hle]; simpl; lra.
Qed.

Lemma signal_maxWatched_kept p s g :
  answered g = false -> isTimeUpdate g = false ->
  maxWatched (signal p s g) = maxWatched s.
Proof.
  destruct g as [[t|t|pos [data|]]|[data|]| | | |o current];
    simpl; intros Ha Ht; try discriminate; try reflexivity.
  - unfold onLoadedMetadata, handleLoadedMetadata.
    destruct (videoRef s) as [v|] eqn:Hv; [|reflexivity].
    destruct (Qgtb (currentTime s) 0); simpl; [rewrite Hv|]; reflexivity.
  - unfold handleEnded. destruct (videoRef s); [destruct o|]; reflexivity.
Qed.

Lemma signal_unanswered_maxWatched p s g :
  answered g = false -> maxWatched s <= maxWatched (signal p s g).
Proof.
  intros Ha. destruct (isTimeUpdate g) eqn:Ht.
  - destruct g as [[t|t|pos o]| | | | |]; try discriminate Ht.
    now apply step_unsettled_maxWatched.
  - rewrite signal_maxWatched_kept by assumption. lra.
Qed.

End PlayerExtras.

(** X1.  Without a server response the local ratchet only moves up.  A time
    update records the position and leaves [maxWatched] at the larger of its
    old value and that position.  Of all the signals the component reacts to
    (seeking, time update, loaded metadata, play, pause, ended, and requests
    that fail) only a time update changes [maxWatched], and over any run of
    them in which no request is answered [maxWatched] never decreases. *)
Theorem maxWatched_monotone_without_sync :
  (forall s v,
     Player.currentTime (Player.handleTimeUpdate s v) = HTMLVideoElement.currentTime v
     /\ Player.maxWatched s <= Player.maxWatched (Player.handleTimeUpdate s v)
     /\ HTMLVideoElement.currentTime v <= Player.maxWatched (Player.handleTimeUpdate s v)
     /\ (Player.maxWatched (Player.handleTimeUpdate s v) = Player.maxWatched s
         \/ Player.maxWatched (Player.handleTimeUpdate s v)
            = HTMLVideoElement.currentTime v))
  /\ (forall p s g,
        Player.answered g = false ->
        Player.isTimeUpdate g = false ->
        Player.maxWatched (Player.signal p s g) = Player.maxWatched s)
  /\ (forall p gs s,
        forallb (fun g => negb (Player.answered g)) gs = true ->
        Player.maxWatched s <= Player.maxWatched (Player.signals p s gs)).
Proof.
  split; [|split].
  - intros s v.
    destruct (handleTimeUpdate_maxWatched s v) as (H1 & _ & H2 & H3 & H4). auto.
  - intros p s g Ha Ht. now apply signal_maxWatched_kept.
  - intros p gs. induction gs as [|g gs IH]; intros s Hall; simpl.
    + lra.
    + simpl in Hall. apply andb_prop in Hall as [Hg Hall].
      apply negb_true_iff in Hg.
      eapply Qle_trans; [apply (signal_unanswered_maxWatched p s g Hg)|].
      apply IH. exact Hall.
Qed.

Lemma maxWatched_monotone_without_sync_witness :
  Player.maxWatched Scenario.at40
  <= Player.maxWatched
       (Player.signals Scenario.mandatory Scenario.at40
          [Player.Pause; Player.Of (Player.Seeking 10); Player.Play;
           Player.Of (Player.TimeUpdate 10); Player.LoadedMetadata;
           Player.Of (Player.Settled 10 Player.Threw);
           Player.Of (Player.TimeUpdate 41);
           Player.Ended Player.Threw None; Player.Fetched Player.GetThrew])
  /\ Player.maxWatched (Player.signal Scenario.mandatory Scenario.at40 Player.LoadedMetadata)
     = Player.maxWatched Scenario.at40.
Proof.
  destruct maxWatched_monotone_without_sync as (_ & Hkept & Hrun).
  split.
  - apply (Hrun Scenario.mandatory
             [Player.Pause; Player.Of (Player.Seeking 10); Player.Play;
              Player.Of (Player.TimeUpdate 10); Player.LoadedMetadata;
              Player.Of (Player.Settled 10 Player.Threw);
              Player.Of (Player.TimeUpdate 41);
              Player.Ended Player.Threw None; Player.Fetched Player.GetThrew]
             Scenario.at40).
    reflexivity.
  - apply (Hkept Scenario.mandatory Scenario.at40 Player.LoadedMetadata); reflexivity.
Defined.

(** X2.  For a mandatory video a seek, wherever it aims, leaves the element
    at most 2 s beyond [maxWatched], and the time update that follows it
    raises [maxWatched] by at most 2 s and never lowers it. *)
Theorem seek_advances_ratchet_by_at_most_two :
  forall p s target,
    Player.isMandatory p = true ->
    (forall v,
       Player.videoRef (Player.step p s (Player.Seeking target)) = Some v ->
       HTMLVideoElement.currentTime v <= Player.maxWatched s + 2)
    /\ Player.maxWatched s <= Player.maxWatched (Player.seekThenUpdate p target s)
    /\ Player.maxWatched (Player.seekThenUpdate p target s) <= Player.maxWatched s + 2.
Proof.
  intros p s target Hm. split.
  - intros v Hv. now apply (step_seeking_position p s target v Hm Hv).
  - unfold Player.seekThenUpdate, Player.onTimeUpdate.
    destruct (Player.videoRef (Player.step p s (Player.Seeking target)))
      as [v|] eqn:Hv.
    + destruct (step_seeking_position p s target v Hm Hv) as [Hpos Hmw].
      destruct (handleTimeUpdate_maxWatched
                  (Player.step p s (Player.Seeking target)) v)
        as (_ & _ & Hlo & _ & [Heq|Heq]); rewrite Hmw in *.
      * rewrite Heq. split; lra.
      * split; [exact Hlo|]. rewrite Heq. exact Hpos.
    + simpl. split; lra.
Qed.

Lemma seek_advances_ratchet_witness :
  Player.maxWatched (Player.seekThenUpdate Scenario.mandatory 70 Scenario.at40)
  <= Player.maxWatched Scenario.at40 + 2.
Proof.
  apply (seek_advances_ratchet_by_at_most_two Scenario.mandatory Scenario.at40 70).
  reflexivity.
Defined.

Section Creep.
Import Player.


End Creep.



(** X4.  Loading the stored progress.  [fetchProgress] always ends
    [loading]; a failed request, or a stored ratchet that is not above 0,
    changes nothing else; a stored ratchet above 0 is taken over with the last
    position, which is also written to the mounted element.  The order in
    which the response and the element's metadata arrive does not matter:
    both orders end in the same state. *)
Theorem fetchProgress_restores_position :
  (forall o s, Player.loading (Player.fetchProgress o s) = false)
  /\ (forall s, Player.fetchProgress Player.GetThrew s = Player.setLoading false s)
  /\ (forall data s,
        max_watched_seconds data <= 0 ->
        Player.fetchProgress (Player.Got data) s = Player.setLoading false s)
  /\ (forall data s v,
        0 < max_watched_seconds data ->
        Player.videoRef s = Some v ->
        let s' := Player.fetchProgress (Player.Got data) s in
        Player.maxWatched s' = max_watched_seconds data
        /\ Player.currentTime s' = watched_seconds data
        /\ Player.videoRef s'
           = Some (HTMLVideoElement.set_currentTime (watched_seconds data) v))
  /\ (forall o s,
        Player.onLoadedMetadata (Player.fetchProgress o s)
        = Player.fetchProgress o (Player.onLoadedMetadata s)).
Proof.
  split; [|split; [|split; [|split]]].
  - intros [data|] s; reflexivity.
  - reflexivity.
  - intros data s Hle. unfold Player.fetchProgress.
    destruct (Qgtb_spec (max_watched_seconds data) 0) as [Hgt|_]; [lra|reflexivity].
  - intros data s v Hpos Hv s'. subst s'. unfold Player.fetchProgress.
    destruct (Qgtb_spec (max_watched_seconds data) 0) as [_|Hle]; [|lra].
    simpl. rewrite Hv. simpl. repeat split.
  - intros [data|] s; unfold Player.fetchProgress, Player.onLoadedMetadata,
      Player.handleLoadedMetadata.
    + destruct (Qgtb (max_watched_seconds data) 0) eqn:Hmax;
        destruct s as [[v|] mw ct d pl ld]; simpl;
        destruct (Qgtb ct 0) eqn:Hct; simpl;
        try (destruct (Qgtb (watched_seconds data) 0) eqn:Hw; simpl);
        reflexivity.
    + destruct s as [[v|] mw ct d pl ld]; simpl;
        destruct (Qgtb ct 0); reflexivity.
Qed.

Lemma fetchProgress_restores_position_witness :
  Player.fetchProgress (Player.Got (mkProgressResponse 0 0 false)) Scenario.at0
  = Player.setLoading false Scenario.at0
  /\ Player.videoRef
       (Player.fetchProgress (Player.Got (mkProgressResponse 120 150 false)) Scenario.at0)
     = Some (HTMLVideoElement.set_currentTime 120 (HTMLVideoElement.mk 0 300 false)).
Proof.
  destruct fetchProgress_restores_position as (_ & _ & Hzero & Hpos & _).
  split.
  - apply (Hzero (mkProgressResponse 0 0 false) Scenario.at0). vm_compute. discriminate.
  - apply (Hpos (mkProgressResponse 120 150 false) Scenario.at0
             (HTMLVideoElement.mk 0 300 false)); reflexivity.
Defined.

Section Percent.
Import Player.

Lemma ratio_bounds (x y d : Q) :
  0 < d -> 0 <= x -> x <= y -> y <= d ->
  0 <= x / d * 100 /\ x / d * 100 <= y / d * 100 /\ y / d * 100 <= 100.
Proof.
  intros Hd Hx Hxy Hyd.
  assert (Hinv : 0 <= / d) by (apply Qinv_le_0_compat; lra).
  assert (H0 : 0 <= x / d).
  { unfold Qdiv. apply Qmult_le_0_compat; assumption. }
  assert (H1 : x / d <= y / d).
  { unfold Qdiv. apply Qmult_le_compat_r; assumption. }
  assert (H2 : y / d <= 1).
  { apply Qle_shift_div_r; [assumption | lra]. }
  repeat split; lra.
Qed.

End Percent.

(** X5.  The two progress bars.  With no duration yet (0, as before the
    metadata has loaded) both widths are 0, nothing is divided by zero; with a
    positive duration and [0 <= currentTime <= maxWatched <= duration] the
    played bar is never wider than the max-watched bar, and both stay within
    0 and 100 percent. *)
Theorem progress_bars_within_bounds :
  forall s,
    (Player.duration s <= 0 ->
     Player.progressPercent s = 0 /\ Player.maxWatchedPercent s = 0)
    /\ (0 < Player.duration s ->
        0 <= Player.currentTime s ->
        Player.currentTime s <= Player.maxWatched s ->
        Player.maxWatched s <= Player.duration s ->
        0 <= Player.progressPercent s
        /\ Player.progressPercent s <= Player.maxWatchedPercent s
        /\ Player.maxWatchedPercent s <= 100).
Proof.
  intros s. unfold Player.progressPercent, Player.maxWatchedPercent.
  destruct (Qgtb_spec (Player.duration s) 0) as [Hpos|Hle]; split.
  - intros H. lra.
  - intros _ H0 H1 H2. now apply ratio_bounds.
  - intros _. split; reflexivity.
  - intros H. lra.
Qed.

Lemma progress_bars_within_bounds_witness :
  (Player.progressPercent Player.initial = 0
   /\ Player.maxWatchedPercent Player.initial = 0)
  /\ (0 <= Player.progressPercent Scenario.at40
      /\ Player.progressPercent Scenario.at40 <= Player.maxWatchedPercent Scenario.at40
      /\ Player.maxWatchedPercent Scenario.at40 <= 100).
Proof.
  split.
  - apply (progress_bars_within_bounds Player.initial). vm_compute. discriminate.
  - apply (progress_bars_within_bounds Scenario.at40);
      vm_compute; first [reflexivity | discriminate].
Defined.

(** ** Formatting times *)

Section Floor.

Lemma Qfloor_unique (x : Q) (k : Z) :
  inject_Z k <= x -> x < inject_Z (k + 1) -> Qfloor x = k.
Proof.
  intros Hlo Hhi.
  pose proof (Qfloor_le x) as Hfl.
  pose proof (Qlt_floor x) as Hfu.
  assert (H1 : (k < Qfloor x + 1)%Z).
  { rewrite Zlt_Qlt. eapply Qle_lt_trans; eassumption. }
  assert (H2 : (Qfloor x < k + 1)%Z).
  { rewrite Zlt_Qlt. eapply Qle_lt_trans; eassumption. }
  lia.
Qed.

(** Whole minutes and remaining whole seconds of a non-negative number of
    seconds, as the two expressions of [formatTime] compute them. *)
Lemma minutes_seconds_of (seconds : Q) :
  0 <= seconds ->
  Qfloor (seconds / 60) = (Qfloor seconds / 60)%Z
  /\ Qfloor (Player.jsRem seconds 60) = (Qfloor seconds mod 60)%Z.
Proof.
  intros Hpos.
  set (f := Qfloor seconds).
  pose proof (Qfloor_le seconds) as Hfl. fold f in Hfl.
  pose proof (Qlt_floor seconds) as Hfu. fold f in Hfu.
  assert (Hf0 : (0 <= f)%Z).
  { change 0%Z with (Qfloor 0). now apply Qfloor_resp_le. }
  pose proof (Z.div_mod f 60 ltac:(lia)) as Hdm.
  pose proof (Z.mod_pos_bound f 60 ltac:(lia)) as Hr.
  set (q := (f / 60)%Z) in *. set (r := (f mod 60)%Z) in *.
  assert (Hfq : inject_Z f == 60 * inject_Z q + inject_Z r).
  { rewrite Hdm, inject_Z_plus, inject_Z_mult. reflexivity. }
  assert (Hr0 : 0 <= inject_Z r) by (change 0 with (inject_Z 0); rewrite <- Zle_Qle; lia).
  assert (Hr1 : inject_Z r + 1 <= 60).
  { change 1 with (inject_Z 1). change 60 with (inject_Z 60).
    rewrite <- inject_Z_plus, <- Zle_Qle. lia. }
  rewrite inject_Z_plus in Hfu. change (inject_Z 1) with 1 in Hfu.
  assert (Hq : Qfloor (seconds / 60) = q).
  { apply Qfloor_unique.
    - apply Qle_shift_div_l; lra.
    - rewrite inject_Z_plus. change (inject_Z 1) with 1.
      apply Qlt_shift_div_r; lra. }
  split; [exact Hq|].
  unfold Player.jsRem, Player.Qtrunc.
  assert (Hdiv0 : 0 <= seconds / 60).
  { apply Qle_shift_div_l; lra. }
  destruct (Qleb_spec 0 (seconds / 60)) as [_|Hn]; [|contradiction].
  rewrite Hq. apply Qfloor_unique.
  - lra.
  - rewrite inject_Z_plus. change (inject_Z 1) with 1. lra.
Qed.

End Floor.

Section TwoDigits.

Lemma padStart_two_digits (z : Z) :
  (0 <= z < 60)%Z ->
  String.length (Player.padStart 2 "0" (pretty z)) = 2%nat.
Proof.
  intros Hz.
  assert (Hall : forallb (fun n => Nat.eqb (String.length
                                (Player.padStart 2 "0" (pretty (Z.of_nat n)))) 2)
                         (seq 0 60) = true) by (vm_compute; reflexivity).
  rewrite forallb_forall in Hall.
  specialize (Hall (Z.to_nat z)).
  rewrite Z2Nat.id in Hall by lia.
  apply Nat.eqb_eq, Hall, in_seq. lia.
Qed.

End TwoDigits.

(** X6.  [formatTime] of the player on a non-negative number of seconds shows
    the whole minutes and the remaining whole seconds of its integer part
    (fractions are dropped, the seconds shown are below 60), with the seconds
    always on two characters; 75.5 s reads 1:15 and 5 s reads 0:05. *)
Theorem formatTime_minutes_and_seconds :
  (forall seconds : Q,
     0 <= seconds ->
     Player.formatTime seconds
     = pretty (Qfloor seconds / 60)%Z +:+ ":"
       +:+ Player.padStart 2 "0" (pretty (Qfloor seconds mod 60)%Z)
     /\ String.length (Player.padStart 2 "0" (pretty (Qfloor seconds mod 60)%Z)) = 2%nat
     /\ (0 <= Qfloor seconds mod 60 < 60)%Z
     /\ ((Qfloor seconds / 60) * 60 + Qfloor seconds mod 60 = Qfloor seconds)%Z)
  /\ Player.formatTime 75.5 = "1:15"%string
  /\ Player.formatTime 5 = "0:05"%string
  /\ Player.formatTime 600 = "10:00"%string.
Proof.
  split; [|vm_compute; repeat split].
  intros seconds Hpos.
  destruct (minutes_seconds_of seconds Hpos) as [Hm Hs].
  pose proof (Z.mod_pos_bound (Qfloor seconds) 60 ltac:(lia)) as Hr.
  unfold Player.formatTime. rewrite Hm, Hs.
  split; [reflexivity|]. split; [now apply padStart_two_digits|].
  split; [exact Hr|].
  pose proof (Z.div_mod (Qfloor seconds) 60 ltac:(lia)). lia.
Qed.

Lemma formatTime_minutes_and_seconds_witness :
  Player.formatTime (151 # 2)
  = pretty (Qfloor (151 # 2) / 60)%Z +:+ ":"
    +:+ Player.padStart 2 "0" (pretty (Qfloor (151 # 2) mod 60)%Z).
Proof.
  destruct formatTime_minutes_and_seconds as [H _].
  apply (H (151 # 2)). vm_compute. discriminate.
Defined.

(** X7.  [formatTime] of the overlay on a non-negative number of
    milliseconds shows whole minutes and the whole seconds left over (below
    60, on two characters), dropping what is less than a second; the five
    minutes of a break read 5:00 and the last second 0:01. *)
Theorem formatTime_ms_minutes_and_seconds :
  (forall ms : Z,
     (0 <= ms)%Z ->
     Monitor.formatTime ms
     = pretty (ms / 60000)%Z +:+ ":"
       +:+ Player.padStart 2 "0" (pretty (ms mod 60000 / 1000)%Z)
     /\ String.length (Player.padStart 2 "0" (pretty (ms mod 60000 / 1000)%Z)) = 2%nat
     /\ (0 <= ms mod 60000 / 1000 < 60)%Z
     /\ ((ms / 60000) * 60000 + (ms mod 60000 / 1000) * 1000 <= ms
         < (ms / 60000) * 60000 + (ms mod 60000 / 1000) * 1000 + 1000)%Z)
  /\ Monitor.formatTime Monitor.BREAK_DURATION_MS = "5:00"%string
  /\ Monitor.formatTime 1000 = "0:01"%string
  /\ Monitor.formatTime 0 = "0:00"%string.
Proof.
  split; [|vm_compute; repeat split].
  intros ms Hpos.
  pose proof (Z.mod_pos_bound ms 60000 ltac:(lia)) as Hr.
  pose proof (Z.div_mod ms 60000 ltac:(lia)) as Hdm.
  pose proof (Z.div_mod (ms mod 60000) 1000 ltac:(lia)) as Hdm2.
  pose proof (Z.mod_pos_bound (ms mod 60000) 1000 ltac:(lia)) as Hr2.
  assert (Hsec : (0 <= ms mod 60000 / 1000 < 60)%Z).
  { split; [apply Z.div_pos; lia | apply Z.div_lt_upper_bound; lia]. }
  unfold Monitor.formatTime. rewrite Z.rem_mod_nonneg by lia.
  split; [reflexivity|]. split; [now apply padStart_two_digits|].
  split; [exact Hsec|]. lia.
Qed.

Lemma formatTime_ms_witness :
  Monitor.formatTime 299000
  = pretty (299000 / 60000)%Z +:+ ":"
    +:+ Player.padStart 2 "0" (pretty (299000 mod 60000 / 1000)%Z).
Proof.
  destruct formatTime_ms_minutes_and_seconds as [H _].
  apply (H 299000%Z). lia.
Defined.

(** * Further properties of the attention tracker *)

Section Accounting.
Import Tracker.
Local Open Scope Z_scope.

Ltac noFace_split h :=
  unfold onNoFace, fires, spanStart;
  destruct (distractionStartRef h);
  cbn -[Nat.leb Z.leb Z.sub withinTrendWindow length];
  destruct (_ <=? _)%Z;
  destruct (eventTriggeredRef h);
  cbn -[Nat.leb Z.leb Z.sub withinTrendWindow length];
  try (destruct (_ <=? _)%nat);
  cbn -[Nat.leb Z.leb Z.sub withinTrendWindow length];
  auto.

Lemma onNoFace_state now h :
  isTracking (state (onNoFace now h)) = isTracking (state h)
  /\ totalFocusedTime (state (onNoFace now h)) = totalFocusedTime (state h)
  /\ totalDistractedTime (state (onNoFace now h)) = totalDistractedTime (state h)
  /\ currentDistractionDuration (state (onNoFace now h)) = now - spanStart now h.
Proof. noFace_split h. Qed.

Lemma onFace_state now h :
  isTracking (state (onFace now h)) = isTracking (state h)
  /\ totalFocusedTime (state (onFace now h))
     = totalFocusedTime (state h) + DETECTION_INTERVAL_MS
  /\ totalDistractedTime (state (onFace now h))
     = match distractionStartRef h with
       | Some start => totalDistractedTime (state h) + (now - start)
       | None => totalDistractedTime (state h)
       end
  /\ currentDistractionDuration (state (onFace now h)) = 0
  /\ streamRef (onFace now h) = streamRef h
  /\ intervalRef (onFace now h) = intervalRef h.
Proof. unfold onFace. destruct (distractionStartRef h); simpl; repeat split. Qed.

(** What no tick touches. *)
Lemma intervalCallback_frame smp h :
  isTracking (state (intervalCallback smp h)) = isTracking (state h)
  /\ videoRef (intervalCallback smp h) = videoRef h
  /\ canvasRef (intervalCallback smp h) = canvasRef h
  /\ detectorRef (intervalCallback smp h) = detectorRef h
  /\ streamRef (intervalCallback smp h) = streamRef h
  /\ intervalRef (intervalCallback smp h) = intervalRef h.
Proof.
  destruct (mountedRefs h) eqn:Hm.
  - destruct (tick_cases smp) as [[Hn _]|[[Hf _]|(_ & _ & Hskip)]].
    + rewrite intervalCallback_noFace by assumption.
      destruct (onNoFace_refs (now smp)
                  (setState (set_detection false (sampleScore smp)) h))
        as (-> & -> & -> & -> & ->).
      destruct (onNoFace_state (now smp)
                  (setState (set_detection false (sampleScore smp)) h)) as (-> & _).
      repeat split.
    + rewrite intervalCallback_face by assumption.
      destruct (onFace_refs (now smp)
                  (setState (set_detection true (sampleScore smp)) h))
        as (-> & -> & ->).
      destruct (onFace_state (now smp)
                  (setState (set_detection true (sampleScore smp)) h))
        as (-> & _ & _ & _ & -> & ->).
      repeat split.
    + rewrite Hskip. repeat split.
  - rewrite intervalCallback_unmounted by assumption. repeat split.
Qed.

(** One tick and the two totals. *)
Lemma tick_totals smp h :
  mountedRefs h = true ->
  totalFocusedTime (state (intervalCallback smp h))
  = totalFocusedTime (state h)
    + (if faceTick smp then DETECTION_INTERVAL_MS else 0).
Proof.
  intros Hm.
  destruct (tick_cases smp) as [[Hn Hf]|[[Hf _]|(_ & Hf & Hskip)]]; rewrite Hf.
  - rewrite intervalCallback_noFace by assumption.
    destruct (onNoFace_state (now smp)
                (setState (set_detection false (sampleScore smp)) h)) as (_ & -> & _).
    simpl. lia.
  - rewrite intervalCallback_face by assumption.
    destruct (onFace_state (now smp)
                (setState (set_detection true (sampleScore smp)) h)) as (_ & -> & _).
    reflexivity.
  - rewrite Hskip. lia.
Qed.

Lemma ticks_focused l : forall h,
  mountedRefs h = true ->
  totalFocusedTime (state (ticks l h))
  = totalFocusedTime (state h) + DETECTION_INTERVAL_MS * Z.of_nat (faceTicks l).
Proof.
  unfold faceTicks.
  induction l as [|smp l IH]; intros h Hm.
  - simpl. lia.
  - change (ticks (smp :: l) h) with (ticks l (intervalCallback smp h)).
    rewrite IH by now rewrite intervalCallback_mounted.
    rewrite tick_totals by assumption. simpl List.filter.
    destruct (faceTick smp); simpl length; lia.
Qed.

(** A stretch of no-face ticks leaves both totals alone and shows the time
    since the instant the timer runs from. *)
Lemma span_totals l : forall h t0,
  mountedRefs h = true ->
  distractionStartRef h = Some t0 ->
  forallb noFaceTick l = true ->
  totalDistractedTime (state (ticks l h)) = totalDistractedTime (state h)
  /\ (forall smp l', l = l' ++ [smp] ->
        currentDistractionDuration (state (ticks l h)) = now smp - t0).
Proof.
  induction l as [|smp l IH] using rev_ind; intros h t0 Hm Hs Hall.
  - split; [reflexivity|]. intros smp l' H. now destruct l'.
  - rewrite forallb_app in Hall. apply andb_prop in Hall as [Hall Hn].
    simpl in Hn. rewrite andb_true_r in Hn.
    destruct (span_in_progress l h t0 Hm Hs Hall) as (Hm1 & Hs1 & _ & _).
    destruct (IH h t0 Hm Hs Hall) as [Hd _].
    rewrite ticks_app. simpl ticks at 1.
    change (ticks [smp] (ticks l h)) with (intervalCallback smp (ticks l h)).
    rewrite intervalCallback_noFace by assumption.
    destruct (onNoFace_state (now smp)
                (setState (set_detection false (sampleScore smp)) (ticks l h)))
      as (_ & _ & Hdist & Hcur).
    split.
    + rewrite Hdist. exact Hd.
    + intros smp' l' Heq. apply app_inj_tail in Heq as [_ <-].
      rewrite Hcur. unfold spanStart. simpl. now rewrite Hs1.
Qed.

End Accounting.

(** X8.  Debounce within one activation.  On a hook whose cells are set,
    whose distraction timer is stopped and whose guard is clear (as a first
    successful [startTracking] leaves it), after any ticks that end in a
    qualifying detection, a continuous span of no-face ticks emits exactly one
    distraction event if one of its ticks lies at least
    [DISTRACTION_THRESHOLD_MS] after its first tick, and none otherwise,
    however long the span goes on. *)
Theorem one_event_per_span_in_fresh_activation :
  forall h0 earlier first rest,
    Tracker.mountedRefs h0 = true ->
    Tracker.distractionStartRef h0 = None ->
    Tracker.eventTriggeredRef h0 = false ->
    Tracker.endsFocused earlier = true ->
    forallb Tracker.noFaceTick (first :: rest) = true ->
    Tracker.emitted (Tracker.ticks earlier h0) (first :: rest)
    = if existsb (fun s => (Tracker.DISTRACTION_THRESHOLD_MS
                            <=? Tracker.now s - Tracker.now first)%Z) rest
      then 1%Z else 0%Z.
Proof. exact first_activation_debounce. Qed.

Lemma one_event_per_span_witness :
  Tracker.emitted
    (Tracker.ticks [Scenario.present 0] (snd Scenario.started))
    (Scenario.away 500 :: Scenario.awayEvery500 1000 40)
  = 1%Z.
Proof.
  rewrite (one_event_per_span_in_fresh_activation
             (snd Scenario.started) [Scenario.present 0]
             (Scenario.away 500) (Scenario.awayEvery500 1000 40));
    vm_compute; reflexivity.
Defined.

(** X9.  Whatever the hook holds, once a tick has emitted a distraction
    event no later tick emits another one until a tick with a qualifying
    detection comes: ticks without one leave the counter where it is. *)
Theorem no_second_event_without_detection :
  forall smp h later,
    Tracker.distractionEvents (Tracker.state (Tracker.intervalCallback smp h))
    <> Tracker.distractionEvents (Tracker.state h) ->
    forallb (fun s => negb (Tracker.faceTick s)) later = true ->
    Tracker.distractionEvents
      (Tracker.state (Tracker.ticks later (Tracker.intervalCallback smp h)))
    = Tracker.distractionEvents (Tracker.state (Tracker.intervalCallback smp h)).
Proof.
  intros smp h later Hemit Hall.
  pose proof (emission_sets_guard smp h Hemit) as Hguard.
  destruct (guard_blocks_refire later _ Hguard Hall) as [Hz _].
  unfold Tracker.emitted in Hz. lia.
Qed.

Lemma no_second_event_without_detection_witness :
  Tracker.distractionEvents
    (Tracker.state
       (Tracker.ticks (Scenario.awayEvery500 10500 100)
          (Tracker.intervalCallback (Scenario.away 10000)
             (Tracker.ticks [Scenario.away 0] (snd Scenario.started)))))
  = Tracker.distractionEvents
      (Tracker.state
         (Tracker.intervalCallback (Scenario.away 10000)
            (Tracker.ticks [Scenario.away 0] (snd Scenario.started)))).
Proof.
  apply (no_second_event_without_detection (Scenario.away 10000)
           (Tracker.ticks [Scenario.away 0] (snd Scenario.started))
           (Scenario.awayEvery500 10500 100)).
  - vm_compute. discriminate.
  - vm_compute. reflexivity.
Defined.

(** X10.  Focused time is counted per qualifying tick, not by the clock:
    while the hook's cells are set, a run of ticks adds
    [DETECTION_INTERVAL_MS] (500 ms) to [totalFocusedTime] for each tick with
    a qualifying detection and nothing for any other tick, whatever the
    timestamps of the ticks are. *)
Theorem totalFocusedTime_counts_face_ticks :
  forall l h,
    Tracker.mountedRefs h = true ->
    Tracker.totalFocusedTime (Tracker.state (Tracker.ticks l h))
    = (Tracker.totalFocusedTime (Tracker.state h)
       + 500 * Z.of_nat (Tracker.faceTicks l))%Z.
Proof. intros l h Hm. now rewrite ticks_focused. Qed.

Lemma totalFocusedTime_counts_face_ticks_witness :
  Tracker.totalFocusedTime
    (Tracker.state (Tracker.ticks Scenario.threeInWindow (snd Scenario.started)))
  = (Tracker.totalFocusedTime (Tracker.state (snd Scenario.started))
     + 500 * Z.of_nat (Tracker.faceTicks Scenario.threeInWindow))%Z.
Proof.
  apply (totalFocusedTime_counts_face_ticks Scenario.threeInWindow (snd Scenario.started)).
  vm_compute. reflexivity.
Defined.

Section DistractedTime.
Import Tracker.
Local Open Scope Z_scope.

Lemma nil_or_last {A} (l : list A) : l = [] \/ exists l' x, l = l' ++ [x].
Proof. induction l using rev_ind; [now left | right; eauto]. Qed.

Lemma span_then_face h first rest back :
  mountedRefs h = true ->
  distractionStartRef h = None ->
  forallb noFaceTick (first :: rest) = true ->
  faceTick back = true ->
  currentDistractionDuration (state (ticks (first :: rest) h))
  = now (List.last rest first) - now first
  /\ totalDistractedTime (state (ticks (first :: rest) h))
     = totalDistractedTime (state h)
  /\ totalDistractedTime (state (ticks ((first :: rest) ++ [back]) h))
     = totalDistractedTime (state h) + (now back - now first)
  /\ currentDistractionDuration (state (ticks ((first :: rest) ++ [back]) h)) = 0
  /\ distractionStartRef (ticks ((first :: rest) ++ [back]) h) = None.
Proof.
  intros Hm Hs Hall Hback.
  simpl in Hall. apply andb_prop in Hall as [Hn Hall].
  destruct (noFace_step first h Hm Hn) as (Hm1 & Hs1 & _ & _).
  unfold spanStart in Hs1. rewrite Hs in Hs1.
  assert (Hfirst : totalDistractedTime (state (intervalCallback first h))
                   = totalDistractedTime (state h)
                   /\ currentDistractionDuration (state (intervalCallback first h))
                      = now first - now first).
  { rewrite intervalCallback_noFace by assumption.
    destruct (onNoFace_state (now first)
                (setState (set_detection false (sampleScore first)) h))
      as (_ & _ & -> & ->).
    unfold spanStart. simpl. rewrite Hs. split; reflexivity. }
  destruct Hfirst as [Hd1 Hc1].
  destruct (span_totals rest _ _ Hm1 Hs1 Hall) as [Hd2 Hc2].
  destruct (span_in_progress rest _ _ Hm1 Hs1 Hall) as (Hm2 & Hs2 & _ & _).
  change (ticks (first :: rest) h) with (ticks rest (intervalCallback first h)).
  assert (Hcur : currentDistractionDuration (state (ticks rest (intervalCallback first h)))
                 = now (List.last rest first) - now first).
  { destruct (nil_or_last rest) as [->|(l' & smp & ->)].
    - simpl. exact Hc1.
    - rewrite last_last. now apply (Hc2 smp l'). }
  split; [exact Hcur|]. split; [now rewrite Hd2|].
  rewrite ticks_app.
  change (ticks (first :: rest) h) with (ticks rest (intervalCallback first h)).
  change (ticks [back] ?x) with (intervalCallback back x).
  rewrite intervalCallback_face by assumption.
  destruct (onFace_state (now back)
              (setState (set_detection true (sampleScore back))
                 (ticks rest (intervalCallback first h))))
    as (_ & _ & Hdist & Hzero & _).
  rewrite onFace_start. simpl distractionStartRef in Hdist. rewrite Hs2 in Hdist.
  rewrite Hdist, Hzero. simpl. rewrite Hd2, Hd1. repeat split.
Qed.

End DistractedTime.

(** X11.  Distracted time.  During a span of no-face ticks that starts with
    the timer stopped, [currentDistractionDuration] is the time from the
    span's first tick to its latest and [totalDistractedTime] does not move;
    the qualifying detection that ends the span adds the time from the span's
    first tick to that detection, sets the current duration to 0 and stops
    the timer.  A span that [stopTracking] cuts is never added: after a
    restart the first qualifying detection leaves the total where it was. *)
Theorem totalDistractedTime_adds_span_on_return :
  (forall h first rest back,
     Tracker.mountedRefs h = true ->
     Tracker.distractionStartRef h = None ->
     forallb Tracker.noFaceTick (first :: rest) = true ->
     Tracker.faceTick back = true ->
     Tracker.currentDistractionDuration
       (Tracker.state (Tracker.ticks (first :: rest) h))
     = (Tracker.now (List.last rest first) - Tracker.now first)%Z
     /\ Tracker.totalDistractedTime (Tracker.state (Tracker.ticks (first :: rest) h))
        = Tracker.totalDistractedTime (Tracker.state h)
     /\ Tracker.totalDistractedTime
          (Tracker.state (Tracker.ticks ((first :: rest) ++ [back]) h))
        = (Tracker.totalDistractedTime (Tracker.state h)
           + (Tracker.now back - Tracker.now first))%Z
     /\ Tracker.currentDistractionDuration
          (Tracker.state (Tracker.ticks ((first :: rest) ++ [back]) h)) = 0%Z
     /\ Tracker.distractionStartRef (Tracker.ticks ((first :: rest) ++ [back]) h)
        = None)
  /\ (forall b h e back,
        Tracker.mediaGranted e = true ->
        Tracker.detectorInitialized e = true ->
        Tracker.faceTick back = true ->
        Tracker.totalDistractedTime
          (Tracker.state
             (Tracker.intervalCallback back
                (snd (Tracker.startTracking e (fst (Tracker.stopTracking (b, h)))))))
        = Tracker.totalDistractedTime (Tracker.state h)).
Proof.
  split.
  - exact span_then_face.
  - intros b h e back Hg Hd Hback.
    destruct (Tracker.stopTracking (b, h)) as [[b1 h1] r] eqn:Hstop.
    assert (Hh1 : Tracker.distractionStartRef h1 = None
                  /\ Tracker.totalDistractedTime (Tracker.state h1)
                     = Tracker.totalDistractedTime (Tracker.state h)).
    { apply (f_equal (fun x => snd (fst x))) in Hstop. simpl in Hstop. subst h1.
      destruct h as [st [v|] c [d|] [s|] [i|] ds ts tr]; split; reflexivity. }
    destruct Hh1 as [Hs1 Hd1]. simpl fst.
    rewrite startTracking_success by assumption. simpl snd.
    rewrite intervalCallback_face by (assumption || reflexivity).
    match goal with
    | |- context [Tracker.onFace ?n ?x] =>
        destruct (onFace_state n x) as (_ & _ & Hdist & _)
    end.
    rewrite Hdist. simpl. rewrite Hs1. exact Hd1.
Qed.

Lemma totalDistractedTime_witness :
  Tracker.totalDistractedTime
    (Tracker.state
       (Tracker.ticks ((Scenario.away 1000 :: Scenario.awayEvery500 1500 10)
                       ++ [Scenario.present 7000])
          (snd Scenario.started)))
  = (Tracker.totalDistractedTime (Tracker.state (snd Scenario.started))
     + (Tracker.now (Scenario.present 7000) - Tracker.now (Scenario.away 1000)))%Z
  /\ Tracker.totalDistractedTime
       (Tracker.state
          (Tracker.intervalCallback (Scenario.present 9000)
             (snd (Tracker.startTracking Scenario.cameraOk
                     (fst (Tracker.stopTracking
                             (fst Scenario.started,
                              Tracker.ticks [Scenario.away 0; Scenario.away 5000]
                                (snd Scenario.started))))))))
     = Tracker.totalDistractedTime
         (Tracker.state (Tracker.ticks [Scenario.away 0; Scenario.away 5000]
                           (snd Scenario.started))).
Proof.
  destruct totalDistractedTime_adds_span_on_return as [Hspan Hcut].
  split.
  - apply (Hspan (snd Scenario.started) (Scenario.away 1000)
             (Scenario.awayEvery500 1500 10) (Scenario.present 7000));
      vm_compute; reflexivity.
  - apply (Hcut (fst Scenario.started)
             (Tracker.ticks [Scenario.away 0; Scenario.away 5000] (snd Scenario.started))
             Scenario.cameraOk (Scenario.present 9000)); reflexivity.
Defined.

Section Failures.
Import Tracker.
Local Open Scope nat_scope.

(** A call of [startTracking] that gets the camera but not the detector. *)
Lemma startTracking_detector_fails e b h :
  mediaGranted e = true -> detectorInitialized e = false ->
  let n := nextHandle b in
  startTracking e (b, h)
  = (mkBrowser (3 + n) ({[n]} ∪ liveStreams b) (liveIntervals b)
       (openDetectors b) (S (alerts b)),
     mkHook (state h) (Some (1 + n)) (Some (2 + n)) (detectorRef h) (Some n)
       (intervalRef h) (distractionStartRef h) (eventTimestampsRef h)
       (eventTriggeredRef h)).
Proof.
  intros Hg Hd n. unfold startTracking, initializeDetector. rewrite Hg, Hd.
  reflexivity.
Qed.

Lemma startTracking_denied e b h :
  mediaGranted e = false -> startTracking e (b, h) = (alert b, h).
Proof. intros Hg. unfold startTracking. now rewrite Hg. Qed.

Lemma consistent_initial : consistent (initialBrowser, initialHook).
Proof.
  unfold consistent. simpl. repeat split; try discriminate.
  intros H. now contradiction H.
Qed.

Lemma consistent_acquired bh : consistent bh -> consistent (startTracking_acquired bh).
Proof.
  destruct bh as [b h]. intros (Hiff & Hdet & Hs & Hd & Hi).
  simpl in Hiff, Hdet, Hs, Hd, Hi.
  unfold consistent. simpl.
  split; [exact Hiff|]. split; [exact Hdet|]. split; [|split; assumption].
  intros x Hx. injection Hx as <-.
  apply elem_of_union_l, elem_of_singleton. reflexivity.
Qed.

Lemma consistent_detector ok bh :
  consistent bh -> consistent (startTracking_detector ok bh).
Proof.
  destruct bh as [b h]. intros (Hiff & Hdet & Hs & Hd & Hi).
  simpl in Hiff, Hdet, Hs, Hd, Hi.
  destruct ok; unfold consistent; simpl.
  - repeat split; try discriminate; try assumption.
    + intros x Hx. injection Hx as <-.
      apply elem_of_union_l, elem_of_singleton. reflexivity.
    + intros x Hx. injection Hx as <-.
      apply elem_of_union_l, elem_of_singleton. reflexivity.
  - auto.
Qed.

Lemma consistent_step bh o : consistent bh -> consistent (step bh o).
Proof.
  intros Hc. destruct o as [smp|e| | | | | |ok]; unfold step.
  - destruct bh as [b h]. destruct Hc as (Hiff & Hdet & Hs & Hd & Hi).
    simpl in Hiff, Hdet, Hs, Hd, Hi. cbn [fst snd].
    destruct (bool_decide _); [unfold consistent; simpl; auto|].
    unfold consistent. simpl.
    destruct (intervalCallback_frame smp h) as (Ht & Hv & Hcv & Hdt & Hst & Hin).
    rewrite Ht, Hst, Hdt, Hin. auto.
  - rewrite startTracking_stretches.
    destruct (mediaGranted e).
    + apply consistent_detector. unfold startTracking_metadata.
      now apply consistent_acquired.
    + destruct bh as [b h]. destruct Hc as (Hiff & Hdet & Hs & Hd & Hi).
      unfold consistent. simpl in *. auto.
  - destruct bh as [b h]. unfold consistent.
    destruct (stopTracking_refs b h) as (Hs' & Hd' & Hi' & _ & _ & _ & Ht').
    cbv zeta in Hs', Hd', Hi', Ht'.
    rewrite Hs', Hd', Hi', Ht'.
    repeat split; try discriminate. intros H. now contradiction H.
  - destruct bh as [b h]. destruct Hc as (Hiff & Hdet & Hs & Hd & Hi).
    unfold consistent. simpl in *. auto.
  - destruct bh as [b h]. destruct Hc as (Hiff & Hdet & Hs & Hd & Hi).
    unfold consistent. simpl in *. auto.
  - now apply consistent_acquired.
  - exact Hc.
  - now apply consistent_detector.
Qed.

Lemma consistent_run ops : forall bh, consistent bh -> consistent (run bh ops).
Proof.
  induction ops as [|o ops IH]; intros bh H; [exact H|].
  apply (IH (step bh o)). now apply consistent_step.
Qed.

(** While every call of [startTracking] runs without anything in between,
    tracking implies that the callback's three cells are set. *)
Lemma tracksMounted_step bh o :
  uninterrupted o = true ->
  tracksMounted (snd bh) -> tracksMounted (snd (step bh o)).
Proof.
  destruct bh as [b h]. unfold tracksMounted. cbn [snd].
  intros Hu Hmnt.
  destruct o as [smp|e| | | | | |ok]; try discriminate Hu; unfold step; cbn [fst snd].
  - destruct (bool_decide _); cbn [snd]; [exact Hmnt|].
    destruct (intervalCallback_frame smp h) as (Ht & _).
    rewrite Ht, intervalCallback_mounted. exact Hmnt.
  - destruct (mediaGranted e) eqn:Hg.
    + destruct (detectorInitialized e) eqn:Hdi.
      * rewrite startTracking_success by assumption. reflexivity.
      * rewrite startTracking_detector_fails by assumption. cbn [snd state].
        intros Ht. specialize (Hmnt Ht). unfold mountedRefs in *. simpl.
        destruct (videoRef h), (canvasRef h), (detectorRef h);
          try discriminate; reflexivity.
    + rewrite startTracking_denied by assumption. exact Hmnt.
  - destruct (stopTracking_refs b h) as (_ & _ & _ & _ & _ & _ & Ht').
    cbv zeta in Ht'. rewrite Ht'. discriminate.
  - simpl. exact Hmnt.
  - simpl. exact Hmnt.
Qed.

Lemma tracksMounted_run ops : forall bh,
  forallb uninterrupted ops = true ->
  tracksMounted (snd bh) -> tracksMounted (snd (run bh ops)).
Proof.
  induction ops as [|o ops IH]; intros bh Hu H; [exact H|].
  simpl in Hu. apply andb_prop in Hu as [Ho Hu].
  apply (IH (step bh o) Hu). now apply tracksMounted_step.
Qed.

(** A [stopTracking] that runs while a call waits for its detector: when the
    detector arrives, tracking is switched on with nothing to look at. *)
Lemma stop_then_detector bh :
  let bh' := step (step bh StopTracking) (DetectorSettled true) in
  isTracking (state (snd bh')) = true
  /\ intervalRef (snd bh') <> None
  /\ videoRef (snd bh') = None
  /\ canvasRef (snd bh') = None
  /\ streamRef (snd bh') = None
  /\ mountedRefs (snd bh') = false.
Proof.
  destruct bh as [b h].
  destruct h as [st [v|] c [d|] [s|] [i|] ds ts tr];
    simpl; repeat split; discriminate.
Qed.

Lemma ticks_unmounted l : forall h, mountedRefs h = false -> ticks l h = h.
Proof.
  induction l as [|smp l IH]; intros h Hm; [reflexivity|].
  change (ticks (smp :: l) h) with (ticks l (intervalCallback smp h)).
  rewrite intervalCallback_unmounted by assumption. now apply IH.
Qed.

End Failures.

(** X12.  The failure paths of [startTracking].  Without the camera nothing
    is acquired and the hook is left as it was; one alert is shown.  With the
    camera but without the detector, the stream just acquired stays live and
    referenced, no interval is started, [isTracking], the detector and the
    interval cells stay as they were and one alert is shown; a [stopTracking]
    afterwards turns that stream off again. *)
Theorem startTracking_failure_paths :
  (forall e b h,
     Tracker.mediaGranted e = false ->
     Tracker.startTracking e (b, h) = (Tracker.alert b, h))
  /\ (forall ops e,
        let bh := Tracker.run (Tracker.initialBrowser, Tracker.initialHook) ops in
        let bh' := Tracker.startTracking e bh in
        Tracker.mediaGranted e = true ->
        Tracker.detectorInitialized e = false ->
        exists stream,
          Tracker.streamRef (snd bh') = Some stream
          /\ (stream ∉ Tracker.liveStreams (fst bh))
          /\ Tracker.liveStreams (fst bh') = {[stream]} ∪ Tracker.liveStreams (fst bh)
          /\ Tracker.liveIntervals (fst bh') = Tracker.liveIntervals (fst bh)
          /\ Tracker.openDetectors (fst bh') = Tracker.openDetectors (fst bh)
          /\ Tracker.state (snd bh') = Tracker.state (snd bh)
          /\ Tracker.detectorRef (snd bh') = Tracker.detectorRef (snd bh)
          /\ Tracker.intervalRef (snd bh') = Tracker.intervalRef (snd bh)
          /\ Tracker.alerts (fst bh') = S (Tracker.alerts (fst bh))
          /\ Tracker.liveStreams (fst (fst (Tracker.stopTracking bh')))
             = Tracker.liveStreams (fst bh)).
Proof.
  split; [exact startTracking_denied|].
  intros ops e bh bh' Hg Hd.
  assert (Hwf : Tracker.wfBrowser (fst bh)).
  { apply run_wf. exact initialBrowser_wf. }
  subst bh'. destruct bh as [b h].
  rewrite startTracking_detector_fails by assumption.
  exists (Tracker.nextHandle b).
  assert (Hfresh : Tracker.nextHandle b ∉ Tracker.liveStreams b).
  { intros Hin.
    assert (Tracker.nextHandle b < Tracker.nextHandle b)%nat
      by (apply Hwf; simpl; rewrite !elem_of_union; tauto). lia. }
  cbn [fst snd] in *.
  split; [reflexivity|]. split; [exact Hfresh|].
  repeat (split; [reflexivity|]).
  match goal with
  | |- context [Tracker.stopTracking (?b1, ?h1)] =>
      destruct (stopTracking_browser b1 h1) as (Hls & _)
  end.
  cbv zeta in Hls. rewrite Hls. simpl.
  apply set_eq. intros x.
  rewrite elem_of_difference, elem_of_union, elem_of_singleton.
  split.
  - intros [[Hx|Hx] Hne]; [contradiction | exact Hx].
  - intros Hx. split; [now right|]. intros ->. contradiction.
Qed.

Lemma startTracking_failure_paths_witness :
  Tracker.startTracking (Tracker.mkStartEnv false true) Scenario.started
  = (Tracker.alert (fst Scenario.started), snd Scenario.started)
  /\ exists stream,
       Tracker.streamRef
         (snd (Tracker.startTracking (Tracker.mkStartEnv true false)
                 (Tracker.run (Tracker.initialBrowser, Tracker.initialHook) [])))
       = Some stream
       /\ (stream ∉ Tracker.liveStreams
                      (fst (Tracker.run (Tracker.initialBrowser, Tracker.initialHook) [])))
       /\ Tracker.liveStreams
            (fst (Tracker.startTracking (Tracker.mkStartEnv true false)
                    (Tracker.run (Tracker.initialBrowser, Tracker.initialHook) [])))
          = {[stream]}
            ∪ Tracker.liveStreams
                (fst (Tracker.run (Tracker.initialBrowser, Tracker.initialHook) [])).
Proof.
  destruct startTracking_failure_paths as [Hdenied Hfail].
  split.
  - apply (Hdenied (Tracker.mkStartEnv false true)
             (fst Scenario.started) (snd Scenario.started)). reflexivity.
  - destruct (Hfail [] (Tracker.mkStartEnv true false) eq_refl eq_refl)
      as (stream & H1 & H2 & H3 & _).
    exists stream. auto.
Defined.

(** X13.  On every state the page can reach, by whatever sequence of ticks,
    calls of [startTracking] (successful or not, interleaved with the rest at
    their awaits or not), stops, dismissals and resets: [isTracking] is true
    exactly when the hook holds an interval; while it is true a detector is
    held; and every stream, detector and interval the hook refers to is still
    live, none is referred to after its release.  As long as nothing runs
    during the awaits of a call, tracking also implies that the video and
    canvas cells are set, so that the callback's guard passes.  That is lost
    when [stopTracking] runs while a call waits for its detector: once the
    detector arrives [isTracking] is true and an interval runs, but the
    stream, video and canvas cells are null, and no tick changes anything. *)
Theorem reachable_states_consistent :
  (forall ops,
     let bh := Tracker.run (Tracker.initialBrowser, Tracker.initialHook) ops in
     (Tracker.isTracking (Tracker.state (snd bh)) = true
      <-> Tracker.intervalRef (snd bh) <> None)
     /\ (Tracker.isTracking (Tracker.state (snd bh)) = true ->
         Tracker.detectorRef (snd bh) <> None)
     /\ (forall x, Tracker.streamRef (snd bh) = Some x ->
                   x ∈ Tracker.liveStreams (fst bh))
     /\ (forall x, Tracker.detectorRef (snd bh) = Some x ->
                   x ∈ Tracker.openDetectors (fst bh))
     /\ (forall x, Tracker.intervalRef (snd bh) = Some x ->
                   x ∈ Tracker.liveIntervals (fst bh)))
  /\ (forall ops,
        forallb Tracker.uninterrupted ops = true ->
        let bh := Tracker.run (Tracker.initialBrowser, Tracker.initialHook) ops in
        Tracker.isTracking (Tracker.state (snd bh)) = true ->
        Tracker.mountedRefs (snd bh) = true)
  /\ (forall bh,
        let bh' := Tracker.step (Tracker.step bh Tracker.StopTracking)
                     (Tracker.DetectorSettled true) in
        Tracker.isTracking (Tracker.state (snd bh')) = true
        /\ Tracker.intervalRef (snd bh') <> None
        /\ Tracker.videoRef (snd bh') = None
        /\ Tracker.canvasRef (snd bh') = None
        /\ Tracker.streamRef (snd bh') = None
        /\ Tracker.mountedRefs (snd bh') = false
        /\ forall smps, Tracker.ticks smps (snd bh') = snd bh')
  /\ (let ops := [Tracker.MediaResolved; Tracker.MetadataLoaded;
                  Tracker.StopTracking; Tracker.DetectorSettled true] in
      let bh := Tracker.run (Tracker.initialBrowser, Tracker.initialHook) ops in
      Tracker.scheduled ops = true
      /\ Tracker.isTracking (Tracker.state (snd bh)) = true
      /\ Tracker.mountedRefs (snd bh) = false
      /\ Tracker.liveStreams (fst bh) = ∅
      /\ Tracker.liveIntervals (fst bh) = {[4%nat]}).
Proof.
  split; [|split; [|split]].
  - intros ops bh. subst bh.
    exact (consistent_run ops _ consistent_initial).
  - intros ops Hu bh. subst bh.
    apply tracksMounted_run; [exact Hu|]. intros H. discriminate H.
  - intros bh bh'. subst bh'.
    destruct (stop_then_detector bh) as (Ht & Hi & Hv & Hc & Hs & Hm).
    cbv zeta in Ht, Hi, Hv, Hc, Hs, Hm.
    repeat (split; [assumption|]).
    intros smps. now apply ticks_unmounted.
  - vm_compute. repeat split.
Qed.

Lemma reachable_states_consistent_witness :
  Tracker.mountedRefs
    (snd (Tracker.run (Tracker.initialBrowser, Tracker.initialHook)
            Scenario.offAndOnAgain)) = true
  /\ 5%nat ∈ Tracker.liveStreams
               (fst (Tracker.run (Tracker.initialBrowser, Tracker.initialHook)
                       Scenario.offAndOnAgain))
  /\ 3%nat ∈ Tracker.openDetectors
               (fst (Tracker.run (Tracker.initialBrowser, Tracker.initialHook)
                       [Tracker.MediaResolved; Tracker.MetadataLoaded;
                        Tracker.StopTracking; Tracker.DetectorSettled true])).
Proof.
  destruct reachable_states_consistent as (Hall & Hmnt & _).
  split; [|split].
  - apply (Hmnt Scenario.offAndOnAgain).
    + vm_compute. reflexivity.
    + vm_compute. reflexivity.
  - destruct (Hall Scenario.offAndOnAgain) as (_ & _ & Hs & _).
    apply Hs. vm_compute. reflexivity.
  - destruct (Hall [Tracker.MediaResolved; Tracker.MetadataLoaded;
                    Tracker.StopTracking; Tracker.DetectorSettled true])
      as (_ & _ & _ & Hd & _).
    apply Hd. vm_compute. reflexivity.
Defined.

(** X14.  [resetStats] sets the event count, both time totals and the list
    of event timestamps to zero and clears the break suggestion; it leaves
    tracking, the camera cells, the running distraction timer and its guard
    as they are.  Afterwards the suggestion stays off until
    [BREAK_SUGGESTION_THRESHOLD] new events have been emitted, and a
    distraction that had already fired its event before the reset is not
    counted again while it lasts. *)
Theorem resetStats_restarts_counting :
  forall h : Tracker.Hook,
    let h' := Tracker.resetStats h in
    (Tracker.distractionEvents (Tracker.state h') = 0%nat
     /\ Tracker.totalFocusedTime (Tracker.state h') = 0%Z
     /\ Tracker.totalDistractedTime (Tracker.state h') = 0%Z
     /\ Tracker.shouldSuggestBreak (Tracker.state h') = false
     /\ Tracker.eventTimestampsRef h' = [])
    /\ (Tracker.isTracking (Tracker.state h'), Tracker.isFaceDetected (Tracker.state h'),
        Tracker.currentDistractionDuration (Tracker.state h'),
        Tracker.detectionScore (Tracker.state h'))
       = (Tracker.isTracking (Tracker.state h), Tracker.isFaceDetected (Tracker.state h),
          Tracker.currentDistractionDuration (Tracker.state h),
          Tracker.detectionScore (Tracker.state h))
    /\ (Tracker.videoRef h', Tracker.canvasRef h', Tracker.detectorRef h',
        Tracker.streamRef h', Tracker.intervalRef h',
        Tracker.distractionStartRef h', Tracker.eventTriggeredRef h')
       = (Tracker.videoRef h, Tracker.canvasRef h, Tracker.detectorRef h,
          Tracker.streamRef h, Tracker.intervalRef h,
          Tracker.distractionStartRef h, Tracker.eventTriggeredRef h)
    /\ (forall later : list Tracker.Sample,
          (Tracker.distractionEvents (Tracker.state (Tracker.ticks later h'))
           < Tracker.BREAK_SUGGESTION_THRESHOLD)%nat ->
          Tracker.shouldSuggestBreak (Tracker.state (Tracker.ticks later h')) = false)
    /\ (forall later : list Tracker.Sample,
          Tracker.eventTriggeredRef h = true ->
          forallb (fun s => negb (Tracker.faceTick s)) later = true ->
          Tracker.distractionEvents (Tracker.state (Tracker.ticks later h')) = 0%nat).
Proof.
  intros h h'. subst h'.
  split; [repeat split|]. split; [reflexivity|]. split; [reflexivity|]. split.
  - intros later Hfew.
    apply suggestion_needs_threshold_events; [reflexivity|].
    simpl. simpl in Hfew. lia.
  - intros later Hguard Hall.
    destruct (guard_blocks_refire later (Tracker.resetStats h) Hguard Hall) as [Hz _].
    unfold Tracker.emitted in Hz. simpl in Hz. lia.
Qed.

Lemma resetStats_restarts_counting_witness :
  Tracker.shouldSuggestBreak
    (Tracker.state
       (Tracker.ticks Scenario.fourthSpan
          (Tracker.resetStats
             (Tracker.ticks Scenario.threeInWindow (snd Scenario.started)))))
  = false.
Proof.
  destruct (resetStats_restarts_counting
              (Tracker.ticks Scenario.threeInWindow (snd Scenario.started)))
    as (_ & _ & _ & Hlater & _).
  apply (Hlater Scenario.fourthSpan). vm_compute. lia.
Defined.

Section Clearing.
Import Tracker.

Lemma start_stop_keep_counters bh o :
  (exists e, o = StartTracking e) \/ o = StopTracking ->
  shouldSuggestBreak (state (snd (step bh o))) = shouldSuggestBreak (state (snd bh))
  /\ distractionEvents (state (snd (step bh o))) = distractionEvents (state (snd bh)).
Proof.
  destruct bh as [b h]. intros [[e ->]| ->]; unfold step; cbn [fst snd].
  - unfold startTracking, initializeDetector.
    destruct (mediaGranted e); simpl; [|auto].
    destruct (detectorInitialized e); simpl; auto.
  - destruct h as [st [v|] c [d|] [s|] [i|] ds ts tr]; simpl; auto.
Qed.

Lemma stretches_keep_counters bh o :
  uninterrupted o = false ->
  shouldSuggestBreak (state (snd (step bh o))) = shouldSuggestBreak (state (snd bh))
  /\ distractionEvents (state (snd (step bh o))) = distractionEvents (state (snd bh)).
Proof.
  destruct bh as [b h].
  destruct o as [smp|e| | | | | |ok]; try discriminate; intros _; simpl; auto.
  destruct ok; simpl; auto.
Qed.

End Clearing.

(** X15.  What takes back.  The break suggestion, once on, is turned off
    only by [dismissBreakSuggestion] or [resetStats], and the event count is
    lowered only by [resetStats]: no tick, start or stop does either, so
    stopping and restarting focus mode keeps both. *)
Theorem only_dismiss_and_reset_take_back :
  (forall bh o,
     Tracker.shouldSuggestBreak (Tracker.state (snd bh)) = true ->
     Tracker.shouldSuggestBreak (Tracker.state (snd (Tracker.step bh o))) = false ->
     o = Tracker.DismissBreakSuggestion \/ o = Tracker.ResetStats)
  /\ (forall bh o,
        (Tracker.distractionEvents (Tracker.state (snd (Tracker.step bh o)))
         < Tracker.distractionEvents (Tracker.state (snd bh)))%nat ->
        o = Tracker.ResetStats).
Proof.
  split.
  - intros bh o Hon Hoff. destruct o as [smp|e| | | | | |ok]; auto; exfalso.
    + destruct bh as [b h]. simpl in *.
      destruct (bool_decide _); simpl in Hoff; [congruence|].
      destruct (tick_trend smp h) as [(_ & _ & Hsb)|(_ & _ & Hsb)];
        rewrite Hsb, Hon in Hoff; discriminate.
    + destruct (start_stop_keep_counters bh (Tracker.StartTracking e)) as [H _];
        [left; eauto | congruence].
    + destruct (start_stop_keep_counters bh Tracker.StopTracking) as [H _];
        [now right | congruence].
    + destruct (stretches_keep_counters bh Tracker.MediaResolved eq_refl) as [H _].
      congruence.
    + destruct (stretches_keep_counters bh Tracker.MetadataLoaded eq_refl) as [H _].
      congruence.
    + destruct (stretches_keep_counters bh (Tracker.DetectorSettled ok) eq_refl)
        as [H _].
      congruence.
  - intros bh o Hless. destruct o as [smp|e| | | | | |ok]; auto; exfalso.
    + destruct bh as [b h]. simpl in *.
      destruct (bool_decide _); simpl in Hless; [lia|].
      destruct (tick_trend smp h) as [(He & _)|(He & _)]; lia.
    + destruct (start_stop_keep_counters bh (Tracker.StartTracking e)) as [_ H];
        [left; eauto | lia].
    + destruct (start_stop_keep_counters bh Tracker.StopTracking) as [_ H];
        [now right | lia].
    + destruct bh as [b h]. simpl in Hless. lia.
    + destruct (stretches_keep_counters bh Tracker.MediaResolved eq_refl) as [_ H].
      lia.
    + destruct (stretches_keep_counters bh Tracker.MetadataLoaded eq_refl) as [_ H].
      lia.
    + destruct (stretches_keep_counters bh (Tracker.DetectorSettled ok) eq_refl)
        as [_ H].
      lia.
Qed.

Lemma only_dismiss_and_reset_witness :
  Tracker.ResetStats = Tracker.DismissBreakSuggestion
  \/ Tracker.ResetStats = Tracker.ResetStats.
Proof.
  destruct only_dismiss_and_reset_take_back as [Hsb _].
  apply (Hsb (fst Scenario.started,
              Tracker.ticks Scenario.threeInWindow (snd Scenario.started))
             Tracker.ResetStats); vm_compute; reflexivity.
Defined.

(** * Further properties of the overlay *)

(** X16.  Pausing on distraction events.  A commit whose event count is 1
    or 2 and above the last count processed pauses the video once and raises
    the notice for that count; a commit that sees the break suggestion always
    pauses; any other commit does nothing and keeps the notice as it is.  The
    last count processed only grows, so over any sequence of commits no event
    count raises the pause with notice more than once. *)
Theorem distraction_effect_pauses_once_per_count :
  (forall de sb m,
     (Monitor.lastProcessedEventRef m < de)%nat -> (1 <= de <= 2)%nat ->
     Monitor.distractionEffect de sb m
     = (Monitor.set_lastProcessedEventRef de
          (Monitor.setPauseNotification (Some (Monitor.notice de)) m),
        [Monitor.PauseVideo; Monitor.ClearNotificationAfter 4000]
        ++ (if sb then [Monitor.PauseVideo] else [])))
  /\ (forall de m, In Monitor.PauseVideo (snd (Monitor.distractionEffect de true m)))
  /\ (forall de m,
        (de <= Monitor.lastProcessedEventRef m)%nat \/ de = 0%nat \/ (3 <= de)%nat ->
        snd (Monitor.distractionEffect de false m) = []
        /\ Monitor.pauseNotification (fst (Monitor.distractionEffect de false m))
           = Monitor.pauseNotification m)
  /\ (forall de sb m,
        Monitor.lastProcessedEventRef (fst (Monitor.distractionEffect de sb m))
        = Nat.max (Monitor.lastProcessedEventRef m) de)
  /\ (forall c commits m,
        (Monitor.noticesAt c commits (snd (Monitor.effects m commits)) <= 1)%nat).
Proof.
  split; [|split; [|split; [|split]]].
  - intros de sb m Hlt Hde. now apply distractionEffect_first_two.
  - exact distractionEffect_forced.
  - intros de m H. now apply (distractionEffect_other de false m).
  - exact distractionEffect_lastProcessed.
  - exact noticesAt_at_most_once.
Qed.

Lemma distraction_effect_pauses_once_witness :
  Monitor.distractionEffect 2 false
    (Monitor.set_lastProcessedEventRef 1 Monitor.initial)
  = (Monitor.set_lastProcessedEventRef 2
       (Monitor.setPauseNotification (Some (Monitor.notice 2))
          (Monitor.set_lastProcessedEventRef 1 Monitor.initial)),
     [Monitor.PauseVideo; Monitor.ClearNotificationAfter 4000] ++ [])
  /\ snd (Monitor.distractionEffect 2 false
            (Monitor.set_lastProcessedEventRef 2 Monitor.initial)) = [].
Proof.
  destruct distraction_effect_pauses_once_per_count as (Hfirst & _ & Hother & _).
  split.
  - apply (Hfirst 2%nat false (Monitor.set_lastProcessedEventRef 1 Monitor.initial));
      simpl; lia.
  - apply (Hother 2%nat (Monitor.set_lastProcessedEventRef 2 Monitor.initial)).
    left. simpl. lia.
Defined.

Section Countdown.
Import Monitor.
Local Open Scope Z_scope.

Lemma breakTimerTicks_S n m :
  breakTimerTicks (S n) m = fst (breakTimerTick (breakTimerTicks n m)).
Proof. reflexivity. Qed.

(** While more than a second is left the timer only counts down. *)
Lemma countdown_running n : forall m,
  isOnBreak m = true ->
  1000 * Z.of_nat n < breakTimeLeft m ->
  isOnBreak (breakTimerTicks n m) = true
  /\ breakTimeLeft (breakTimerTicks n m) = breakTimeLeft m - 1000 * Z.of_nat n
  /\ showBreakEndAlert (breakTimerTicks n m) = showBreakEndAlert m.
Proof.
  induction n as [|n IH]; intros m Hon Hleft.
  - change (breakTimerTicks 0 m) with m. repeat split; first [assumption | lia].
  - destruct (IH m Hon ltac:(lia)) as (Hon' & Hleft' & Halert').
    rewrite breakTimerTicks_S. unfold breakTimerTick. rewrite Hon'.
    destruct (Z.leb_spec (breakTimeLeft (breakTimerTicks n m)) 1000) as [Hle|Hgt].
    + lia.
    + simpl. repeat split; try assumption. lia.
Qed.

Lemma countdown_over n : forall m,
  isOnBreak m = false -> breakTimerTicks n m = m.
Proof.
  induction n as [|n IH]; intros m Hoff; [reflexivity|].
  rewrite breakTimerTicks_S, IH by assumption.
  unfold breakTimerTick. now rewrite Hoff.
Qed.

Lemma breakTimerTicks_add n k m :
  breakTimerTicks (n + k) m = breakTimerTicks n (breakTimerTicks k m).
Proof. unfold breakTimerTicks. now rewrite Nat.iter_add. Qed.

End Countdown.

(** X17.  The break countdown.  With [t > 0] milliseconds left, the
    one-second timer counts down by 1000 per firing and the break goes on
    for the first [ceil(t / 1000) - 1] firings; the firing after those ends
    the break, clears the timer, plays the alert sound, shows the end-of-break
    alert and leaves 0 on the clock, and nothing changes after that.  The
    break that [handleTakeBreak] starts ends at its 300th firing. *)
Theorem break_ends_after_countdown :
  (forall m,
     Monitor.isOnBreak m = true ->
     (0 < Monitor.breakTimeLeft m)%Z ->
     let k := Z.to_nat ((Monitor.breakTimeLeft m + 999) / 1000) in
     (forall n, (n < k)%nat ->
        Monitor.isOnBreak (Monitor.breakTimerTicks n m) = true
        /\ Monitor.breakTimeLeft (Monitor.breakTimerTicks n m)
           = (Monitor.breakTimeLeft m - 1000 * Z.of_nat n)%Z
        /\ Monitor.showBreakEndAlert (Monitor.breakTimerTicks n m)
           = Monitor.showBreakEndAlert m)
     /\ snd (Monitor.breakTimerTick (Monitor.breakTimerTicks (k - 1) m))
        = [Monitor.ClearBreakInterval; Monitor.PlayAlertSound]
     /\ (forall n, (k <= n)%nat ->
           Monitor.isOnBreak (Monitor.breakTimerTicks n m) = false
           /\ Monitor.breakTimeLeft (Monitor.breakTimerTicks n m) = 0%Z
           /\ Monitor.showBreakEndAlert (Monitor.breakTimerTicks n m) = true))
  /\ (forall a,
        Z.to_nat ((Monitor.breakTimeLeft
                     (Monitor.monitor (fst (Monitor.handleTakeBreak a))) + 999) / 1000)
        = 300%nat).
Proof.
  split; [|reflexivity].
  intros m Hon Hpos k.
  set (t := Monitor.breakTimeLeft m) in *.
  assert (Hk : (1000 * (Z.of_nat k - 1) < t <= 1000 * Z.of_nat k)%Z).
  { subst k. rewrite Z2Nat.id by (apply Z.div_pos; lia).
    pose proof (Z.div_mod (t + 999) 1000 ltac:(lia)).
    pose proof (Z.mod_pos_bound (t + 999) 1000 ltac:(lia)). lia. }
  assert (Hk1 : (1 <= k)%nat) by lia.
  assert (Hrun : forall n, (n < k)%nat ->
            Monitor.isOnBreak (Monitor.breakTimerTicks n m) = true
            /\ Monitor.breakTimeLeft (Monitor.breakTimerTicks n m)
               = (t - 1000 * Z.of_nat n)%Z
            /\ Monitor.showBreakEndAlert (Monitor.breakTimerTicks n m)
               = Monitor.showBreakEndAlert m).
  { intros n Hn. apply countdown_running; [assumption|]. fold t. lia. }
  destruct (Hrun (k - 1)%nat ltac:(lia)) as (Hon1 & Ht1 & _).
  assert (Hlast : (Monitor.breakTimeLeft (Monitor.breakTimerTicks (k - 1) m) <=? 1000)%Z
                  = true).
  { apply Z.leb_le. rewrite Ht1. lia. }
  split; [exact Hrun|]. split.
  - unfold Monitor.breakTimerTick. now rewrite Hon1, Hlast.
  - intros n Hn.
    assert (Hend : Monitor.breakTimerTicks (S (k - 1)) m
                   = Monitor.setBreakTimeLeft 0
                       (Monitor.setShowBreakEndAlert true
                          (Monitor.setIsOnBreak false
                             (Monitor.breakTimerTicks (k - 1) m)))).
    { rewrite breakTimerTicks_S. unfold Monitor.breakTimerTick.
      now rewrite Hon1, Hlast. }
    replace n with ((n - k) + S (k - 1))%nat by lia.
    rewrite breakTimerTicks_add, Hend.
    rewrite countdown_over by reflexivity. repeat split.
Qed.

Lemma break_ends_after_countdown_witness :
  Monitor.isOnBreak
    (Monitor.breakTimerTicks 299
       (Monitor.monitor (fst (Monitor.handleTakeBreak Monitor.mounted)))) = true
  /\ Monitor.showBreakEndAlert
       (Monitor.breakTimerTicks 300
          (Monitor.monitor (fst (Monitor.handleTakeBreak Monitor.mounted)))) = true.
Proof.
  destruct break_ends_after_countdown as [H _].
  destruct (H (Monitor.monitor (fst (Monitor.handleTakeBreak Monitor.mounted)))
              eq_refl eq_refl) as (Hrun & _ & Hend).
  split.
  - apply (Hrun 299%nat). vm_compute. lia.
  - apply (Hend 300%nat). vm_compute. lia.
Defined.

(** X18.  Entering and leaving a break.  While the break modal is shown,
    taking the break pauses the video once, hides the modal, puts five
    minutes on the clock and leaves the camera and the tracker running (the
    browser's resources, [isTracking] and the hook's cells are untouched);
    with the modal not shown the two modal buttons do nothing.  Resuming
    early during a break resumes the video once, ends the break and shows no
    end-of-break alert, also not at any later timer firing; outside a break
    it does nothing.  Dismissing the end-of-break alert resumes the video
    once. *)
Theorem break_entry_and_exit :
  (forall a,
     Monitor.breakModalShown a = true ->
     let r := Monitor.step a Monitor.TakeBreak in
     snd r = [Monitor.PauseVideo]
     /\ Monitor.breakModalShown (fst r) = false
     /\ Monitor.isOnBreak (Monitor.monitor (fst r)) = true
     /\ Monitor.breakTimeLeft (Monitor.monitor (fst r)) = Monitor.BREAK_DURATION_MS
     /\ Monitor.browser (fst r) = Monitor.browser a
     /\ Tracker.isTracking (Tracker.state (Monitor.hook (fst r)))
        = Tracker.isTracking (Tracker.state (Monitor.hook a))
     /\ (Tracker.videoRef (Monitor.hook (fst r)), Tracker.canvasRef (Monitor.hook (fst r)),
         Tracker.detectorRef (Monitor.hook (fst r)), Tracker.streamRef (Monitor.hook (fst r)),
         Tracker.intervalRef (Monitor.hook (fst r)))
        = (Tracker.videoRef (Monitor.hook a), Tracker.canvasRef (Monitor.hook a),
           Tracker.detectorRef (Monitor.hook a), Tracker.streamRef (Monitor.hook a),
           Tracker.intervalRef (Monitor.hook a)))
  /\ (forall a,
        Monitor.breakModalShown a = false ->
        Monitor.step a Monitor.TakeBreak = (a, [])
        /\ Monitor.step a Monitor.ContinueAnyway = (a, []))
  /\ (forall a,
        Monitor.isOnBreak (Monitor.monitor a) = true ->
        let r := Monitor.step a Monitor.ResumeEarly in
        snd r = [Monitor.ResumeVideo]
        /\ Monitor.isOnBreak (Monitor.monitor (fst r)) = false
        /\ Monitor.breakTimeLeft (Monitor.monitor (fst r)) = 0%Z
        /\ forall n,
             Monitor.showBreakEndAlert
               (Monitor.breakTimerTicks n (Monitor.monitor (fst r)))
             = Monitor.showBreakEndAlert (Monitor.monitor a))
  /\ (forall a,
        Monitor.isOnBreak (Monitor.monitor a) = false ->
        Monitor.step a Monitor.ResumeEarly = (a, []))
  /\ (forall a,
        snd (Monitor.handleDismissBreakEnd a) = [Monitor.ResumeVideo]
        /\ Monitor.showBreakEndAlert (Monitor.monitor (fst (Monitor.handleDismissBreakEnd a)))
           = false).
Proof.
  split; [|split; [|split; [|split]]].
  - intros a Hshown r. subst r. simpl. rewrite Hshown.
    unfold Monitor.breakModalShown. simpl. repeat split.
  - intros a Hhidden. simpl. rewrite Hhidden. split; reflexivity.
  - intros a Hon r. subst r. simpl. rewrite Hon. simpl.
    repeat (split; [reflexivity|]).
    intros n. now rewrite countdown_over.
  - intros a Hoff. simpl. now rewrite Hoff.
  - intros a. split; reflexivity.
Qed.

Lemma break_entry_and_exit_witness :
  snd (Monitor.step
         (fst (Monitor.run Monitor.mounted
                 ([Monitor.Sampler (Tracker.StartTracking Scenario.cameraOk)]
                  ++ Scenario.distraction 0 ++ Scenario.distraction 12000
                  ++ Scenario.distraction 24000)))
         Monitor.TakeBreak)
  = [Monitor.PauseVideo]
  /\ Monitor.step Monitor.mounted Monitor.TakeBreak = (Monitor.mounted, [])
  /\ snd (Monitor.step (fst (Monitor.handleTakeBreak Monitor.mounted)) Monitor.ResumeEarly)
     = [Monitor.ResumeVideo].
Proof.
  destruct break_entry_and_exit as (Htake & Hhidden & Hearly & _).
  split; [|split].
  - apply (Htake (fst (Monitor.run Monitor.mounted
                         ([Monitor.Sampler (Tracker.StartTracking Scenario.cameraOk)]
                          ++ Scenario.distraction 0 ++ Scenario.distraction 12000
                          ++ Scenario.distraction 24000)))).
    vm_compute. reflexivity.
  - apply (Hhidden Monitor.mounted). reflexivity.
  - apply (Hearly (fst (Monitor.handleTakeBreak Monitor.mounted))). reflexivity.
Defined.

(** * The course page *)

Section Course.
Import CoursePage.

Lemma findProgress_Some videoId ps p :
  findProgress videoId ps = Some p -> In p ps /\ video_id p = videoId.
Proof.
  unfold findProgress. intros H. apply find_some in H as [Hin Heq].
  split; [exact Hin|]. now apply Nat.eqb_eq.
Qed.

Lemma findProgress_None videoId ps :
  findProgress videoId ps = None -> forall p, In p ps -> video_id p <> videoId.
Proof.
  unfold findProgress. intros H p Hin Heq.
  pose proof (find_none _ _ H p Hin) as Hf. simpl in Hf.
  apply Nat.eqb_neq in Hf. contradiction.
Qed.

End Course.

(** X19.  Selecting a video in the sidebar.  A click changes the active
    video only to the clicked one and only if the first progress entry with
    its id grants access; a click on a locked video opens the quiz modal at
    its checkpoint when the entry names one (not 0) and does nothing
    otherwise; a click never alters the progress list.  A video without a
    progress entry cannot be selected, although the sidebar shows the first
    such video as accessible. *)
Theorem handleVideoSelect_respects_access :
  (forall video s,
     CoursePage.progress (CoursePage.handleVideoSelect video s) = CoursePage.progress s
     /\ CoursePage.videos (CoursePage.handleVideoSelect video s) = CoursePage.videos s)
  /\ (forall video s,
        CoursePage.activeVideo (CoursePage.handleVideoSelect video s)
        <> CoursePage.activeVideo s ->
        CoursePage.activeVideo (CoursePage.handleVideoSelect video s) = Some video
        /\ exists p,
             CoursePage.findProgress (CoursePage.id video) (CoursePage.progress s) = Some p
             /\ In p (CoursePage.progress s)
             /\ CoursePage.video_id p = CoursePage.id video
             /\ CoursePage.can_access p = true)
  /\ (forall video s p,
        CoursePage.findProgress (CoursePage.id video) (CoursePage.progress s) = Some p ->
        CoursePage.can_access p = true ->
        CoursePage.handleVideoSelect video s = CoursePage.setActiveVideo (Some video) s)
  /\ (forall video s p,
        CoursePage.findProgress (CoursePage.id video) (CoursePage.progress s) = Some p ->
        CoursePage.can_access p = false ->
        CoursePage.activeVideo (CoursePage.handleVideoSelect video s)
        = CoursePage.activeVideo s
        /\ (forall n,
              CoursePage.quiz_required p = Some (S n) ->
              CoursePage.handleVideoSelect video s
              = CoursePage.setShowQuiz true
                  (CoursePage.setQuizCheckpoint (Some (S n)) s))
        /\ (CoursePage.quiz_required p = None
            \/ CoursePage.quiz_required p = Some 0%nat ->
            CoursePage.handleVideoSelect video s = s))
  /\ (forall video s,
        (forall p, In p (CoursePage.progress s) ->
                   CoursePage.video_id p <> CoursePage.id video) ->
        CoursePage.handleVideoSelect video s = s
        /\ CoursePage.shownAccessible 0 video s = true).
Proof.
  split; [|split; [|split; [|split]]].
  - intros video s. unfold CoursePage.handleVideoSelect.
    destruct (CoursePage.findProgress _ _) as [p|]; [|auto].
    destruct (CoursePage.can_access p); [auto|].
    destruct (CoursePage.truthy _); auto.
  - intros video s. unfold CoursePage.handleVideoSelect.
    destruct (CoursePage.findProgress _ _) as [p|] eqn:Hf.
    + destruct (CoursePage.can_access p) eqn:Hacc.
      * intros _. split; [reflexivity|]. exists p.
        destruct (findProgress_Some _ _ _ Hf). auto.
      * destruct (CoursePage.truthy _); intros H; now contradiction H.
    + intros H. now contradiction H.
  - intros video s p Hf Hacc. unfold CoursePage.handleVideoSelect.
    now rewrite Hf, Hacc.
  - intros video s p Hf Hacc. unfold CoursePage.handleVideoSelect.
    rewrite Hf, Hacc.
    destruct (CoursePage.quiz_required p) as [[|n]|] eqn:Hq; simpl.
    + split; [reflexivity|]. split; [discriminate | reflexivity].
    + split; [reflexivity|]. split.
      * intros m Hm. injection Hm as <-. reflexivity.
      * intros [H|H]; discriminate H.
    + split; [reflexivity|]. split; [discriminate | reflexivity].
  - intros video s Hnone.
    assert (Hf : CoursePage.findProgress (CoursePage.id video) (CoursePage.progress s)
                 = None).
    { destruct (CoursePage.findProgress _ _) as [p|] eqn:Hf; [|reflexivity].
      destruct (findProgress_Some _ _ _ Hf) as [Hin Hid].
      now apply Hnone in Hin. }
    unfold CoursePage.handleVideoSelect, CoursePage.shownAccessible.
    rewrite Hf. split; reflexivity.
Qed.

Lemma handleVideoSelect_respects_access_witness :
  CoursePage.handleVideoSelect (CoursePage.mkVideo 12 "Edges" 2 "/stream/12") Scenario.page3
  = CoursePage.setActiveVideo (Some (CoursePage.mkVideo 12 "Edges" 2 "/stream/12"))
      Scenario.page3
  /\ CoursePage.handleVideoSelect
       (CoursePage.mkVideo 13 "Convolutions" 3 "/stream/13") Scenario.page3
     = CoursePage.setShowQuiz true
         (CoursePage.setQuizCheckpoint (Some 3%nat) Scenario.page3)
  /\ CoursePage.handleVideoSelect
       (CoursePage.mkVideo 13 "Convolutions" 3 "/stream/13") Scenario.lockedNoQuiz
     = Scenario.lockedNoQuiz
  /\ CoursePage.handleVideoSelect Scenario.unlisted Scenario.page3 = Scenario.page3.
Proof.
  destruct handleVideoSelect_respects_access as (_ & _ & Hopen & Hlocked & Hnone).
  split; [|split; [|split]].
  - apply (Hopen (CoursePage.mkVideo 12 "Edges" 2 "/stream/12") Scenario.page3
             (CoursePage.mkVideoProgress 12 "Edges" 2 30 120 60 false true None));
      reflexivity.
  - destruct (Hlocked (CoursePage.mkVideo 13 "Convolutions" 3 "/stream/13")
                Scenario.page3
                (CoursePage.mkVideoProgress 13 "Convolutions" 3 0 90 0 false false
                   (Some 3%nat)) eq_refl eq_refl) as (_ & Hquiz & _).
    apply (Hquiz 2%nat). reflexivity.
  - destruct (Hlocked (CoursePage.mkVideo 13 "Convolutions" 3 "/stream/13")
                Scenario.lockedNoQuiz
                (CoursePage.mkVideoProgress 13 "Convolutions" 3 0 90 0 false false
                   None) eq_refl eq_refl) as (_ & _ & Hnothing).
    apply Hnothing. now left.
  - apply (Hnone Scenario.unlisted Scenario.page3).
    intros p Hin. simpl in Hin.
    destruct Hin as [<-|[<-|[<-|[]]]]; simpl; lia.
Defined.

(** X20.  The percentage shown beside a video.  An unknown video and an
    entry whose total is 0 give 0, nothing is divided by zero; for the first
    entry of the video, with a positive total and a ratchet between 0 and the
    total, the result is a whole number between 0 and 100, and it is 100 when
    the ratchet has reached the total. *)
Theorem getProgressPercent_bounds :
  (forall videoId s,
     CoursePage.findProgress videoId (CoursePage.progress s) = None ->
     CoursePage.getProgressPercent videoId s = 0%Z)
  /\ (forall videoId s p,
        CoursePage.findProgress videoId (CoursePage.progress s) = Some p ->
        CoursePage.total_seconds p == 0 ->
        CoursePage.getProgressPercent videoId s = 0%Z)
  /\ (forall videoId s p,
        CoursePage.findProgress videoId (CoursePage.progress s) = Some p ->
        0 < CoursePage.total_seconds p ->
        0 <= CoursePage.max_watched_seconds p ->
        CoursePage.max_watched_seconds p <= CoursePage.total_seconds p ->
        (0 <= CoursePage.getProgressPercent videoId s <= 100)%Z
        /\ (CoursePage.max_watched_seconds p == CoursePage.total_seconds p ->
            CoursePage.getProgressPercent videoId s = 100%Z)).
Proof.
  split; [|split].
  - intros videoId s Hf. unfold CoursePage.getProgressPercent. now rewrite Hf.
  - intros videoId s p Hf Hz. unfold CoursePage.getProgressPercent. rewrite Hf.
    apply Qeq_bool_iff in Hz. now rewrite Hz.
  - intros videoId s p Hf Hpos Hlo Hhi.
    unfold CoursePage.getProgressPercent. rewrite Hf.
    destruct (Qeq_bool (CoursePage.total_seconds p) 0) eqn:Hz.
    { apply Qeq_bool_iff in Hz. lra. }
    destruct (ratio_bounds (CoursePage.max_watched_seconds p)
                (CoursePage.max_watched_seconds p) (CoursePage.total_seconds p))
      as (H0 & _ & H100); try assumption; try lra.
    unfold CoursePage.round. split; [split|].
    + apply Z.le_trans with (Qfloor 0); [vm_compute; discriminate|].
      apply Qfloor_resp_le. lra.
    + apply Z.le_trans with (Qfloor (201 # 2)); [|vm_compute; discriminate].
      apply Qfloor_resp_le. lra.
    + intros Heq.
      assert (Hx : CoursePage.max_watched_seconds p / CoursePage.total_seconds p * 100
                   + (1 # 2) == 201 # 2).
      { rewrite Heq. field. lra. }
      rewrite Hx. reflexivity.
Qed.

Lemma getProgressPercent_bounds_witness :
  CoursePage.getProgressPercent 14 Scenario.page3 = 0%Z
  /\ (0 <= CoursePage.getProgressPercent 12 Scenario.page3 <= 100)%Z.
Proof.
  destruct getProgressPercent_bounds as (Hnone & _ & Hin).
  split.
  - apply (Hnone 14%nat Scenario.page3). reflexivity.
  - apply (Hin 12%nat Scenario.page3
             (CoursePage.mkVideoProgress 12 "Edges" 2 30 120 60 false true None));
      vm_compute; first [reflexivity | discriminate].
Defined.

Section InitialVideo.
Import CoursePage.

Lemma firstAccessible_spec ps p :
  firstAccessible ps = Some p ->
  In p ps /\ can_access p = true
  /\ (completed p = false
      \/ forall q, In q ps -> can_access q = true -> completed q = true).
Proof.
  unfold firstAccessible.
  destruct (List.find (fun p => can_access p && negb (completed p)) ps) as [p0|] eqn:H1.
  - intros H. injection H as <-. apply find_some in H1 as [Hin Hc].
    apply andb_prop in Hc as [Ha Hn]. apply negb_true_iff in Hn. auto.
  - intros H2. apply find_some in H2 as [Hin Ha].
    repeat split; try assumption. right. intros q Hq Hqa.
    pose proof (find_none _ _ H1 q Hq) as Hf. simpl in Hf.
    rewrite Hqa in Hf. simpl in Hf. now apply negb_false_iff in Hf.
Qed.

End InitialVideo.

(** X21.  The video opened when the page loads.  None is chosen for a course
    without videos or when the progress could not be fetched; otherwise one
    is always chosen, and it is a video of the course: either the one of the
    first accessible entry (an unfinished one whenever an accessible
    unfinished entry exists), or, when no entry is accessible or that entry's
    video is not in the course, the first video of the course. *)
Theorem initialActiveVideo_choice :
  (forall vs data,
     CoursePage.initialActiveVideo vs data = None <-> (vs = [] \/ data = None))
  /\ (forall vs data v,
        CoursePage.initialActiveVideo vs data = Some v -> In v vs)
  /\ (forall vs ps v,
        CoursePage.initialActiveVideo vs (Some ps) = Some v ->
        hd_error vs = Some v
        \/ exists p,
             In p ps /\ CoursePage.can_access p = true
             /\ CoursePage.id v = CoursePage.video_id p
             /\ (CoursePage.completed p = false
                 \/ forall q, In q ps -> CoursePage.can_access q = true ->
                              CoursePage.completed q = true))
  /\ (forall vs ps v,
        (forall q, In q ps -> CoursePage.can_access q = false) ->
        CoursePage.initialActiveVideo vs (Some ps) = Some v ->
        hd_error vs = Some v).
Proof.
  split; [|split; [|split]].
  - intros vs data. unfold CoursePage.initialActiveVideo.
    destruct vs as [|first vs']; [intuition|].
    destruct data as [ps|]; [|intuition].
    split; [|intros [H|H]; discriminate].
    destruct (CoursePage.firstAccessible ps); [|discriminate].
    destruct (List.find _ _); discriminate.
  - intros vs data v. unfold CoursePage.initialActiveVideo.
    destruct vs as [|first vs']; [discriminate|].
    destruct data as [ps|]; [|discriminate].
    destruct (CoursePage.firstAccessible ps) as [p|].
    + destruct (List.find _ (first :: vs')) as [video|] eqn:Hf.
      * intros H. injection H as <-. now apply find_some in Hf.
      * intros H. injection H as <-. now left.
    + intros H. injection H as <-. now left.
  - intros vs ps v. unfold CoursePage.initialActiveVideo.
    destruct vs as [|first vs']; [discriminate|].
    destruct (CoursePage.firstAccessible ps) as [p|] eqn:Hp.
    + destruct (List.find _ (first :: vs')) as [video|] eqn:Hf.
      * intros H. injection H as <-. right. exists p.
        destruct (firstAccessible_spec ps p Hp) as (Hin & Ha & Hc).
        apply find_some in Hf as [_ Hid]. apply Nat.eqb_eq in Hid. auto.
      * intros H. injection H as <-. now left.
    + intros H. injection H as <-. now left.
  - intros vs ps v Hlocked. unfold CoursePage.initialActiveVideo.
    destruct vs as [|first vs']; [discriminate|].
    destruct (CoursePage.firstAccessible ps) as [p|] eqn:Hp.
    + destruct (firstAccessible_spec ps p Hp) as (Hin & Ha & _).
      rewrite (Hlocked p Hin) in Ha. discriminate.
    + intros H. injection H as <-. reflexivity.
Qed.

Lemma initialActiveVideo_choice_witness :
  In (CoursePage.mkVideo 12 "Edges" 2 "/stream/12") Scenario.course3
  /\ CoursePage.initialActiveVideo Scenario.course3 None = None.
Proof.
  destruct initialActiveVideo_choice as (Hnone & Hin & _).
  split.
  - apply (Hin Scenario.course3 (Some Scenario.progress3)). reflexivity.
  - apply (Hnone Scenario.course3 None). now right.
Defined.
